(** * ASYCUDA XML converter ([batch.py]): model and verification

    The converter reads two sheets of a workbook ("SAD" and "Items"),
    builds an [xml.etree.ElementTree] document by appending sub-elements to
    parents it holds references to, pretty-prints it through [minidom], and
    packs one archive entry per converted workbook.

    The development follows the source function by function.  Python [str]
    values are Rocq strings (read as UTF-8), dictionaries with string keys
    are [gmap string string], the element tree under construction is an
    explicit store threaded through a small state-and-failure monad, and
    Python's [float] is IEEE binary64 taken from [SpecFloat]. *)

From Stdlib Require Import ZArith List String Ascii Bool Lia.
From Stdlib Require Import Floats.SpecFloat.
From stdpp Require Import gmap strings list pretty.

Open Scope string_scope.
Open Scope list_scope.
Set Warnings "-register-all".

(** ** Python strings *)

Module Py.

(** Truth value of a [str]: the empty string is false. *)
Definition truthy (s : string) : bool :=
  match s with
  | EmptyString => false
  | String _ _ => true
  end.

(** [a != b] on strings. *)
Definition ne (a b : string) : bool := negb (String.eqb a b).

(** [d.get(key, default)] *)
Definition get (key default : string) (d : gmap string string) : string :=
  match d !! key with
  | Some v => v
  | None => default
  end.

(** [str(n)] for a non-negative [int] such as [len(...)]. *)
Definition str_nat (n : nat) : string := pretty n.

(** [str(z)] for an [int]. *)
Definition str_int (z : Z) : string := pretty z.

Definition newline : string := String (ascii_of_nat 10) EmptyString.
Definition dquote : string := String (ascii_of_nat 34) EmptyString.

(** ASCII part of [str.lower()]. *)
Definition lower_ascii (a : ascii) : ascii :=
  let n := nat_of_ascii a in
  if (65 <=? n)%nat && (n <=? 90)%nat then ascii_of_nat (n + 32) else a.

Fixpoint lower (s : string) : string :=
  match s with
  | EmptyString => EmptyString
  | String a r => String (lower_ascii a) (lower r)
  end.

(** [s.startswith(prefix)] *)
Fixpoint startswith (s prefix : string) {struct prefix} : bool :=
  match prefix with
  | EmptyString => true
  | String a prefix' =>
      match s with
      | EmptyString => false
      | String b s' => Ascii.eqb a b && startswith s' prefix'
      end
  end.

(** [s.endswith(suffix)] *)
Definition endswith (s suffix : string) : bool :=
  let n := String.length s in
  let k := String.length suffix in
  (k <=? n)%nat && String.eqb (substring (n - k) k s) suffix.

(** [s.endswith((a, b, ...))] with a tuple of suffixes. *)
Definition endswith_any (s : string) (suffixes : list string) : bool :=
  existsb (endswith s) suffixes.

(** Index of the last occurrence of the character [c], if any. *)
Fixpoint rindex (c : ascii) (s : string) : option nat :=
  match s with
  | EmptyString => None
  | String a r =>
      match rindex c r with
      | Some i => Some (S i)
      | None => if Ascii.eqb a c then Some 0%nat else None
      end
  end.

(** [s.rsplit(c, 1)[0]]: the part before the last [c], or [s] itself when
    [c] does not occur. *)
Definition rsplit1_head (c : ascii) (s : string) : string :=
  match rindex c s with
  | Some i => substring 0 i s
  | None => s
  end.

(** The characters of a text, as code points.  A [str] is held as its UTF-8
    bytes (a lone surrogate as its three bytes); bytes that are no UTF-8
    stand for no text and read as U+FFFD.  [pending] counts the continuation
    bytes the character being read still needs and [acc] holds its bits. *)
Definition replacement : N := 65533.

Fixpoint code_points_from (pending : nat) (acc : N) (l : list ascii) : list N :=
  match l with
  | [] =>
      match pending with
      | O => []
      | S _ => [replacement]
      end
  | b :: r =>
      let n := N_of_ascii b in
      match pending with
      | O =>
          if (n <? 128)%N then n :: code_points_from 0 0 r
          else if (n <? 192)%N then replacement :: code_points_from 0 0 r
          else if (n <? 224)%N then code_points_from 1 (n - 192) r
          else if (n <? 240)%N then code_points_from 2 (n - 224) r
          else if (n <? 248)%N then code_points_from 3 (n - 240) r
          else replacement :: code_points_from 0 0 r
      | S k =>
          if (128 <=? n)%N && (n <? 192)%N then
            let acc' := (acc * 64 + (n - 128))%N in
            match k with
            | O => acc' :: code_points_from 0 0 r
            | S _ => code_points_from k acc' r
            end
          else if (n <? 128)%N then replacement :: n :: code_points_from 0 0 r
          else replacement :: code_points_from 0 0 r
      end
  end.

Definition code_points (s : string) : list N :=
  code_points_from 0 0 (list_ascii_of_string s).

End Py.

(** ** The element store of [xml.etree.ElementTree] *)

(** An element: tag, [.text] ([None] until assigned) and the ordered
    children. *)
Inductive element : Type :=
  Element (tag : string) (text : option string) (children : list element).

Definition tag (e : element) : string :=
  match e with Element t _ _ => t end.
Definition text (e : element) : option string :=
  match e with Element _ x _ => x end.
Definition children (e : element) : list element :=
  match e with Element _ _ cs => cs end.

(** A reference to an element object: its position below the root of the
    document being built.  Children are only ever appended, so a position
    keeps denoting the same object for the rest of the construction. *)
Definition ref : Type := list nat.

Fixpoint lookup_at (p : ref) (e : element) : option element :=
  match p with
  | [] => Some e
  | i :: q =>
      match children e !! i with
      | Some c => lookup_at q c
      | None => None
      end
  end.

Fixpoint alter_at (f : element -> element) (p : ref) (e : element) : element :=
  match p with
  | [] => f e
  | i :: q => Element (tag e) (text e) (alter (alter_at f q) i (children e))
  end.

Definition add_children (cs : list element) (e : element) : element :=
  Element (tag e) (text e) (children e ++ cs).

Definition add_child (c : element) : element -> element := add_children [c].

Definition assign_text (s : string) (e : element) : element :=
  Element (tag e) (Some s) (children e).

(** Tree-building code runs against the document under construction and
    fails only on a dangling reference. *)
Definition builder (A : Type) : Type := element -> option (A * element).

Definition ret {A} (a : A) : builder A := fun st => Some (a, st).

Definition bind {A B} (m : builder A) (k : A -> builder B) : builder B :=
  fun st =>
    match m st with
    | Some (a, st') => k a st'
    | None => None
    end.

Declare Scope builder_scope.
Delimit Scope builder_scope with B.
Notation "x ← y ; z" := (bind y (fun x => z))
  (at level 20, y at level 100, z at level 200, only parsing) : builder_scope.
Notation "x ;; z" := (bind x (fun _ => z))
  (at level 100, z at level 200, only parsing, right associativity) : builder_scope.
Open Scope builder_scope.

(** [for x in xs: body(x)] *)
Fixpoint for_each {A} (xs : list A) (body : A -> builder unit) : builder unit :=
  match xs with
  | [] => ret tt
  | x :: rest => body x;; for_each rest body
  end.

(** [enumerate(xs)] *)
Definition enumerate {A} (xs : list A) : list (nat * A) :=
  combine (seq 0 (length xs)) xs.

Module ET.

(** [ET.Element(tag)]: a fresh root with no text and no children. *)
Definition Element_ (tag_name : string) : element := Element tag_name None [].

(** [ET.SubElement(parent, tag)]: creates an element, appends it to
    [parent]'s children and returns it. *)
Definition SubElement (parent : ref) (tag_name : string) : builder ref :=
  fun st =>
    match lookup_at parent st with
    | Some e =>
        Some (parent ++ [length (children e)],
              alter_at (add_child (Element_ tag_name)) parent st)
    | None => None
    end.

(** [element.text = s] *)
Definition set_text (r : ref) (s : string) : builder unit :=
  fun st =>
    match lookup_at r st with
    | Some _ => Some (tt, alter_at (assign_text s) r st)
    | None => None
    end.

End ET.

(** ** Python's [float]: IEEE 754 binary64 *)

Module PyFloat.

Definition prec : Z := 53.
Definition emax : Z := 1024.

Definition float : Type := spec_float.

(** [x + y], round to nearest, ties to even. *)
Definition add (x y : float) : float := SFadd prec emax x y.

(** [float(z)] for an [int] within range. *)
Definition of_int (z : Z) : float := binary_normalize prec emax z 0 false.

(** The binary64 nearest to [(-1)^neg * m * 10^e]; overflow gives an
    infinity and underflow a zero, as [PyOS_string_to_double] does when no
    overflow exception is requested. *)
Definition of_decimal (neg : bool) (m : Z) (e : Z) : float :=
  match m with
  | Zpos p =>
      if (0 <=? e)%Z
      then binary_round prec emax neg (p * Z.to_pos (10 ^ e)) 0
      else SFdiv prec emax (S754_finite neg p 0)
                           (S754_finite false (Z.to_pos (10 ^ (- e))) 0)
  | _ => S754_zero neg
  end.

(** *** [float(s)] *)

Definition is_digit (a : ascii) : bool :=
  let n := nat_of_ascii a in (48 <=? n)%nat && (n <=? 57)%nat.

Definition digit_val (a : ascii) : Z := Z.of_nat (nat_of_ascii a - 48).

(** [Py_ISSPACE]: the ASCII white space [float] strips from both ends,
    which is tab, line feed, vertical tab, form feed, carriage return and
    space. *)
Definition is_space (a : ascii) : bool :=
  let n := nat_of_ascii a in
  ((9 <=? n)%nat && (n <=? 13)%nat) || (n =? 32)%nat.

Fixpoint lstrip (l : list ascii) : list ascii :=
  match l with
  | a :: r => if is_space a then lstrip r else l
  | [] => []
  end.

Definition strip (l : list ascii) : list ascii := rev (lstrip (rev (lstrip l))).

Definition underscore : ascii := ascii_of_nat 95.

(** Removal of digit-grouping underscores: one is accepted only between two
    digits.  [prev] is the previous character, if any. *)
Fixpoint drop_underscores (prev : option ascii) (l : list ascii)
  : option (list ascii) :=
  match l with
  | [] =>
      match prev with
      | Some p => if Ascii.eqb p underscore then None else Some []
      | None => Some []
      end
  | a :: r =>
      if Ascii.eqb a underscore then
        match prev with
        | Some p => if is_digit p then drop_underscores (Some a) r else None
        | None => None
        end
      else
        let after_underscore :=
          match prev with
          | Some p => Ascii.eqb p underscore
          | None => false
          end in
        if after_underscore && negb (is_digit a) then None
        else option_map (cons a) (drop_underscores (Some a) r)
  end.

Fixpoint take_digits (l : list ascii) : list ascii * list ascii :=
  match l with
  | a :: r =>
      if is_digit a
      then let '(ds, rest) := take_digits r in (a :: ds, rest)
      else ([], l)
  | [] => ([], [])
  end.

Definition digits_to_Z (ds : list ascii) : Z :=
  fold_left (fun acc a => (10 * acc + digit_val a)%Z) ds 0%Z.

Definition parse_sign (l : list ascii) : bool * list ascii :=
  match l with
  | a :: r =>
      if Ascii.eqb a "-" then (true, r)
      else if Ascii.eqb a "+" then (false, r)
      else (false, l)
  | [] => (false, [])
  end.

(** Unsigned decimal literal: digits, optional fraction, optional exponent;
    the result is the pair (mantissa, power of ten). *)
Definition parse_decimal (l : list ascii) : option (Z * Z) :=
  let '(ip, r1) := take_digits l in
  let '(fp, r2) :=
    match r1 with
    | a :: r => if Ascii.eqb a "." then take_digits r else ([], r1)
    | [] => ([], r1)
    end in
  match ip ++ fp with
  | [] => None
  | ds =>
      let m := digits_to_Z ds in
      let shift := Z.of_nat (length fp) in
      match r2 with
      | [] => Some (m, (- shift)%Z)
      | a :: r3 =>
          if Ascii.eqb a "e" || Ascii.eqb a "E" then
            let '(eneg, r4) := parse_sign r3 in
            match take_digits r4 with
            | (d :: ed, []) =>
                let x := digits_to_Z (d :: ed) in
                Some (m, ((if eneg then - x else x) - shift)%Z)
            | _ => None
            end
          else None
      end
  end.

Definition lower_list (l : list ascii) : list ascii := map Py.lower_ascii l.

Definition ascii_list_eqb (a b : list ascii) : bool :=
  String.eqb (string_of_list_ascii a) (string_of_list_ascii b).

(** [Py_UNICODE_ISSPACE] beyond ASCII: the characters of bidirectional
    class WS, B or S and of category Zs. *)
Definition unicode_space (c : N) : bool :=
  existsb (N.eqb c) [133; 160; 5760; 8232; 8233; 8239; 8287; 12288]%N
  || ((8192 <=? c)%N && (c <=? 8202)%N).

(** The zero of every run of ten decimal digits (category Nd) beyond ASCII,
    as in the Unicode 14 tables of CPython 3.11: Arabic-Indic 0x660,
    extended Arabic-Indic 0x6F0, NKo 0x7C0, Devanagari 0x966, ..., full
    width 0xFF10, ..., segmented 0x1FBF0. *)
Definition decimal_zeros : list N :=
  [ 1632; 1776; 1984; 2406; 2534; 2662; 2790; 2918; 3046; 3174; 3302; 3430;
    3558; 3664; 3792; 3872; 4160; 4240; 6112; 6160; 6470; 6608; 6784; 6800;
    6992; 7088; 7232; 7248; 42528; 43216; 43264; 43472; 43504; 43600; 44016;
    65296; 66720; 68912; 69734; 69872; 69942; 70096; 70384; 70736; 70864;
    71248; 71360; 71472; 71904; 72016; 72784; 73040; 73120; 92768; 92864;
    93008; 120782; 120792; 120802; 120812; 120822; 123200; 123632; 125264;
    130032 ]%N.

(** [Py_UNICODE_TODECIMAL]: the value of a decimal digit. *)
Definition unicode_decimal (c : N) : option N :=
  match find (fun z => (z <=? c)%N && (c <? z + 10)%N) decimal_zeros with
  | Some z => Some (c - z)%N
  | None => None
  end.

(** [_PyUnicode_TransformDecimalAndSpaceToASCII] on a text that has a
    character outside ASCII: characters below 127 are kept, a space becomes
    [' '], a decimal digit its ASCII digit, and the first character of
    another kind becomes ['?'] and ends the result. *)
Fixpoint transform (cps : list N) : list ascii :=
  match cps with
  | [] => []
  | c :: r =>
      if (c <? 127)%N then ascii_of_N c :: transform r
      else if unicode_space c then " "%char :: transform r
      else match unicode_decimal c with
           | Some d => ascii_of_N (48 + d) :: transform r
           | None => ["?"%char]
           end
  end.

(** The same on any text: an ASCII text is returned as it is. *)
Definition to_ascii (s : string) : list ascii :=
  let cps := Py.code_points s in
  if forallb (fun c => (c <? 128)%N) cps then list_ascii_of_string s
  else transform cps.

(** [float(s)] for a [str]; [None] stands for [ValueError].  The text is
    brought to ASCII, checked for digit-grouping underscores, stripped of
    white space at both ends and read by [PyOS_string_to_double]: a decimal
    literal, or one of [inf], [infinity] and [nan] in any case, after an
    optional sign. *)
Definition of_string (s : string) : option float :=
  match drop_underscores None (to_ascii s) with
  | None => None
  | Some l =>
      let '(neg, body) := parse_sign (strip l) in
      let word := lower_list body in
      if ascii_list_eqb word (list_ascii_of_string "inf")
         || ascii_list_eqb word (list_ascii_of_string "infinity")
      then Some (S754_infinity neg)
      else if ascii_list_eqb word (list_ascii_of_string "nan")
      then Some S754_nan
      else
        match parse_decimal body with
        | Some (m, e) => Some (of_decimal neg m e)
        | None => None
        end
  end.

(** *** [repr(x)], which is also [str(x)] *)

(** Number of decimal digits of a positive integer. *)
Fixpoint ndigits_fuel (fuel : nat) (n : Z) : Z :=
  match fuel with
  | O => 0
  | S f => if (n <? 10)%Z then 1 else (1 + ndigits_fuel f (n / 10))%Z
  end.

Definition ndigits (n : Z) : Z := ndigits_fuel (S (Z.to_nat (Z.log2 n))) n.

(** For [0 < num < den]: the least [j >= 1] with [num * 10^j >= den]. *)
Fixpoint leading_shift_fuel (fuel : nat) (num den j : Z) : Z :=
  match fuel with
  | O => j
  | S f =>
      if (den <=? num * 10)%Z then j
      else leading_shift_fuel f (num * 10) den (j + 1)
  end.

(** The decimal exponent [E] of [num/den > 0]: [10^(E-1) <= num/den < 10^E]. *)
Definition decimal_exponent (num den : Z) : Z :=
  if (den <=? num)%Z then ndigits (num / den)
  else (1 - leading_shift_fuel (S (Z.to_nat (Z.log2 den))) num den 1)%Z.

(** The rounding interval of the finite binary64 [m * 2^e] as three
    numerators (low end, value, high end) over one denominator.  The low
    end is closer when [m] is a power of two above the subnormal range. *)
Definition rounding_interval (m : positive) (e : Z) : Z * Z * Z * Z :=
  let boundary := (Zpos m =? 2 ^ (prec - 1))%Z && (3 - emax - prec <? e)%Z in
  let lo := (4 * Zpos m - (if boundary then 1 else 2))%Z in
  let v := (4 * Zpos m)%Z in
  let hi := (4 * Zpos m + 2)%Z in
  if (2 <=? e)%Z
  then let k := (2 ^ (e - 2))%Z in ((lo * k)%Z, (v * k)%Z, (hi * k)%Z, 1%Z)
  else (lo, v, hi, (2 ^ (2 - e))%Z).

(** The [n]-digit decimal [c * 10^k] nearest to the value, when it reads
    back as the same binary64. *)
Definition shortest_at (m : positive) (e : Z) (n : Z) : option (Z * Z) :=
  let '(lo, v, hi, den) := rounding_interval m e in
  let k := (decimal_exponent v den - n)%Z in
  let up := if (k <? 0)%Z then (10 ^ (- k))%Z else 1%Z in
  let down := if (k <? 0)%Z then 1%Z else (10 ^ k)%Z in
  let lo' := (lo * up)%Z in
  let v' := (v * up)%Z in
  let hi' := (hi * up)%Z in
  let den' := (den * down)%Z in
  let closed := Z.even (Zpos m) in
  let inside (c : Z) :=
    if closed then (lo' <=? c * den')%Z && (c * den' <=? hi')%Z
    else (lo' <? c * den')%Z && (c * den' <? hi')%Z in
  let below := (v' / den')%Z in
  let above := (below + 1)%Z in
  let dist_below := (v' - below * den')%Z in
  let dist_above := (above * den' - v')%Z in
  match inside below, inside above with
  | true, true =>
      if (dist_below <? dist_above)%Z then Some (below, k)
      else if (dist_above <? dist_below)%Z then Some (above, k)
      else if Z.even below then Some (below, k) else Some (above, k)
  | true, false => Some (below, k)
  | false, true => Some (above, k)
  | false, false => None
  end.

Fixpoint shortest_from (fuel : nat) (m : positive) (e : Z) (n : Z) : Z * Z :=
  match shortest_at m e n with
  | Some r => r
  | None =>
      match fuel with
      | O => (Zpos m, e)
      | S f => shortest_from f m e (n + 1)
      end
  end.

Fixpoint strip_zeros (fuel : nat) (c k : Z) : Z * Z :=
  match fuel with
  | O => (c, k)
  | S f => if (c mod 10 =? 0)%Z then strip_zeros f (c / 10) (k + 1) else (c, k)
  end.

(** Shortest digit string that reads back as [m * 2^e], with the position
    of the decimal point: the value is [0.d1d2... * 10^decpt]. *)
Definition shortest_digits (m : positive) (e : Z) : string * Z :=
  let '(c, k) := shortest_from 17 m e 1 in
  let '(c, k) := strip_zeros 20 c k in
  (Py.str_int c, (ndigits c + k)%Z).

Fixpoint zeros (n : nat) : string :=
  match n with
  | O => ""
  | S k => String "0" (zeros k)
  end.

Definition format_exponent (x : Z) : string :=
  (if (x <? 0)%Z then "-" else "+") +:+
  (if (Z.abs x <? 10)%Z then "0" else "") +:+ Py.str_int (Z.abs x).

(** Layout of the ['r'] format: exponent notation when [decpt <= -4] or
    [decpt > 16], otherwise positional with at least one fractional digit. *)
Definition format_repr (ds : string) (decpt : Z) : string :=
  let n := Z.of_nat (String.length ds) in
  if (decpt <=? -4)%Z || (16 <? decpt)%Z then
    substring 0 1 ds +:+
    (if (1 <? n)%Z then "." +:+ substring 1 (String.length ds - 1) ds else "") +:+
    "e" +:+ format_exponent (decpt - 1)
  else if (decpt <=? 0)%Z then
    "0." +:+ zeros (Z.to_nat (- decpt)) +:+ ds
  else if (n <=? decpt)%Z then
    ds +:+ zeros (Z.to_nat (decpt - n)) +:+ ".0"
  else
    substring 0 (Z.to_nat decpt) ds +:+ "." +:+
    substring (Z.to_nat decpt) (String.length ds - Z.to_nat decpt) ds.

Definition repr (x : float) : string :=
  match x with
  | S754_nan => "nan"
  | S754_infinity s => if s then "-inf" else "inf"
  | S754_zero s => if s then "-0.0" else "0.0"
  | S754_finite s m e =>
      let '(ds, decpt) := shortest_digits m e in
      (if s then "-" else "") +:+ format_repr ds decpt
  end.

End PyFloat.

(** ** Python numbers met in the totals *)

Inductive pynum : Type :=
  | PyInt (z : Z)
  | PyFloat (x : PyFloat.float).

(** [a + b]: an [int] operand is converted when the other is a [float]. *)
Definition py_add (a b : pynum) : pynum :=
  match a, b with
  | PyInt x, PyInt y => PyInt (x + y)
  | PyInt x, PyFloat y => PyFloat (PyFloat.add (PyFloat.of_int x) y)
  | PyFloat x, PyInt y => PyFloat (PyFloat.add x (PyFloat.of_int y))
  | PyFloat x, PyFloat y => PyFloat (PyFloat.add x y)
  end.

(** [str(a)] *)
Definition py_str (a : pynum) : string :=
  match a with
  | PyInt z => Py.str_int z
  | PyFloat x => PyFloat.repr x
  end.

(** ** The consignment constants *)

(** [CONSIGNMENT_VALUES] is a dictionary literal that is only ever read
    through literal keys: a record with one field per key. *)
Record consignment_values : Type := {
  total_invoice : string;
  total_cif : string;
  total_cost : string;
  external_freight_foreign : string;
  external_freight_national : string;
  insurance_foreign : string;
  insurance_national : string;
  other_cost_foreign : string;
  other_cost_national : string;
  total_cif_itm : string;
  statistical_value : string;
  alpha_coefficient : string;
  duty_tax_base : string;
  duty_tax_rate : string;
  duty_tax_amount : string;
  total_item_taxes : string;
  calculation_working_mode : string;
  container_flag : string;
  delivery_terms_code : string;
  currency_rate : string;
  manifest_reference : string;
  total_forms : string
}.

(** Consignment-specific fixed values (for LV02 2025 6241). *)
Definition CONSIGNMENT_VALUES : consignment_values := {|
  total_invoice := "2006.64";
  total_cif := "4212.99";
  total_cost := "621.1";
  external_freight_foreign := "4.78";
  external_freight_national := "8.56";
  insurance_foreign := "0.58";
  insurance_national := "1.04";
  other_cost_foreign := "0.47";
  other_cost_national := "0.84";
  total_cif_itm := "70.8";
  statistical_value := "71";
  alpha_coefficient := "0.0168042100227245";
  duty_tax_base := "71";
  duty_tax_rate := "6";
  duty_tax_amount := "4.3";
  total_item_taxes := "347.75";
  calculation_working_mode := "0";
  container_flag := "False";
  delivery_terms_code := "DDP";
  currency_rate := "1.79";
  manifest_reference := "LV02 2025 6241";
  total_forms := "16"
|}.

(** ** The document mapper *)

(** A row of a sheet: column name to cell text. *)
Abbreviation record := (gmap string string).

Definition calculate_form_totals (items_data : list record) : pynum :=
  fold_left
    (fun invoice_foreign_total item =>
       let inv_foreign := Py.get "Invoice Amount_foreign_currency" "0" item in
       if Py.truthy inv_foreign then
         match PyFloat.of_string inv_foreign with
         | Some x => py_add invoice_foreign_total (PyFloat x)
         | None => invoice_foreign_total (* except: pass *)
         end
       else py_add invoice_foreign_total (PyInt 0))
    items_data (PyInt 0).

(** Helper method to add element with text content *)
Definition add_element (parent : ref) (tag_name text_content : string)
  : builder ref :=
  element ← ET.SubElement parent tag_name;
  (if Py.truthy text_content && Py.ne text_content "nan"
      && Py.ne text_content "None" && Py.ne text_content ""
   then ET.set_text element text_content
   else ret tt);;
  ret element.

Section Mapper.

(** The module-level table the builders read, passed explicitly; the
    program runs them on [CONSIGNMENT_VALUES]. *)
Variable CV : consignment_values.

(** Create valuation subsections with consignment-specific values *)
Definition create_valuation_subsections (parent : ref)
    (form_invoice_foreign : pynum) : builder unit :=
  (* Invoice *)
  invoice ← ET.SubElement parent "Invoice";
  add_element invoice "Amount_national_currency" "3591.89";;
  add_element invoice "Amount_foreign_currency" (py_str form_invoice_foreign);;
  add_element invoice "Currency_code" "USD";;
  add_element invoice "Currency_name" "Geen vreemde valuta";;
  add_element invoice "Currency_rate" (currency_rate CV);;
  (* External_freight *)
  external ← ET.SubElement parent "External_freight";
  add_element external "Amount_national_currency" "509.24";;
  add_element external "Amount_foreign_currency" "17.27";;
  add_element external "Currency_code" "USD";;
  add_element external "Currency_name" "Geen vreemde valuta";;
  add_element external "Currency_rate" (currency_rate CV);;
  (* Internal_freight *)
  internal ← ET.SubElement parent "Internal_freight";
  add_element internal "Amount_national_currency" "0";;
  add_element internal "Amount_foreign_currency" "0";;
  add_element internal "Currency_code" "";;
  add_element internal "Currency_name" "Geen vreemde valuta";;
  add_element internal "Currency_rate" "0";;
  (* Insurance *)
  insurance ← ET.SubElement parent "Insurance";
  add_element insurance "Amount_national_currency" "62.26";;
  add_element insurance "Amount_foreign_currency" "1.00875";;
  add_element insurance "Currency_code" "USD";;
  add_element insurance "Currency_name" "Geen vreemde valuta";;
  add_element insurance "Currency_rate" (currency_rate CV);;
  (* Other_cost *)
  other ← ET.SubElement parent "Other_cost";
  add_element other "Amount_national_currency" "49.6";;
  add_element other "Amount_foreign_currency" "";;
  add_element other "Currency_code" "USD";;
  add_element other "Currency_name" "Geen vreemde valuta";;
  add_element other "Currency_rate" (currency_rate CV);;
  (* Deduction *)
  deduction ← ET.SubElement parent "Deduction";
  add_element deduction "Amount_national_currency" "0";;
  add_element deduction "Amount_foreign_currency" "0";;
  add_element deduction "Currency_code" "USD";;
  add_element deduction "Currency_name" "Geen vreemde valuta";;
  add_element deduction "Currency_rate" (currency_rate CV);;
  ret tt.

(** Create supplementary unit with proper structure for items *)
Definition create_item_supplementary_unit (parent : ref) (item_data : record)
    (unit_num : string) : builder unit :=
  supp_unit ← ET.SubElement parent "Supplementary_unit";
  if String.eqb unit_num "1" then
    add_element supp_unit "Supplementary_unit_rank" "";;
    add_element supp_unit "Supplementary_unit_code" (Py.get "Supplementary_unit_code" "PCE" item_data);;
    add_element supp_unit "Supplementary_unit_name" (Py.get "Supplementary_unit_name_1" "Aantal Stucks" item_data);;
    add_element supp_unit "Supplementary_unit_quantity" (Py.get "Supplementary_unit_quantity_1" "" item_data);;
    ret tt
  else if String.eqb unit_num "2" then
    add_element supp_unit "Supplementary_unit_rank" "2";;
    add_element supp_unit "Supplementary_unit_name" (Py.get "Supplementary_unit_name_2" "" item_data);;
    add_element supp_unit "Supplementary_unit_quantity" (Py.get "Supplementary_unit_quantity_2" "" item_data);;
    ret tt
  else (* unit_num == '3' *)
    add_element supp_unit "Supplementary_unit_rank" "3";;
    add_element supp_unit "Supplementary_unit_name" (Py.get "Supplementary_unit_name_3" "" item_data);;
    add_element supp_unit "Supplementary_unit_quantity" (Py.get "Supplementary_unit_quantity_3" "" item_data);;
    ret tt.

(** Create valuation subsections for items with consignment-specific values *)
Definition create_item_valuation_subsections (parent : ref)
    (item_data : record) : builder unit :=
  (* Invoice *)
  invoice ← ET.SubElement parent "Invoice";
  add_element invoice "Amount_national_currency" "";;
  add_element invoice "Amount_foreign_currency" (Py.get "Invoice Amount_foreign_currency" "" item_data);;
  add_element invoice "Currency_code" "USD";;
  add_element invoice "Currency_name" "Geen vreemde valuta";;
  add_element invoice "Currency_rate" (currency_rate CV);;
  (* External_freight (consignment-specific per item) *)
  external ← ET.SubElement parent "External_freight";
  add_element external "Amount_national_currency" (external_freight_national CV);;
  add_element external "Amount_foreign_currency" (external_freight_foreign CV);;
  add_element external "Currency_code" "USD";;
  add_element external "Currency_name" "Geen vreemde valuta";;
  add_element external "Currency_rate" (currency_rate CV);;
  (* Internal_freight *)
  internal ← ET.SubElement parent "Internal_freight";
  add_element internal "Amount_national_currency" "0";;
  add_element internal "Amount_foreign_currency" "";;
  add_element internal "Currency_code" "";;
  add_element internal "Currency_name" "Geen vreemde valuta";;
  add_element internal "Currency_rate" "0";;
  (* Insurance (consignment-specific per item) *)
  insurance ← ET.SubElement parent "Insurance";
  add_element insurance "Amount_national_currency" (insurance_national CV);;
  add_element insurance "Amount_foreign_currency" (insurance_foreign CV);;
  add_element insurance "Currency_code" "USD";;
  add_element insurance "Currency_name" "Geen vreemde valuta";;
  add_element insurance "Currency_rate" (currency_rate CV);;
  (* Other_cost (consignment-specific per item) *)
  other ← ET.SubElement parent "Other_cost";
  add_element other "Amount_national_currency" (other_cost_national CV);;
  add_element other "Amount_foreign_currency" (other_cost_foreign CV);;
  add_element other "Currency_code" "USD";;
  add_element other "Currency_name" "Geen vreemde valuta";;
  add_element other "Currency_rate" (currency_rate CV);;
  (* Deduction *)
  deduction ← ET.SubElement parent "Deduction";
  add_element deduction "Amount_national_currency" "0";;
  add_element deduction "Amount_foreign_currency" "0";;
  add_element deduction "Currency_code" "USD";;
  add_element deduction "Currency_name" "Geen vreemde valuta";;
  add_element deduction "Currency_rate" (currency_rate CV);;
  ret tt.

(** Create individual Item element with consignment-specific values *)
Definition create_item_element (parent : ref) (item_data : record)
    (item_number : nat) : builder unit :=
  item ← ET.SubElement parent "Item";
  (* Packages section *)
  packages ← ET.SubElement item "Packages";
  add_element packages "Number_of_packages" (Py.get "Number_of_packages" "" item_data);;
  add_element packages "Marks1_of_packages" (Py.get "Marks1_of_packages" "" item_data);;
  add_element packages "Marks2_of_packages" (Py.get "Marks2_of_packages" "" item_data);;
  add_element packages "Kind_of_packages_code" (Py.get "Kind_of_packages_code" "STKS" item_data);;
  add_element packages "Kind_of_packages_name" (Py.get "Kind_of_packages_name" "Stuks" item_data);;
  (* Tariff section *)
  tariff ← ET.SubElement item "Tariff";
  add_element tariff "Extended_customs_procedure" (Py.get "Extended_customs_procedure" "4000" item_data);;
  add_element tariff "National_customs_procedure" (Py.get "National_customs_procedure" "00:00:00" item_data);;
  add_element tariff "Preference_code" (Py.get "Preference_code" "" item_data);;
  harmonized ← ET.SubElement tariff "Harmonized_system";
  add_element harmonized "Commodity_code" (Py.get "Commodity_code" "" item_data);;
  add_element harmonized "Precision_4" (Py.get "Precision_4" "" item_data);;
  (* Three supplementary units *)
  create_item_supplementary_unit tariff item_data "1";;
  create_item_supplementary_unit tariff item_data "2";;
  create_item_supplementary_unit tariff item_data "3";;
  quota ← ET.SubElement tariff "Quota";
  add_element quota "Quota_code" (Py.get "Quota_code" "" item_data);;
  (* Goods_description *)
  goods_desc ← ET.SubElement item "Goods_description";
  add_element goods_desc "Country_of_origin_code" (Py.get "Country_of_origin_code" "US" item_data);;
  add_element goods_desc "Description_of_goods" (Py.get "Description_of_goods" "" item_data);;
  add_element goods_desc "Commercial_description" (Py.get "Commercial_description" "" item_data);;
  (* Valuation_item with consignment-specific values *)
  valuation_item ← ET.SubElement item "Valuation_item";
  add_element valuation_item "Rate_of_adjustment" "1";;
  add_element valuation_item "Total_cost_itm" "";;
  add_element valuation_item "Total_cif_itm" (total_cif_itm CV);;
  add_element valuation_item "Statistical_value" (statistical_value CV);;
  add_element valuation_item "Alpha_coeficient_of_apportionment" (alpha_coefficient CV);;
  weight ← ET.SubElement valuation_item "Weight";
  add_element weight "Gross_weight_itm" (Py.get "Gross_weight_itm" "0.5" item_data);;
  add_element weight "Net_weight_itm" (Py.get "Net_weight_itm" "0.5" item_data);;
  (* Item valuation subsections with consignment-specific values *)
  create_item_valuation_subsections valuation_item item_data;;
  (* Previous_document *)
  prev_doc ← ET.SubElement item "Previous_document";
  add_element prev_doc "Summary_declaration" (Py.get "Summary_declaration" "" item_data);;
  add_element prev_doc "Summary_declaration_sl" (Py.get "Summary_declaration_sl" "1" item_data);;
  (* Taxation with consignment-specific values *)
  taxation ← ET.SubElement item "Taxation";
  add_element taxation "Item_taxes_amount" (duty_tax_amount CV);;
  add_element taxation "Item_taxes_mode_of_payment" "1";;
  tax_line ← ET.SubElement taxation "Taxation_line";
  add_element tax_line "Duty_tax_code" "IR";;
  add_element tax_line "Duty_tax_base" (duty_tax_base CV);;
  add_element tax_line "Duty_tax_rate" (duty_tax_rate CV);;
  add_element tax_line "Duty_tax_amount" (duty_tax_amount CV);;
  add_element tax_line "Duty_tax_MP" "1";;
  ret tt.

(** Create exact ASYCUDA XML structure with consignment.  The body runs
    against the fresh root [ET.Element("ASYCUDA")], whose reference is the
    empty position. *)
Definition asycuda_body (root : ref) (sad_data : record)
    (items_data : list record) (filename : string) : builder ref :=
  (* Calculate form-specific values *)
  let form_invoice_foreign := calculate_form_totals items_data in
  (* SAD section *)
  sad ← ET.SubElement root "SAD";
  (* Assessment_notice section *)
  assessment_notice ← ET.SubElement sad "Assessment_notice";
  add_element assessment_notice "Total_item_taxes" (total_item_taxes CV);;
  items_taxes ← ET.SubElement assessment_notice "Items_taxes";
  item_tax ← ET.SubElement items_taxes "Item_tax";
  add_element item_tax "Tax_code" (Py.get "Tax_code" "IR" sad_data);;
  add_element item_tax "Tax_description" (Py.get "Tax_description" "Invoerrechten" sad_data);;
  add_element item_tax "Tax_amount" (total_item_taxes CV);;
  add_element item_tax "Tax_mop" (Py.get "Tax_mop" "1" sad_data);;
  (* Properties section *)
  properties ← ET.SubElement sad "Properties";
  add_element properties "Sad_flow" (Py.get "Sad_flow" "I" sad_data);;
  forms ← ET.SubElement properties "Forms";
  add_element forms "Number_of_the_form" (Py.get "Number_of_the_form" "1" sad_data);;
  add_element forms "Total_number_of_forms" (total_forms CV);;
  add_element properties "Selected_page" (Py.get "Selected_page" "1" sad_data);;
  (* Identification section *)
  identification ← ET.SubElement sad "Identification";
  add_element identification "Manifest_reference_number" (manifest_reference CV);;
  office_segment ← ET.SubElement identification "Office_segment";
  add_element office_segment "Customs_clearance_office_code" (Py.get "Customs_clearance_office_code" "LV01" sad_data);;
  add_element office_segment "Customs_clearance_office_name" (Py.get "Customs_clearance_office_name" "Luchthaven Vracht" sad_data);;
  type_elem ← ET.SubElement identification "Type";
  add_element type_elem "Type_of_declaration" (Py.get "Type_of_declaration" "INV" sad_data);;
  add_element type_elem "General_procedure_code" (Py.get "General_procedure_code" "4" sad_data);;
  (* Traders section *)
  traders ← ET.SubElement sad "Traders";
  exporter ← ET.SubElement traders "Exporter";
  add_element exporter "Exporter_code" (Py.get "Exporter_code" "" sad_data);;
  add_element exporter "Exporter_name" (Py.get "Exporter_name" "" sad_data);;
  consignee ← ET.SubElement traders "Consignee";
  add_element consignee "Consignee_code" (Py.get "Consignee_code" "10026483" sad_data);;
  add_element consignee "Consignee_name" (Py.get "Consignee_name" "Dhr. Anthony Martina Paradera 1-H Paradera Paradera Aruba" sad_data);;
  financial_trader ← ET.SubElement traders "Financial";
  add_element financial_trader "Financial_code" (Py.get "Financial_code" "" sad_data);;
  add_element financial_trader "Financial_name" (Py.get "Financial_name" "" sad_data);;
  (* Declarant section *)
  declarant ← ET.SubElement sad "Declarant";
  add_element declarant "Declarant_code" (Py.get "Declarant_code" "1160650" sad_data);;
  add_element declarant "Declarant_name" (Py.get "Declarant_name" "Dhr. Victor Hoek Alto Vista 133 Alto Vista Noord/Tanki Leendert Aruba" sad_data);;
  add_element declarant "Declarant_representative" (Py.get "Declarant_representative" "Lizandra I. Geerman" sad_data);;
  reference ← ET.SubElement declarant "Reference";
  add_element reference "Year" (Py.get "Reference Year" "2025" sad_data);;
  add_element reference "Number" (Py.get "Reference Number" "" sad_data);;
  (* General_information section *)
  general_info ← ET.SubElement sad "General_information";
  country ← ET.SubElement general_info "Country";
  add_element country "Country_first_destination" (Py.get "Country_first_destination" "US" sad_data);;
  add_element country "Trading_country" (Py.get "Trading_country" "US" sad_data);;
  add_element country "Country_of_origin_name" (Py.get "Country_of_origin_name" "Verenigde Staten" sad_data);;
  export ← ET.SubElement country "Export";
  add_element export "Export_country_code" (Py.get "Export_country_code" "US" sad_data);;
  add_element export "Export_country_name" (Py.get "Export_country_name" "Verenigde Staten" sad_data);;
  add_element export "Export_country_region" (Py.get "Export_country_region" "" sad_data);;
  destination ← ET.SubElement country "Destination";
  add_element destination "Destination_country_code" (Py.get "Destination_country_code" "AW" sad_data);;
  add_element destination "Destination_country_name" (Py.get "Destination_country_name" "Aruba" sad_data);;
  add_element destination "Destination_country_region" (Py.get "Destination_country_region" "" sad_data);;
  add_element general_info "Value_details" (total_cost CV);;
  add_element general_info "CAP" (Py.get "CAP" "" sad_data);;
  (* Transport section *)
  transport ← ET.SubElement sad "Transport";
  add_element transport "Container_flag" (container_flag CV);;
  add_element transport "Location_of_goods" (Py.get "Location_of_goods" "RT-01" sad_data);;
  add_element transport "Location_of_goods_address" (Py.get "Location_of_goods_address" "Sabana Berde #75" sad_data);;
  means_transport ← ET.SubElement transport "Means_of_transport";
  departure ← ET.SubElement means_transport "Departure_arrival_information";
  add_element departure "Identity" (Py.get "Departure_arrival_information Identity" "COPA AIRLINES" sad_data);;
  add_element departure "Nationality" (Py.get "Departure_arrival_information Nationality" "PA" sad_data);;
  border ← ET.SubElement means_transport "Border_information";
  add_element border "Identity" (Py.get "Border_information Identity" "" sad_data);;
  add_element border "Nationality" (Py.get "Border_information Nationality" "" sad_data);;
  add_element border "Mode" (Py.get "Border_information Mode" "4" sad_data);;
  delivery ← ET.SubElement transport "Delivery_terms";
  add_element delivery "Code" (delivery_terms_code CV);;
  add_element delivery "Place" (Py.get "Delivery_terms Place" "USA" sad_data);;
  border_office ← ET.SubElement transport "Border_office";
  add_element border_office "Code" (Py.get "Border_office Code" "LV01" sad_data);;
  add_element border_office "Name" (Py.get "Border_office Name" "Luchthaven Vracht" sad_data);;
  place_loading ← ET.SubElement transport "Place_of_loading";
  add_element place_loading "Code" (Py.get "Place_of_loading Code" "AWAIR" sad_data);;
  add_element place_loading "Name" (Py.get "Place_of_loading Name" "Aeropuerto Reina Beatrix" sad_data);;
  (* Financial section *)
  financial ← ET.SubElement sad "Financial";
  add_element financial "Deffered_payment_reference" (Py.get "Deffered_payment_reference" "" sad_data);;
  add_element financial "Mode_of_payment" (Py.get "Mode_of_payment" "CONTANT" sad_data);;
  fin_trans ← ET.SubElement financial "Financial_transaction";
  add_element fin_trans "Code_1" (Py.get "Financial_transaction Code_1" "1" sad_data);;
  add_element fin_trans "Code_2" (Py.get "Financial_transaction Code_1" "1" sad_data);;
  bank ← ET.SubElement financial "Bank";
  add_element bank "Branch" (Py.get "Bank Branch" "" sad_data);;
  add_element bank "Reference" (Py.get "Bank Reference" "" sad_data);;
  terms ← ET.SubElement financial "Terms";
  add_element terms "Code" (Py.get "Terms Code" "" sad_data);;
  add_element terms "Description" (Py.get "Terms Description" "" sad_data);;
  amounts ← ET.SubElement financial "Amounts";
  add_element amounts "Global_taxes" (Py.get "Amounts Global_taxes" "0" sad_data);;
  add_element amounts "Totals_taxes" (total_item_taxes CV);;
  guarantee ← ET.SubElement financial "Guarantee";
  add_element guarantee "Amount" (Py.get "Guarantee Amount" "0" sad_data);;
  (* Transit section *)
  transit ← ET.SubElement sad "Transit";
  add_element transit "Result_of_control" (Py.get "Result_of_control" "" sad_data);;
  (* Valuation section *)
  valuation ← ET.SubElement sad "Valuation";
  add_element valuation "Calculation_working_mode" (calculation_working_mode CV);;
  add_element valuation "Total_cost" (total_cost CV);;
  add_element valuation "Total_cif" (total_cif CV);;
  (* Valuation subsections with consignment-specific values *)
  create_valuation_subsections valuation form_invoice_foreign;;
  total ← ET.SubElement valuation "Total";
  add_element total "Total_invoice" (total_invoice CV);;
  add_element total "Total_weight" (Py.str_nat (length items_data));;
  (* Items section *)
  items_elem ← ET.SubElement root "Items";
  (* Create items from Items data with consignment-specific values *)
  for_each (enumerate items_data)
    (fun '(i, item_data) => create_item_element items_elem item_data (i + 1));;
  ret root.

(** [None] would be an exception escaping the function. *)
Definition create_asycuda_xml (sad_data : record) (items_data : list record)
    (filename : string) : option element :=
  match asycuda_body [] sad_data items_data filename (ET.Element_ "ASYCUDA") with
  | Some (root, doc) => lookup_at root doc
  | None => None
  end.

End Mapper.

(** ** The serializer: [ET.tostring], [minidom.parseString], [toprettyxml] *)

Module minidom.

Definition byte (a : ascii) : nat := nat_of_ascii a.

(** Characters the XML parser rejects in character data: C0 controls other
    than tab, line feed and carriage return, and the UTF-8 forms of
    U+FFFE, U+FFFF and of surrogates. *)
Fixpoint xml_chars_ok (s : string) : bool :=
  match s with
  | EmptyString => true
  | String a r =>
      let n := byte a in
      let control :=
        (n <? 32)%nat && negb ((n =? 9)%nat || (n =? 10)%nat || (n =? 13)%nat) in
      let noncharacter :=
        match r with
        | String b (String c _) =>
            (n =? 239)%nat && (byte b =? 191)%nat && (190 <=? byte c)%nat
        | _ => false
        end in
      let surrogate :=
        match r with
        | String b _ => (n =? 237)%nat && (160 <=? byte b)%nat
        | EmptyString => false
        end in
      negb (control || noncharacter || surrogate) && xml_chars_ok r
  end.

(** The serialized tree parses again exactly when every text is made of
    legal characters (tags are the fixed names of the mapper). *)
Fixpoint parses (e : element) : bool :=
  match e with
  | Element _ x cs =>
      match x with
      | Some t => xml_chars_ok t
      | None => true
      end && forallb parses cs
  end.

Definition CR : ascii := ascii_of_nat 13.
Definition LF : ascii := ascii_of_nat 10.

(** End-of-line handling of the parser: CR LF and a lone CR become LF. *)
Fixpoint normalize_eol (s : string) : string :=
  match s with
  | EmptyString => EmptyString
  | String a r =>
      if Ascii.eqb a CR then
        String LF
          match r with
          | String b r' =>
              if Ascii.eqb b LF then normalize_eol r' else normalize_eol r
          | EmptyString => EmptyString
          end
      else String a (normalize_eol r)
  end.

(** [_write_data]: the character data with [&], [<], the double quote and
    [>] replaced by entities. *)
Definition escape (a : ascii) : string :=
  if Ascii.eqb a "&" then "&amp;"
  else if Ascii.eqb a "<" then "&lt;"
  else if Ascii.eqb a (ascii_of_nat 34) then "&quot;"
  else if Ascii.eqb a ">" then "&gt;"
  else String a EmptyString.

Fixpoint write_data (s : string) : string :=
  match s with
  | EmptyString => EmptyString
  | String a r => escape a +:+ write_data r
  end.

(** [Element.writexml(writer, indent, addindent, newl)] on the parsed
    document: an element with no child node closes itself, one whose only
    child is a text node stays on one line. *)
Fixpoint writexml (indent addindent newl : string) (e : element) : string :=
  match e with
  | Element tag_name x cs =>
      let data :=
        match x with
        | Some t => normalize_eol t
        | None => EmptyString
        end in
      indent +:+ "<" +:+ tag_name +:+
      match data, cs with
      | EmptyString, [] => "/>" +:+ newl
      | _, [] => ">" +:+ write_data data +:+ "</" +:+ tag_name +:+ ">" +:+ newl
      | _, _ =>
          ">" +:+ newl +:+
          (if Py.truthy data
           then write_data (indent +:+ addindent +:+ data +:+ newl)
           else EmptyString) +:+
          String.concat "" (map (writexml (indent +:+ addindent) addindent newl) cs) +:+
          indent +:+ "</" +:+ tag_name +:+ ">" +:+ newl
      end
  end.

(** [Document.toprettyxml(indent)] with the default newline and no
    encoding. *)
Definition toprettyxml (indent : string) (root : element) : string :=
  "<?xml version=" +:+ Py.dquote +:+ "1.0" +:+ Py.dquote +:+ " ?>" +:+ Py.newline +:+
  writexml "" indent Py.newline root.

End minidom.

(** The outcome of a call that may raise: the value, or the text of the
    exception. *)
Inductive outcome (A : Type) : Type :=
  | Returned (a : A)
  | Raised (message : string).
Arguments Returned {A} a.
Arguments Raised {A} message.

(** ** Sheets as pandas delivers them *)

Module pd.

(** A data frame: the column labels and, row by row, the cell under each
    label.  A cell is [None] when [pd.notna] is false, otherwise the text
    [str] gives for its value. *)
Record DataFrame : Type := {
  columns : list string;
  rows : list (string -> option string)
}.

(** [df.empty] *)
Definition empty (df : DataFrame) : bool :=
  match columns df, rows df with
  | _ :: _, _ :: _ => false
  | _, _ => true
  end.

End pd.

(** An uploaded file: its name and what [file.read()] gives. *)
Module FileStorage.

Record t (file_content : Type) : Type := {
  filename : string;
  read : outcome file_content
}.
Arguments filename {file_content} _.
Arguments read {file_content} _.

End FileStorage.

Section Converter.

Variable CV : consignment_values.

(** The uploaded bytes, and what [pd.read_excel(BytesIO(content),
    sheet_name=...)] does with them: a frame, or an exception. *)
Variable file_content : Type.
Variable pd_read_excel : file_content -> string -> outcome pd.DataFrame.

(** The text of the exception the serializer raises on a tree that does
    not parse. *)
Variable serializer_error : element -> string.

(** One row as a dictionary: every column becomes a key. *)
Definition row_to_dict (cols : list string) (row : string -> option string)
  : record :=
  fold_left
    (fun d col =>
       match row col with
       | Some v => <[col := v]> d
       | None => <[col := ""]> d
       end)
    cols ∅.

(** Read Excel file with exact ASYCUDA structure *)
Definition read_excel_data (content : file_content) : record * list record :=
  let sad_data :=
    (* Read SAD sheet *)
    match pd_read_excel content "SAD" with
    | Returned sad_df =>
        if negb (pd.empty sad_df) then
          match pd.rows sad_df with
          | sad_row :: _ => row_to_dict (pd.columns sad_df) sad_row
          | [] => ∅
          end
        else ∅
    | Raised _ => ∅
    end in
  let items_data :=
    (* Read Items sheet *)
    match pd_read_excel content "Items" with
    | Returned items_df =>
        if negb (pd.empty items_df)
        then map (row_to_dict (pd.columns items_df)) (pd.rows items_df)
        else []
    | Raised _ => []
    end in
  (sad_data, items_data).

(** Convert XML to pretty formatted string *)
Definition prettify_xml (elem : element) : outcome string :=
  if minidom.parses elem
  then Returned (minidom.toprettyxml "  " elem)
  else Raised (serializer_error elem).

(** Convert single Excel file to ASYCUDA XML *)
Definition convert_excel_to_xml (content : file_content) (filename : string)
  : bool * string :=
  (* Read data from Excel *)
  let '(sad_data, items_data) := read_excel_data content in
  if bool_decide (sad_data = ∅) && bool_decide (items_data = [])
  then (false, "No valid data found in " +:+ filename)
  else
    (* Create XML structure *)
    match create_asycuda_xml CV sad_data items_data filename with
    | Some xml_root =>
        (* Generate XML content *)
        match prettify_xml xml_root with
        | Returned xml_content => (true, xml_content)
        | Raised e => (false, filename +:+ " | Error: " +:+ e)
        end
    | None => (false, filename +:+ " | Error: ")
    end.

(** ** The batch endpoint *)

(** The response: a JSON error with its status, or the archive as its
    entries (name, data) in the order written. *)
Inductive response : Type :=
  | JsonError (error : string) (status : nat)
  | SendFile (entries : list (string * string)).


(** The archive being written: its entries in order. *)
Definition ZipFile : Type := list (string * string).

(** [zip_file.writestr(name, data)] *)
Definition writestr (zip_file : ZipFile) (name data : string) : ZipFile :=
  zip_file ++ [(name, data)].

(** One round of the loop over the uploads, as far as the archive goes;
    the round with its progress bookkeeping is [Server.convert_file]. *)
Definition convert_file (zip_file : ZipFile) (file : FileStorage.t file_content)
  : ZipFile :=
  if Py.endswith_any (Py.lower (FileStorage.filename file))
       [".xlsx"; ".xls"; ".xlsm"] then
    match FileStorage.read file with
    | Returned content =>
        let '(success, result) :=
          convert_excel_to_xml content (FileStorage.filename file) in
        if success then
          let xml_filename :=
            Py.rsplit1_head "." (FileStorage.filename file) +:+ ".xml" in
          writestr zip_file xml_filename result
        else
          (* Create error log file *)
          let error_filename := FileStorage.filename file +:+ "_ERROR.txt" in
          writestr zip_file error_filename ("Conversion failed: " +:+ result)
    | Raised e =>
        let error_filename := FileStorage.filename file +:+ "_ERROR.txt" in
        writestr zip_file error_filename ("Unexpected error: " +:+ e)
    end
  else zip_file.

(** The endpoint without its progress table.  [request_files] is
    [request.files.getlist('files')], or [None] when the request has no
    ['files'] part. *)
Definition convert_files (request_files : option (list (FileStorage.t file_content)))
  : response :=
  match request_files with
  | None => JsonError "No files uploaded" 400
  | Some files =>
      match files with
      | [] => JsonError "No files selected" 400
      | first :: _ =>
          if String.eqb (FileStorage.filename first) ""
          then JsonError "No files selected" 400
          else SendFile (fold_left convert_file files [])
      end
  end.

End Converter.

Arguments read_excel_data {file_content} pd_read_excel content.
Arguments convert_excel_to_xml CV {file_content} pd_read_excel serializer_error
  content filename.
Arguments convert_file CV {file_content} pd_read_excel serializer_error
  zip_file file.
Arguments convert_files CV {file_content} pd_read_excel serializer_error
  request_files.

(** ** What [add_element] writes *)

(** The text a leaf ends up with: none when the value is empty or one of
    the placeholders. *)
Definition leaf_text (text_content : string) : option string :=
  if Py.truthy text_content && Py.ne text_content "nan"
     && Py.ne text_content "None" && Py.ne text_content ""
  then Some text_content
  else None.

Definition leaf (tag_name text_content : string) : element :=
  Element tag_name (leaf_text text_content) [].

Definition node (tag_name : string) (cs : list element) : element :=
  Element tag_name None cs.

(** The document with [cs] appended below the element at [p]. *)
Definition grown (p : ref) (st : element) (cs : list element) : element :=
  alter_at (add_children cs) p st.

(** The reference [q] inside the [k]-th element appended below [p], which
    had [n] children before. *)
Definition below (n : nat) (p : ref) (k : nat) (q : ref) : ref :=
  p ++ (n + k) :: q.

(** A builder that appends the elements [cs], fully built, to [parent]
    and touches nothing else. *)
Definition appends (m : builder unit) (parent : ref) (cs : list element) : Prop :=
  forall st e, lookup_at parent st = Some e ->
    m st = Some (tt, grown parent st cs).


(** ** The documents the builders produce, as trees *)

Section Trees.

Variable CV : consignment_values.

(** What [create_valuation_subsections] appends. *)
Definition valuation_subsections (form_invoice_foreign : pynum) : list element :=
  [
    node "Invoice" [
      leaf "Amount_national_currency" "3591.89";
      leaf "Amount_foreign_currency" (py_str form_invoice_foreign);
      leaf "Currency_code" "USD";
      leaf "Currency_name" "Geen vreemde valuta";
      leaf "Currency_rate" (currency_rate CV) ];
    node "External_freight" [
      leaf "Amount_national_currency" "509.24";
      leaf "Amount_foreign_currency" "17.27";
      leaf "Currency_code" "USD";
      leaf "Currency_name" "Geen vreemde valuta";
      leaf "Currency_rate" (currency_rate CV) ];
    node "Internal_freight" [
      leaf "Amount_national_currency" "0";
      leaf "Amount_foreign_currency" "0";
      leaf "Currency_code" "";
      leaf "Currency_name" "Geen vreemde valuta";
      leaf "Currency_rate" "0" ];
    node "Insurance" [
      leaf "Amount_national_currency" "62.26";
      leaf "Amount_foreign_currency" "1.00875";
      leaf "Currency_code" "USD";
      leaf "Currency_name" "Geen vreemde valuta";
      leaf "Currency_rate" (currency_rate CV) ];
    node "Other_cost" [
      leaf "Amount_national_currency" "49.6";
      leaf "Amount_foreign_currency" "";
      leaf "Currency_code" "USD";
      leaf "Currency_name" "Geen vreemde valuta";
      leaf "Currency_rate" (currency_rate CV) ];
    node "Deduction" [
      leaf "Amount_national_currency" "0";
      leaf "Amount_foreign_currency" "0";
      leaf "Currency_code" "USD";
      leaf "Currency_name" "Geen vreemde valuta";
      leaf "Currency_rate" (currency_rate CV) ] ].

(** What [create_item_supplementary_unit] appends: the block of one slot. *)
Definition supplementary_unit (item_data : record) (unit_num : string) : element :=
  node "Supplementary_unit"
    (if String.eqb unit_num "1" then
    [
      leaf "Supplementary_unit_rank" "";
      leaf "Supplementary_unit_code" (Py.get "Supplementary_unit_code" "PCE" item_data);
      leaf "Supplementary_unit_name" (Py.get "Supplementary_unit_name_1" "Aantal Stucks" item_data);
      leaf "Supplementary_unit_quantity" (Py.get "Supplementary_unit_quantity_1" "" item_data) ]
     else if String.eqb unit_num "2" then
    [
      leaf "Supplementary_unit_rank" "2";
      leaf "Supplementary_unit_name" (Py.get "Supplementary_unit_name_2" "" item_data);
      leaf "Supplementary_unit_quantity" (Py.get "Supplementary_unit_quantity_2" "" item_data) ]
     else
    [
      leaf "Supplementary_unit_rank" "3";
      leaf "Supplementary_unit_name" (Py.get "Supplementary_unit_name_3" "" item_data);
      leaf "Supplementary_unit_quantity" (Py.get "Supplementary_unit_quantity_3" "" item_data) ]).

(** What [create_item_valuation_subsections] appends. *)
Definition item_valuation_subsections (item_data : record) : list element :=
  [
    node "Invoice" [
      leaf "Amount_national_currency" "";
      leaf "Amount_foreign_currency" (Py.get "Invoice Amount_foreign_currency" "" item_data);
      leaf "Currency_code" "USD";
      leaf "Currency_name" "Geen vreemde valuta";
      leaf "Currency_rate" (currency_rate CV) ];
    node "External_freight" [
      leaf "Amount_national_currency" (external_freight_national CV);
      leaf "Amount_foreign_currency" (external_freight_foreign CV);
      leaf "Currency_code" "USD";
      leaf "Currency_name" "Geen vreemde valuta";
      leaf "Currency_rate" (currency_rate CV) ];
    node "Internal_freight" [
      leaf "Amount_national_currency" "0";
      leaf "Amount_foreign_currency" "";
      leaf "Currency_code" "";
      leaf "Currency_name" "Geen vreemde valuta";
      leaf "Currency_rate" "0" ];
    node "Insurance" [
      leaf "Amount_national_currency" (insurance_national CV);
      leaf "Amount_foreign_currency" (insurance_foreign CV);
      leaf "Currency_code" "USD";
      leaf "Currency_name" "Geen vreemde valuta";
      leaf "Currency_rate" (currency_rate CV) ];
    node "Other_cost" [
      leaf "Amount_national_currency" (other_cost_national CV);
      leaf "Amount_foreign_currency" (other_cost_foreign CV);
      leaf "Currency_code" "USD";
      leaf "Currency_name" "Geen vreemde valuta";
      leaf "Currency_rate" (currency_rate CV) ];
    node "Deduction" [
      leaf "Amount_national_currency" "0";
      leaf "Amount_foreign_currency" "0";
      leaf "Currency_code" "USD";
      leaf "Currency_name" "Geen vreemde valuta";
      leaf "Currency_rate" (currency_rate CV) ] ].

(** What [create_item_element] appends: the subtree of one item. *)
Definition item_tree (item_data : record) : element :=
  node "Item" [
    node "Packages" [
      leaf "Number_of_packages" (Py.get "Number_of_packages" "" item_data);
      leaf "Marks1_of_packages" (Py.get "Marks1_of_packages" "" item_data);
      leaf "Marks2_of_packages" (Py.get "Marks2_of_packages" "" item_data);
      leaf "Kind_of_packages_code" (Py.get "Kind_of_packages_code" "STKS" item_data);
      leaf "Kind_of_packages_name" (Py.get "Kind_of_packages_name" "Stuks" item_data) ];
    node "Tariff" [
      leaf "Extended_customs_procedure" (Py.get "Extended_customs_procedure" "4000" item_data);
      leaf "National_customs_procedure" (Py.get "National_customs_procedure" "00:00:00" item_data);
      leaf "Preference_code" (Py.get "Preference_code" "" item_data);
      node "Harmonized_system" [
        leaf "Commodity_code" (Py.get "Commodity_code" "" item_data);
        leaf "Precision_4" (Py.get "Precision_4" "" item_data) ];
      supplementary_unit item_data "1";
      supplementary_unit item_data "2";
      supplementary_unit item_data "3";
      node "Quota" [
        leaf "Quota_code" (Py.get "Quota_code" "" item_data) ] ];
    node "Goods_description" [
      leaf "Country_of_origin_code" (Py.get "Country_of_origin_code" "US" item_data);
      leaf "Description_of_goods" (Py.get "Description_of_goods" "" item_data);
      leaf "Commercial_description" (Py.get "Commercial_description" "" item_data) ];
    node "Valuation_item" ([
      leaf "Rate_of_adjustment" "1";
      leaf "Total_cost_itm" "";
      leaf "Total_cif_itm" (total_cif_itm CV);
      leaf "Statistical_value" (statistical_value CV);
      leaf "Alpha_coeficient_of_apportionment" (alpha_coefficient CV);
      node "Weight" [
        leaf "Gross_weight_itm" (Py.get "Gross_weight_itm" "0.5" item_data);
        leaf "Net_weight_itm" (Py.get "Net_weight_itm" "0.5" item_data) ] ] ++ item_valuation_subsections item_data);
    node "Previous_document" [
      leaf "Summary_declaration" (Py.get "Summary_declaration" "" item_data);
      leaf "Summary_declaration_sl" (Py.get "Summary_declaration_sl" "1" item_data) ];
    node "Taxation" [
      leaf "Item_taxes_amount" (duty_tax_amount CV);
      leaf "Item_taxes_mode_of_payment" "1";
      node "Taxation_line" [
        leaf "Duty_tax_code" "IR";
        leaf "Duty_tax_base" (duty_tax_base CV);
        leaf "Duty_tax_rate" (duty_tax_rate CV);
        leaf "Duty_tax_amount" (duty_tax_amount CV);
        leaf "Duty_tax_MP" "1" ] ] ].

(** The declaration-level subtree [create_asycuda_xml] builds. *)
Definition sad_tree (sad_data : record) (items_data : list record) : element :=
  node "SAD" [
    node "Assessment_notice" [
      leaf "Total_item_taxes" (total_item_taxes CV);
      node "Items_taxes" [
        node "Item_tax" [
          leaf "Tax_code" (Py.get "Tax_code" "IR" sad_data);
          leaf "Tax_description" (Py.get "Tax_description" "Invoerrechten" sad_data);
          leaf "Tax_amount" (total_item_taxes CV);
          leaf "Tax_mop" (Py.get "Tax_mop" "1" sad_data) ] ] ];
    node "Properties" [
      leaf "Sad_flow" (Py.get "Sad_flow" "I" sad_data);
      node "Forms" [
        leaf "Number_of_the_form" (Py.get "Number_of_the_form" "1" sad_data);
        leaf "Total_number_of_forms" (total_forms CV) ];
      leaf "Selected_page" (Py.get "Selected_page" "1" sad_data) ];
    node "Identification" [
      leaf "Manifest_reference_number" (manifest_reference CV);
      node "Office_segment" [
        leaf "Customs_clearance_office_code" (Py.get "Customs_clearance_office_code" "LV01" sad_data);
        leaf "Customs_clearance_office_name" (Py.get "Customs_clearance_office_name" "Luchthaven Vracht" sad_data) ];
      node "Type" [
        leaf "Type_of_declaration" (Py.get "Type_of_declaration" "INV" sad_data);
        leaf "General_procedure_code" (Py.get "General_procedure_code" "4" sad_data) ] ];
    node "Traders" [
      node "Exporter" [
        leaf "Exporter_code" (Py.get "Exporter_code" "" sad_data);
        leaf "Exporter_name" (Py.get "Exporter_name" "" sad_data) ];
      node "Consignee" [
        leaf "Consignee_code" (Py.get "Consignee_code" "10026483" sad_data);
        leaf "Consignee_name" (Py.get "Consignee_name" "Dhr. Anthony Martina Paradera 1-H Paradera Paradera Aruba" sad_data) ];
      node "Financial" [
        leaf "Financial_code" (Py.get "Financial_code" "" sad_data);
        leaf "Financial_name" (Py.get "Financial_name" "" sad_data) ] ];
    node "Declarant" [
      leaf "Declarant_code" (Py.get "Declarant_code" "1160650" sad_data);
      leaf "Declarant_name" (Py.get "Declarant_name" "Dhr. Victor Hoek Alto Vista 133 Alto Vista Noord/Tanki Leendert Aruba" sad_data);
      leaf "Declarant_representative" (Py.get "Declarant_representative" "Lizandra I. Geerman" sad_data);
      node "Reference" [
        leaf "Year" (Py.get "Reference Year" "2025" sad_data);
        leaf "Number" (Py.get "Reference Number" "" sad_data) ] ];
    node "General_information" [
      node "Country" [
        leaf "Country_first_destination" (Py.get "Country_first_destination" "US" sad_data);
        leaf "Trading_country" (Py.get "Trading_country" "US" sad_data);
        leaf "Country_of_origin_name" (Py.get "Country_of_origin_name" "Verenigde Staten" sad_data);
        node "Export" [
          leaf "Export_country_code" (Py.get "Export_country_code" "US" sad_data);
          leaf "Export_country_name" (Py.get "Export_country_name" "Verenigde Staten" sad_data);
          leaf "Export_country_region" (Py.get "Export_country_region" "" sad_data) ];
        node "Destination" [
          leaf "Destination_country_code" (Py.get "Destination_country_code" "AW" sad_data);
          leaf "Destination_country_name" (Py.get "Destination_country_name" "Aruba" sad_data);
          leaf "Destination_country_region" (Py.get "Destination_country_region" "" sad_data) ] ];
      leaf "Value_details" (total_cost CV);
      leaf "CAP" (Py.get "CAP" "" sad_data) ];
    node "Transport" [
      leaf "Container_flag" (container_flag CV);
      leaf "Location_of_goods" (Py.get "Location_of_goods" "RT-01" sad_data);
      leaf "Location_of_goods_address" (Py.get "Location_of_goods_address" "Sabana Berde #75" sad_data);
      node "Means_of_transport" [
        node "Departure_arrival_information" [
          leaf "Identity" (Py.get "Departure_arrival_information Identity" "COPA AIRLINES" sad_data);
          leaf "Nationality" (Py.get "Departure_arrival_information Nationality" "PA" sad_data) ];
        node "Border_information" [
          leaf "Identity" (Py.get "Border_information Identity" "" sad_data);
          leaf "Nationality" (Py.get "Border_information Nationality" "" sad_data);
          leaf "Mode" (Py.get "Border_information Mode" "4" sad_data) ] ];
      node "Delivery_terms" [
        leaf "Code" (delivery_terms_code CV);
        leaf "Place" (Py.get "Delivery_terms Place" "USA" sad_data) ];
      node "Border_office" [
        leaf "Code" (Py.get "Border_office Code" "LV01" sad_data);
        leaf "Name" (Py.get "Border_office Name" "Luchthaven Vracht" sad_data) ];
      node "Place_of_loading" [
        leaf "Code" (Py.get "Place_of_loading Code" "AWAIR" sad_data);
        leaf "Name" (Py.get "Place_of_loading Name" "Aeropuerto Reina Beatrix" sad_data) ] ];
    node "Financial" [
      leaf "Deffered_payment_reference" (Py.get "Deffered_payment_reference" "" sad_data);
      leaf "Mode_of_payment" (Py.get "Mode_of_payment" "CONTANT" sad_data);
      node "Financial_transaction" [
        leaf "Code_1" (Py.get "Financial_transaction Code_1" "1" sad_data);
        leaf "Code_2" (Py.get "Financial_transaction Code_1" "1" sad_data) ];
      node "Bank" [
        leaf "Branch" (Py.get "Bank Branch" "" sad_data);
        leaf "Reference" (Py.get "Bank Reference" "" sad_data) ];
      node "Terms" [
        leaf "Code" (Py.get "Terms Code" "" sad_data);
        leaf "Description" (Py.get "Terms Description" "" sad_data) ];
      node "Amounts" [
        leaf "Global_taxes" (Py.get "Amounts Global_taxes" "0" sad_data);
        leaf "Totals_taxes" (total_item_taxes CV) ];
      node "Guarantee" [
        leaf "Amount" (Py.get "Guarantee Amount" "0" sad_data) ] ];
    node "Transit" [
      leaf "Result_of_control" (Py.get "Result_of_control" "" sad_data) ];
    node "Valuation" ([
      leaf "Calculation_working_mode" (calculation_working_mode CV);
      leaf "Total_cost" (total_cost CV);
      leaf "Total_cif" (total_cif CV) ] ++ valuation_subsections (calculate_form_totals items_data) ++ [
      node "Total" [
        leaf "Total_invoice" (total_invoice CV);
        leaf "Total_weight" (Py.str_nat (length items_data)) ] ]) ].

(** The whole document. *)
Definition asycuda_tree (sad_data : record) (items_data : list record) : element :=
  node "ASYCUDA" [ sad_tree sad_data items_data; node "Items" (map item_tree items_data) ].

End Trees.

(** ** Reading a document *)

(** [e.find(tag)]: the first child with that tag. *)
Definition child (tag_name : string) (e : element) : option element :=
  find (fun c => String.eqb (tag c) tag_name) (children e).

(** [e.findall(tag)]: the children with that tag, in document order. *)
Definition children_named (tag_name : string) (e : element) : list element :=
  filter (fun c => String.eqb (tag c) tag_name = true) (children e).

(** [e.find('a/b/c')] *)
Fixpoint descend (path : list string) (e : element) : option element :=
  match path with
  | [] => Some e
  | t :: rest =>
      match child t e with
      | Some c => descend rest c
      | None => None
      end
  end.

(** The [i]-th [Item] of a document. *)
Definition nth_item (i : nat) (doc : element) : option element :=
  match child "Items" doc with
  | Some items => children_named "Item" items !! i
  | None => None
  end.


(** [needle in haystack] *)
Fixpoint contains (needle haystack : string) : bool :=
  Py.startswith haystack needle ||
  match haystack with
  | EmptyString => false
  | String _ rest => contains needle rest
  end.

(** Number of occurrences of a character. *)
Fixpoint count_char (c : ascii) (s : string) : nat :=
  match s with
  | EmptyString => 0
  | String a r => (if Ascii.eqb a c then 1 else 0) + count_char c r
  end.

(** The values a leaf is left without text for. *)
Definition placeholder (v : string) : Prop :=
  v = "" \/ v = "nan" \/ v = "None".

(** ** A workbook given by its two sheets, for worked examples *)

Definition workbook : Type := outcome pd.DataFrame * outcome pd.DataFrame.

Definition read_sheet (wb : workbook) (sheet_name : string)
  : outcome pd.DataFrame :=
  if String.eqb sheet_name "SAD" then fst wb
  else if String.eqb sheet_name "Items" then snd wb
  else Raised "Worksheet not found".

(** A frame from its header and rows of cells, cells taken by position. *)
Definition frame (header : list string) (cells : list (list (option string)))
  : pd.DataFrame :=
  {| pd.columns := header;
     pd.rows :=
       map (fun row col =>
              match list_find (String.eqb col) header with
              | Some (i, _) => mjoin (row !! i)
              | None => None
              end) cells |}.

Definition no_message : element -> string := fun _ => "".

(** ** Texts the serializer accepts *)

(** Printable ASCII. *)
Fixpoint printable (s : string) : bool :=
  match s with
  | EmptyString => true
  | String a r =>
      (32 <=? nat_of_ascii a)%nat && (nat_of_ascii a <? 127)%nat && printable r
  end.

(** Every cell text of the record is made of characters XML allows. *)
Definition record_ok (d : record) : Prop :=
  forall k v, d !! k = Some v -> minidom.xml_chars_ok v = true.

Definition frame_ok (df : pd.DataFrame) : Prop :=
  forall row col v, row ∈ pd.rows df -> row col = Some v ->
    minidom.xml_chars_ok v = true.

(** The file name passes the extension test of the batch loop. *)
Definition has_excel_name {file_content} (file : FileStorage.t file_content)
  : bool :=
  Py.endswith_any (Py.lower (FileStorage.filename file))
    [".xlsx"; ".xls"; ".xlsm"].

(** ** Texts of numbers *)

(** First character of a string. *)
Definition head_char (s : string) : option ascii :=
  match s with
  | EmptyString => None
  | String a _ => Some a
  end.

(** The running total is the float NaN. *)
Definition is_nan (a : pynum) : bool :=
  match a with
  | PyFloat S754_nan => true
  | _ => false
  end.

(** A first character no placeholder starts with. *)
Definition numeric_head (s : string) : Prop :=
  exists c, head_char s = Some c /\
    (PyFloat.is_digit c = true \/ c = "-"%char \/ c = "i"%char).

(** ** Worked examples *)

(** A header sheet with a blank [Exporter_code] cell, and one item row. *)
Definition example_workbook : workbook :=
  (Returned (frame ["Exporter_code"; "Exporter_name"] [[None; Some "ACME"]]),
   Returned (frame ["Commodity_code"; "Invoice Amount_foreign_currency"]
                   [[Some "84713000"; Some "10.5"]])).


(** A workbook without the header sheet. *)
Definition items_only_workbook : workbook :=
  (Raised "Worksheet named 'SAD' not found",
   Returned (frame ["Commodity_code"; "Invoice Amount_foreign_currency"]
                   [[Some "84713000"; Some "10.5"]; [Some "85171300"; None]])).

Definition upload (name : string) (wb : workbook) : FileStorage.t workbook :=
  {| FileStorage.filename := name; FileStorage.read := Returned wb |}.

Definition example_item : record :=
  {[ "Commodity_code" := "84713000";
     "Invoice Amount_foreign_currency" := "10.5";
     "Supplementary_unit_code" := "" ]}.

Definition example_document : option element :=
  create_asycuda_xml CONSIGNMENT_VALUES ∅ [example_item] "form.xlsx".

(** An item row that only fills the invoice amount. *)
Definition amount (v : string) : record :=
  {[ "Invoice Amount_foreign_currency" := v ]}.

(** The declaration-level [Invoice/Amount_foreign_currency] leaf of the
    document built from the given items. *)
Definition invoice_amount (items_data : list record) : option element :=
  match create_asycuda_xml CONSIGNMENT_VALUES ∅ items_data "form.xlsx" with
  | Some doc =>
      descend ["SAD"; "Valuation"; "Invoice"; "Amount_foreign_currency"] doc
  | None => None
  end.

(** The rank leaf of the first supplementary unit of the first item. *)
Definition first_slot_rank (doc : element) : option element :=
  match nth_item 0 doc with
  | Some item =>
      match child "Tariff" item with
      | Some tariff =>
          match children_named "Supplementary_unit" tariff with
          | slot :: _ => child "Supplementary_unit_rank" slot
          | [] => None
          end
      | None => None
      end
  | None => None
  end.

(** The [Item_taxes_amount] leaf of the first item. *)
Definition first_item_taxes_amount (doc : element) : option element :=
  match nth_item 0 doc with
  | Some item => descend ["Taxation"; "Item_taxes_amount"] item
  | None => None
  end.

(** The constants of another consignment: only the invoice total differs. *)
Definition other_consignment : consignment_values := {|
  total_invoice := "999.99";
  total_cif := total_cif CONSIGNMENT_VALUES;
  total_cost := total_cost CONSIGNMENT_VALUES;
  external_freight_foreign := external_freight_foreign CONSIGNMENT_VALUES;
  external_freight_national := external_freight_national CONSIGNMENT_VALUES;
  insurance_foreign := insurance_foreign CONSIGNMENT_VALUES;
  insurance_national := insurance_national CONSIGNMENT_VALUES;
  other_cost_foreign := other_cost_foreign CONSIGNMENT_VALUES;
  other_cost_national := other_cost_national CONSIGNMENT_VALUES;
  total_cif_itm := total_cif_itm CONSIGNMENT_VALUES;
  statistical_value := statistical_value CONSIGNMENT_VALUES;
  alpha_coefficient := alpha_coefficient CONSIGNMENT_VALUES;
  duty_tax_base := duty_tax_base CONSIGNMENT_VALUES;
  duty_tax_rate := duty_tax_rate CONSIGNMENT_VALUES;
  duty_tax_amount := duty_tax_amount CONSIGNMENT_VALUES;
  total_item_taxes := total_item_taxes CONSIGNMENT_VALUES;
  calculation_working_mode := calculation_working_mode CONSIGNMENT_VALUES;
  container_flag := container_flag CONSIGNMENT_VALUES;
  delivery_terms_code := delivery_terms_code CONSIGNMENT_VALUES;
  currency_rate := currency_rate CONSIGNMENT_VALUES;
  manifest_reference := manifest_reference CONSIGNMENT_VALUES;
  total_forms := total_forms CONSIGNMENT_VALUES
|}.


(** ** The columns the mapper reads *)

(** The keys of the [sad_data.get] calls of [create_asycuda_xml]. *)
Definition header_columns : list string :=
  ["Tax_code"; "Tax_description"; "Tax_mop"; "Sad_flow";
    "Number_of_the_form"; "Selected_page"; "Customs_clearance_office_code";
    "Customs_clearance_office_name"; "Type_of_declaration";
    "General_procedure_code"; "Exporter_code"; "Exporter_name";
    "Consignee_code"; "Consignee_name"; "Financial_code"; "Financial_name";
    "Declarant_code"; "Declarant_name"; "Declarant_representative";
    "Reference Year"; "Reference Number"; "Country_first_destination";
    "Trading_country"; "Country_of_origin_name"; "Export_country_code";
    "Export_country_name"; "Export_country_region";
    "Destination_country_code"; "Destination_country_name";
    "Destination_country_region"; "CAP"; "Location_of_goods";
    "Location_of_goods_address"; "Departure_arrival_information Identity";
    "Departure_arrival_information Nationality";
    "Border_information Identity"; "Border_information Nationality";
    "Border_information Mode"; "Delivery_terms Place"; "Border_office Code";
    "Border_office Name"; "Place_of_loading Code"; "Place_of_loading Name";
    "Deffered_payment_reference"; "Mode_of_payment";
    "Financial_transaction Code_1"; "Bank Branch"; "Bank Reference";
    "Terms Code"; "Terms Description"; "Amounts Global_taxes";
    "Guarantee Amount"; "Result_of_control" ].

(** The keys of the [item_data.get] calls of the item builders and of
    [calculate_form_totals]. *)
Definition item_columns : list string :=
  ["Invoice Amount_foreign_currency"; "Supplementary_unit_code";
    "Supplementary_unit_name_1"; "Supplementary_unit_quantity_1";
    "Supplementary_unit_name_2"; "Supplementary_unit_quantity_2";
    "Supplementary_unit_name_3"; "Supplementary_unit_quantity_3";
    "Number_of_packages"; "Marks1_of_packages"; "Marks2_of_packages";
    "Kind_of_packages_code"; "Kind_of_packages_name";
    "Extended_customs_procedure"; "National_customs_procedure";
    "Preference_code"; "Commodity_code"; "Precision_4"; "Quota_code";
    "Country_of_origin_code"; "Description_of_goods";
    "Commercial_description"; "Gross_weight_itm"; "Net_weight_itm";
    "Summary_declaration"; "Summary_declaration_sl" ].

(** Two rows with the same cells under the given columns. *)
Definition agree_on (cols : list string) (d d' : record) : Prop :=
  forall k, k ∈ cols -> d !! k = d' !! k.

(** The amount of the row is a text [float] raises [ValueError] on. *)
Definition rejected (item : record) : bool :=
  let inv_foreign := Py.get "Invoice Amount_foreign_currency" "0" item in
  Py.truthy inv_foreign &&
  match PyFloat.of_string inv_foreign with
  | Some _ => false
  | None => true
  end.

(** The amount cell of the row is there and blank. *)
Definition blank (item : record) : bool :=
  negb (Py.truthy (Py.get "Invoice Amount_foreign_currency" "0" item)).

(** ** The percentage of a batch done *)

(** An [int] as an operand of a float operation, not rounded. *)
Definition exact (z : Z) : PyFloat.float :=
  match z with
  | Z0 => S754_zero false
  | Zpos p => S754_finite false p 0
  | Zneg p => S754_finite true p 0
  end.

(** [a / b] on two [int]s: the binary64 nearest to the quotient, rounded
    once. *)
Definition true_divide (a b : Z) : outcome PyFloat.float :=
  if (b =? 0)%Z then Raised "division by zero"
  else
    match SFdiv PyFloat.prec PyFloat.emax (exact a) (exact b) with
    | S754_infinity _ => Raised "integer division result too large for a float"
    | q => Returned q
    end.

(** [(a / b) * 100] *)
Definition percentage (a b : nat) : outcome pynum :=
  match true_divide (Z.of_nat a) (Z.of_nat b) with
  | Returned q =>
      Returned (PyFloat (SFmul PyFloat.prec PyFloat.emax q (PyFloat.of_int 100)))
  | Raised e => Raised e
  end.

(** ** The progress of a batch *)

(** The dictionary a request keeps under its session id.  Its seven keys
    are set together and never removed: a record with one field per key. *)
Module Progress.

Record t : Type := {
  total : nat;
  processed : nat;
  successful : nat;
  errors : nat;
  percent : pynum;
  current_file : string;
  status : string
}.

(** [progress[key] = v], key by key. *)
Definition set_processed (v : nat) (p : t) : t :=
  {| total := total p; processed := v; successful := successful p;
     errors := errors p; percent := percent p;
     current_file := current_file p; status := status p |}.

Definition set_successful (v : nat) (p : t) : t :=
  {| total := total p; processed := processed p; successful := v;
     errors := errors p; percent := percent p;
     current_file := current_file p; status := status p |}.

Definition set_errors (v : nat) (p : t) : t :=
  {| total := total p; processed := processed p; successful := successful p;
     errors := v; percent := percent p;
     current_file := current_file p; status := status p |}.

Definition set_percent (v : pynum) (p : t) : t :=
  {| total := total p; processed := processed p; successful := successful p;
     errors := errors p; percent := v;
     current_file := current_file p; status := status p |}.

Definition set_current_file (v : string) (p : t) : t :=
  {| total := total p; processed := processed p; successful := successful p;
     errors := errors p; percent := percent p;
     current_file := v; status := status p |}.

Definition set_status (v : string) (p : t) : t :=
  {| total := total p; processed := processed p; successful := successful p;
     errors := errors p; percent := percent p;
     current_file := current_file p; status := v |}.

End Progress.

(** ** The endpoints, with the progress table *)

(** The [/convert] and [/progress] handlers as they act on the
    module-level table [conversion_progress].  A request is followed from
    its start to its response with no other thread in between: the lock
    of the source guards each single access to the table, and every such
    access is one step here.  Calls into [zipfile], [threading] and Flask
    are taken to succeed. *)
Module Server.

(** What a request works on: the module-level [conversion_progress] table
    and the archive it is writing. *)
Record state : Type := {
  conversion_progress : gmap string Progress.t;
  zip_file : ZipFile
}.

(** A piece of the request handler: it returns or raises, and leaves the
    state as it was at that point. *)
Definition handler (A : Type) : Type := state -> outcome A * state.

Definition pure {A} (a : A) : handler A := fun s => (Returned a, s).

Definition and_then {A B} (m : handler A) (k : A -> handler B) : handler B :=
  fun s =>
    match m s with
    | (Returned a, s') => k a s'
    | (Raised e, s') => (Raised e, s')
    end.

(** [try: m except Exception as e: h(str(e))] *)
Definition try_except {A} (m : handler A) (h : string -> handler A) : handler A :=
  fun s =>
    match m s with
    | (Returned a, s') => (Returned a, s')
    | (Raised e, s') => h e s'
    end.

(** A call that touches neither the table nor the archive. *)
Definition call {A} (o : outcome A) : handler A := fun s => (o, s).

Declare Scope handler_scope.
Delimit Scope handler_scope with H.
Notation "x ← y ; z" := (and_then y (fun x => z))
  (at level 20, y at level 100, z at level 200, only parsing) : handler_scope.
Notation "x ;; z" := (and_then x (fun _ => z))
  (at level 100, z at level 200, only parsing, right associativity) : handler_scope.

(** [for x in xs: body(x)] *)
Fixpoint for_each {A} (xs : list A) (body : A -> handler unit) : handler unit :=
  match xs with
  | [] => pure tt
  | x :: rest => and_then (body x) (fun _ => for_each rest body)
  end.

Section Endpoints.

Local Open Scope handler_scope.

Variable CV : consignment_values.
Variable file_content : Type.
Variable pd_read_excel : file_content -> string -> outcome pd.DataFrame.
Variable serializer_error : element -> string.

(** [str(e)] of the [KeyError] a missing session id raises. *)
Variable key_error : string -> string.

(** [conversion_progress[session_id]]: the dictionary object stored under
    the id. *)
Definition getitem (session_id : string) : handler Progress.t :=
  fun s =>
    match conversion_progress s !! session_id with
    | Some p => (Returned p, s)
    | None => (Raised (key_error session_id), s)
    end.

(** The object under the id after it has been changed in place. *)
Definition changed (session_id : string) (p : Progress.t) : handler unit :=
  fun s =>
    (Returned tt,
     {| conversion_progress := <[session_id := p]> (conversion_progress s);
        zip_file := zip_file s |}).

(** [zip_file.writestr(name, data)] *)
Definition zip_writestr (name data : string) : handler unit :=
  fun s =>
    (Returned tt,
     {| conversion_progress := conversion_progress s;
        zip_file := writestr (zip_file s) name data |}).

(** [conversion_progress[session_id]['successful'] += 1] *)
Definition count_successful (session_id : string) : handler unit :=
  progress ← getitem session_id;
  changed session_id
    (Progress.set_successful (Progress.successful progress + 1) progress).

(** [conversion_progress[session_id]['errors'] += 1] *)
Definition count_error (session_id : string) : handler unit :=
  progress ← getitem session_id;
  changed session_id
    (Progress.set_errors (Progress.errors progress + 1) progress).

(** The body of the loop over [enumerate(files)]. *)
Definition convert_file (session_id : string) (total_files : nat)
    (i : nat) (file : FileStorage.t file_content) : handler unit :=
  if Py.endswith_any (Py.lower (FileStorage.filename file))
       [".xlsx"; ".xls"; ".xlsm"] then
    (* Update progress - current file *)
    progress ← getitem session_id;
    percent ← call (percentage i total_files);
    changed session_id
      (Progress.set_percent percent
         (Progress.set_status
            ("Processing " +:+ Py.str_nat (i + 1) +:+ "/" +:+
             Py.str_nat total_files +:+ ": " +:+ FileStorage.filename file)
            (Progress.set_current_file (FileStorage.filename file) progress)));;
    try_except
      (content ← call (FileStorage.read file);
       let '(success, result) :=
         convert_excel_to_xml CV pd_read_excel serializer_error content
           (FileStorage.filename file) in
       if success then
         let xml_filename :=
           Py.rsplit1_head "." (FileStorage.filename file) +:+ ".xml" in
         zip_writestr xml_filename result;;
         count_successful session_id
       else
         (* Create error log file *)
         let error_filename := FileStorage.filename file +:+ "_ERROR.txt" in
         zip_writestr error_filename ("Conversion failed: " +:+ result);;
         count_error session_id)
      (fun e =>
         let error_filename := FileStorage.filename file +:+ "_ERROR.txt" in
         zip_writestr error_filename ("Unexpected error: " +:+ e);;
         count_error session_id);;
    (* Update processed count *)
    progress ← getitem session_id;
    changed session_id (Progress.set_processed (i + 1) progress);;
    percent ← call (percentage (i + 1) total_files);
    progress ← getitem session_id;
    changed session_id (Progress.set_percent percent progress)
  else pure tt.

(** The entry a request starts with. *)
Definition starting (files : list (FileStorage.t file_content)) : Progress.t :=
  {| Progress.total := length files;
     Progress.processed := 0;
     Progress.successful := 0;
     Progress.errors := 0;
     Progress.percent := PyInt 0;
     Progress.current_file := "";
     Progress.status := "Starting conversion..." |}.

(** [if session_id in conversion_progress: del conversion_progress[session_id]] *)
Definition forget (session_id : string) (table : gmap string Progress.t)
  : gmap string Progress.t :=
  match table !! session_id with
  | Some _ => delete session_id table
  | None => table
  end.

(** The [/convert] endpoint.  [request_files] is
    [request.files.getlist('files')], or [None] when the request has no
    ['files'] part; [form_session_id] is the ['sessionId'] field of the
    form, if any, and [uuid4] the text [str(uuid.uuid4())] gives.  The
    result is the response and the table the request leaves; the clean-up
    thread it starts is [cleanup_progress]. *)
Definition convert_files
    (request_files : option (list (FileStorage.t file_content)))
    (form_session_id : option string) (uuid4 : string)
    (table : gmap string Progress.t)
  : response * gmap string Progress.t :=
  match request_files with
  | None => (JsonError "No files uploaded" 400, table)
  | Some files =>
      let session_id :=
        match form_session_id with
        | Some v => v
        | None => uuid4
        end in
      if match files with
         | [] => true
         | first :: _ => String.eqb (FileStorage.filename first) ""
         end
      then (JsonError "No files selected" 400, table)
      else
        (* Initialize progress *)
        let s :=
          {| conversion_progress := <[session_id := starting files]> table;
             zip_file := [] |} in
        let total_files := length files in
        match
          (for_each (enumerate files)
             (fun '(i, file) => convert_file session_id total_files i file);;
           (* Final progress update *)
           progress ← getitem session_id;
           changed session_id
             (Progress.set_current_file ""
                (Progress.set_percent (PyInt 100)
                   (Progress.set_status
                      "Conversion completed! Creating ZIP file..." progress))))
          s
        with
        | (Returned _, s') => (SendFile (zip_file s'), conversion_progress s')
        | (Raised e, s') =>
            (* Clean up progress data on error *)
            (JsonError e 500, forget session_id (conversion_progress s'))
        end
  end.

(** The thread a served request starts: after two seconds it removes the
    entry of the session. *)
Definition cleanup_progress (session_id : string)
    (table : gmap string Progress.t) : gmap string Progress.t :=
  forget session_id table.

(** The [/progress/<session_id>] endpoint: the dictionary that is sent. *)
Definition get_progress (session_id : string)
    (table : gmap string Progress.t) : Progress.t :=
  match table !! session_id with
  | Some progress => progress
  | None =>
      {| Progress.total := 0;
         Progress.processed := 0;
         Progress.successful := 0;
         Progress.errors := 0;
         Progress.percent := PyInt 0;
         Progress.current_file := "No active session";
         Progress.status := "Session not found" |}
  end.

End Endpoints.

Arguments convert_file CV {file_content} pd_read_excel serializer_error
  key_error session_id total_files i file.
Arguments convert_files CV {file_content} pd_read_excel serializer_error
  key_error request_files form_session_id uuid4 table.
Arguments starting {file_content} files.

End Server.

(** ** Reading the batch *)

(** The upload is read and converted into a document. *)
Definition converts {file_content} (CV : consignment_values)
    (pd_read_excel : file_content -> string -> outcome pd.DataFrame)
    (serializer_error : element -> string)
    (file : FileStorage.t file_content) : bool :=
  match FileStorage.read file with
  | Returned content =>
      fst (convert_excel_to_xml CV pd_read_excel serializer_error content
             (FileStorage.filename file))
  | Raised _ => false
  end.

(** The first line of every serialized document. *)
Definition xml_declaration : string :=
  "<?xml version=" +:+ Py.dquote +:+ "1.0" +:+ Py.dquote +:+ " ?>" +:+ Py.newline.

(** The characters [_write_data] replaces by entities, without the
    ampersand. *)
Definition markup (a : ascii) : bool :=
  Ascii.eqb a "<" || Ascii.eqb a ">" || Ascii.eqb a (ascii_of_nat 34).

Fixpoint has_markup (s : string) : bool :=
  match s with
  | EmptyString => false
  | String a r => markup a || has_markup r
  end.

(** The file name has no dot. *)
Fixpoint dotless (s : string) : bool :=
  match s with
  | EmptyString => true
  | String a r => negb (Ascii.eqb a ".") && dotless r
  end.

(** ** Worked examples of a batch *)

Definition unreadable (name : string) : FileStorage.t workbook :=
  {| FileStorage.filename := name; FileStorage.read := Raised "stream closed" |}.

Definition empty_workbook : workbook :=
  (Raised "Worksheet named 'SAD' not found",
   Raised "Worksheet named 'Items' not found").

(** Four uploads: one converts, one is skipped for its name, one has no
    data and one cannot be read. *)
Definition example_batch : list (FileStorage.t workbook) :=
  [ upload "form.one.XLSX" example_workbook;
    upload "notes.txt" example_workbook;
    upload "empty.xls" empty_workbook;
    unreadable "broken.xlsm" ].

Definition quoted (key : string) : string := "'" +:+ key +:+ "'".

Definition example_table : gmap string Progress.t :=
  {[ "other" := Server.starting example_batch ]}.

(** The value of the ['processed'] counter after the loop has gone over
    [files], the first of which has index [start]: one more than the index
    of the last upload with an Excel name, or [before] when there is
    none. *)
Fixpoint processed_after {file_content} (start : nat)
    (files : list (FileStorage.t file_content)) (before : nat) : nat :=
  match files with
  | [] => before
  | file :: rest =>
      processed_after (S start) rest
        (if has_excel_name file then start + 1 else before)
  end.

(** The amount of the row is not a text [float] reads as an infinity or
    as NaN. *)
Definition plain_amount (item : record) : bool :=
  match PyFloat.of_string (Py.get "Invoice Amount_foreign_currency" "0" item) with
  | Some (S754_infinity _) | Some S754_nan => false
  | _ => true
  end.

(** The loop of [calculate_form_totals], from any value of the total. *)
Definition totals_from (acc : pynum) (items_data : list record) : pynum :=
  fold_left
    (fun invoice_foreign_total item =>
       let inv_foreign := Py.get "Invoice Amount_foreign_currency" "0" item in
       if Py.truthy inv_foreign then
         match PyFloat.of_string inv_foreign with
         | Some x => py_add invoice_foreign_total (PyFloat x)
         | None => invoice_foreign_total
         end
       else py_add invoice_foreign_total (PyInt 0))
    items_data acc.

(** The sheet gives no data: it could not be read, or its frame is
    empty. *)
Definition lacks_data (sheet : outcome pd.DataFrame) : Prop :=
  match sheet with
  | Returned df => pd.empty df = true
  | Raised _ => True
  end.

(** The text a cell is read as: blank when [pd.notna] is false. *)
Definition cell_text (cell : option string) : string :=
  match cell with
  | Some v => v
  | None => ""
  end.

(** The record holds the row: its keys are the columns of the frame, and
    under each is the text of the cell of the row. *)
Definition holds_row (cols : list string) (row : string -> option string)
    (d : record) : Prop :=
  forall col,
    d !! col = if decide (col ∈ cols) then Some (cell_text (row col)) else None.

(** A workbook without the header sheet whose one item row has the control
    character U+0001 in its description. *)
Definition control_character_workbook : workbook :=
  (Raised "Worksheet named 'SAD' not found",
   Returned (frame ["Commodity_code"; "Description_of_goods"]
               [[Some "84713000"; Some (String (ascii_of_nat 1) "pump")]])).

(** A workbook with the header sheet only. *)
Definition header_only_workbook : workbook :=
  (Returned (frame ["Exporter_code"; "Exporter_name"] [[None; Some "ACME"]]),
   Raised "Worksheet named 'Items' not found").

(** The characters a text [float] accepts can hold: digits, ASCII white
    space, a sign, the point, the exponent letter, the digit-grouping
    underscore and the letters of "infinity" and "nan". *)
Definition float_char (a : ascii) : bool :=
  PyFloat.is_digit a || PyFloat.is_space a ||
  existsb (Ascii.eqb (Py.lower_ascii a))
    (list_ascii_of_string "+-._einftya").

(** The bytes of a text; those below 128 are its ASCII characters. *)
Definition chars (s : string) : list ascii := list_ascii_of_string s.

(** The characters that are no part of a number in a text that is not all
    ASCII: an ASCII character outside [float_char], and beyond ASCII a
    character that is neither white space nor a decimal digit. *)
Definition foreign (c : N) : bool :=
  if (c <? 127)%N then negb (float_char (ascii_of_N c))
  else negb (PyFloat.unicode_space c)
       && match PyFloat.unicode_decimal c with
          | Some _ => false
          | None => true
          end.

(** ** Where the mapper writes what *)

(** A text that does not depend on the table of constants. *)
Definition fixed (text_content : string) : consignment_values -> string :=
  fun _ => text_content.

(** The element at [path] is a leaf [add_element] has written with the
    value [text_content]. *)
Definition written (path : list string) (text_content : string)
    (doc : element) : Prop :=
  exists tag_name,
    last path = Some tag_name /\
    descend path doc = Some (Element tag_name (leaf_text text_content) []).

(** The leaves [create_asycuda_xml] fills from the header row: the path of
    the element, the column and the default of its [sad_data.get] call. *)
Definition header_fields : list (list string * string * string) :=
  [ (["SAD"; "Assessment_notice"; "Items_taxes"; "Item_tax"; "Tax_code"],
       "Tax_code", "IR");
    (["SAD"; "Assessment_notice"; "Items_taxes"; "Item_tax"; "Tax_description"],
       "Tax_description", "Invoerrechten");
    (["SAD"; "Assessment_notice"; "Items_taxes"; "Item_tax"; "Tax_mop"],
       "Tax_mop", "1");
    (["SAD"; "Properties"; "Sad_flow"], "Sad_flow", "I");
    (["SAD"; "Properties"; "Forms"; "Number_of_the_form"],
       "Number_of_the_form", "1");
    (["SAD"; "Properties"; "Selected_page"], "Selected_page", "1");
    (["SAD"; "Identification"; "Office_segment"; "Customs_clearance_office_code"],
       "Customs_clearance_office_code", "LV01");
    (["SAD"; "Identification"; "Office_segment"; "Customs_clearance_office_name"],
       "Customs_clearance_office_name", "Luchthaven Vracht");
    (["SAD"; "Identification"; "Type"; "Type_of_declaration"],
       "Type_of_declaration", "INV");
    (["SAD"; "Identification"; "Type"; "General_procedure_code"],
       "General_procedure_code", "4");
    (["SAD"; "Traders"; "Exporter"; "Exporter_code"], "Exporter_code", "");
    (["SAD"; "Traders"; "Exporter"; "Exporter_name"], "Exporter_name", "");
    (["SAD"; "Traders"; "Consignee"; "Consignee_code"],
       "Consignee_code", "10026483");
    (["SAD"; "Traders"; "Consignee"; "Consignee_name"],
       "Consignee_name", "Dhr. Anthony Martina Paradera 1-H Paradera Paradera Aruba");
    (["SAD"; "Traders"; "Financial"; "Financial_code"], "Financial_code", "");
    (["SAD"; "Traders"; "Financial"; "Financial_name"], "Financial_name", "");
    (["SAD"; "Declarant"; "Declarant_code"], "Declarant_code", "1160650");
    (["SAD"; "Declarant"; "Declarant_name"],
       "Declarant_name", "Dhr. Victor Hoek Alto Vista 133 Alto Vista Noord/Tanki Leendert Aruba");
    (["SAD"; "Declarant"; "Declarant_representative"],
       "Declarant_representative", "Lizandra I. Geerman");
    (["SAD"; "Declarant"; "Reference"; "Year"], "Reference Year", "2025");
    (["SAD"; "Declarant"; "Reference"; "Number"], "Reference Number", "");
    (["SAD"; "General_information"; "Country"; "Country_first_destination"],
       "Country_first_destination", "US");
    (["SAD"; "General_information"; "Country"; "Trading_country"],
       "Trading_country", "US");
    (["SAD"; "General_information"; "Country"; "Country_of_origin_name"],
       "Country_of_origin_name", "Verenigde Staten");
    (["SAD"; "General_information"; "Country"; "Export"; "Export_country_code"],
       "Export_country_code", "US");
    (["SAD"; "General_information"; "Country"; "Export"; "Export_country_name"],
       "Export_country_name", "Verenigde Staten");
    (["SAD"; "General_information"; "Country"; "Export"; "Export_country_region"],
       "Export_country_region", "");
    (["SAD"; "General_information"; "Country"; "Destination"; "Destination_country_code"],
       "Destination_country_code", "AW");
    (["SAD"; "General_information"; "Country"; "Destination"; "Destination_country_name"],
       "Destination_country_name", "Aruba");
    (["SAD"; "General_information"; "Country"; "Destination"; "Destination_country_region"],
       "Destination_country_region", "");
    (["SAD"; "General_information"; "CAP"], "CAP", "");
    (["SAD"; "Transport"; "Location_of_goods"], "Location_of_goods", "RT-01");
    (["SAD"; "Transport"; "Location_of_goods_address"],
       "Location_of_goods_address", "Sabana Berde #75");
    (["SAD"; "Transport"; "Means_of_transport"; "Departure_arrival_information"; "Identity"],
       "Departure_arrival_information Identity", "COPA AIRLINES");
    (["SAD"; "Transport"; "Means_of_transport"; "Departure_arrival_information"; "Nationality"],
       "Departure_arrival_information Nationality", "PA");
    (["SAD"; "Transport"; "Means_of_transport"; "Border_information"; "Identity"],
       "Border_information Identity", "");
    (["SAD"; "Transport"; "Means_of_transport"; "Border_information"; "Nationality"],
       "Border_information Nationality", "");
    (["SAD"; "Transport"; "Means_of_transport"; "Border_information"; "Mode"],
       "Border_information Mode", "4");
    (["SAD"; "Transport"; "Delivery_terms"; "Place"],
       "Delivery_terms Place", "USA");
    (["SAD"; "Transport"; "Border_office"; "Code"],
       "Border_office Code", "LV01");
    (["SAD"; "Transport"; "Border_office"; "Name"],
       "Border_office Name", "Luchthaven Vracht");
    (["SAD"; "Transport"; "Place_of_loading"; "Code"],
       "Place_of_loading Code", "AWAIR");
    (["SAD"; "Transport"; "Place_of_loading"; "Name"],
       "Place_of_loading Name", "Aeropuerto Reina Beatrix");
    (["SAD"; "Financial"; "Deffered_payment_reference"],
       "Deffered_payment_reference", "");
    (["SAD"; "Financial"; "Mode_of_payment"], "Mode_of_payment", "CONTANT");
    (["SAD"; "Financial"; "Financial_transaction"; "Code_1"],
       "Financial_transaction Code_1", "1");
    (["SAD"; "Financial"; "Financial_transaction"; "Code_2"],
       "Financial_transaction Code_1", "1");
    (["SAD"; "Financial"; "Bank"; "Branch"], "Bank Branch", "");
    (["SAD"; "Financial"; "Bank"; "Reference"], "Bank Reference", "");
    (["SAD"; "Financial"; "Terms"; "Code"], "Terms Code", "");
    (["SAD"; "Financial"; "Terms"; "Description"], "Terms Description", "");
    (["SAD"; "Financial"; "Amounts"; "Global_taxes"],
       "Amounts Global_taxes", "0");
    (["SAD"; "Financial"; "Guarantee"; "Amount"], "Guarantee Amount", "0");
    (["SAD"; "Transit"; "Result_of_control"], "Result_of_control", "") ].

(** The leaves of the declaration that do not come from the workbook: each
    holds a constant of [CONSIGNMENT_VALUES] or a text fixed in the source. *)
Definition declaration_constants : list (list string * (consignment_values -> string)) :=
  [ (["SAD"; "Assessment_notice"; "Total_item_taxes"], total_item_taxes);
    (["SAD"; "Assessment_notice"; "Items_taxes"; "Item_tax"; "Tax_amount"],
       total_item_taxes);
    (["SAD"; "Properties"; "Forms"; "Total_number_of_forms"], total_forms);
    (["SAD"; "Identification"; "Manifest_reference_number"],
       manifest_reference);
    (["SAD"; "General_information"; "Value_details"], total_cost);
    (["SAD"; "Transport"; "Container_flag"], container_flag);
    (["SAD"; "Transport"; "Delivery_terms"; "Code"], delivery_terms_code);
    (["SAD"; "Financial"; "Amounts"; "Totals_taxes"], total_item_taxes);
    (["SAD"; "Valuation"; "Calculation_working_mode"],
       calculation_working_mode);
    (["SAD"; "Valuation"; "Total_cost"], total_cost);
    (["SAD"; "Valuation"; "Total_cif"], total_cif);
    (["SAD"; "Valuation"; "Invoice"; "Amount_national_currency"],
       fixed "3591.89");
    (["SAD"; "Valuation"; "Invoice"; "Currency_code"], fixed "USD");
    (["SAD"; "Valuation"; "Invoice"; "Currency_name"],
       fixed "Geen vreemde valuta");
    (["SAD"; "Valuation"; "Invoice"; "Currency_rate"], currency_rate);
    (["SAD"; "Valuation"; "External_freight"; "Amount_national_currency"],
       fixed "509.24");
    (["SAD"; "Valuation"; "External_freight"; "Amount_foreign_currency"],
       fixed "17.27");
    (["SAD"; "Valuation"; "External_freight"; "Currency_code"], fixed "USD");
    (["SAD"; "Valuation"; "External_freight"; "Currency_name"],
       fixed "Geen vreemde valuta");
    (["SAD"; "Valuation"; "External_freight"; "Currency_rate"],
       currency_rate);
    (["SAD"; "Valuation"; "Internal_freight"; "Amount_national_currency"],
       fixed "0");
    (["SAD"; "Valuation"; "Internal_freight"; "Amount_foreign_currency"],
       fixed "0");
    (["SAD"; "Valuation"; "Internal_freight"; "Currency_code"], fixed "");
    (["SAD"; "Valuation"; "Internal_freight"; "Currency_name"],
       fixed "Geen vreemde valuta");
    (["SAD"; "Valuation"; "Internal_freight"; "Currency_rate"], fixed "0");
    (["SAD"; "Valuation"; "Insurance"; "Amount_national_currency"],
       fixed "62.26");
    (["SAD"; "Valuation"; "Insurance"; "Amount_foreign_currency"],
       fixed "1.00875");
    (["SAD"; "Valuation"; "Insurance"; "Currency_code"], fixed "USD");
    (["SAD"; "Valuation"; "Insurance"; "Currency_name"],
       fixed "Geen vreemde valuta");
    (["SAD"; "Valuation"; "Insurance"; "Currency_rate"], currency_rate);
    (["SAD"; "Valuation"; "Other_cost"; "Amount_national_currency"],
       fixed "49.6");
    (["SAD"; "Valuation"; "Other_cost"; "Amount_foreign_currency"], fixed "");
    (["SAD"; "Valuation"; "Other_cost"; "Currency_code"], fixed "USD");
    (["SAD"; "Valuation"; "Other_cost"; "Currency_name"],
       fixed "Geen vreemde valuta");
    (["SAD"; "Valuation"; "Other_cost"; "Currency_rate"], currency_rate);
    (["SAD"; "Valuation"; "Deduction"; "Amount_national_currency"],
       fixed "0");
    (["SAD"; "Valuation"; "Deduction"; "Amount_foreign_currency"], fixed "0");
    (["SAD"; "Valuation"; "Deduction"; "Currency_code"], fixed "USD");
    (["SAD"; "Valuation"; "Deduction"; "Currency_name"],
       fixed "Geen vreemde valuta");
    (["SAD"; "Valuation"; "Deduction"; "Currency_rate"], currency_rate);
    (["SAD"; "Valuation"; "Total"; "Total_invoice"], total_invoice) ].

(** The leaves [create_item_element] fills from the row of the item, by
    their path below the [Item] element, with the column and the default of
    the [item_data.get] call.  The supplementary units, three blocks under
    one tag, are not listed. *)
Definition item_fields : list (list string * string * string) :=
  [ (["Packages"; "Number_of_packages"], "Number_of_packages", "");
    (["Packages"; "Marks1_of_packages"], "Marks1_of_packages", "");
    (["Packages"; "Marks2_of_packages"], "Marks2_of_packages", "");
    (["Packages"; "Kind_of_packages_code"], "Kind_of_packages_code", "STKS");
    (["Packages"; "Kind_of_packages_name"], "Kind_of_packages_name", "Stuks");
    (["Tariff"; "Extended_customs_procedure"],
       "Extended_customs_procedure", "4000");
    (["Tariff"; "National_customs_procedure"],
       "National_customs_procedure", "00:00:00");
    (["Tariff"; "Preference_code"], "Preference_code", "");
    (["Tariff"; "Harmonized_system"; "Commodity_code"], "Commodity_code", "");
    (["Tariff"; "Harmonized_system"; "Precision_4"], "Precision_4", "");
    (["Tariff"; "Quota"; "Quota_code"], "Quota_code", "");
    (["Goods_description"; "Country_of_origin_code"],
       "Country_of_origin_code", "US");
    (["Goods_description"; "Description_of_goods"],
       "Description_of_goods", "");
    (["Goods_description"; "Commercial_description"],
       "Commercial_description", "");
    (["Valuation_item"; "Weight"; "Gross_weight_itm"],
       "Gross_weight_itm", "0.5");
    (["Valuation_item"; "Weight"; "Net_weight_itm"], "Net_weight_itm", "0.5");
    (["Valuation_item"; "Invoice"; "Amount_foreign_currency"],
       "Invoice Amount_foreign_currency", "");
    (["Previous_document"; "Summary_declaration"], "Summary_declaration", "");
    (["Previous_document"; "Summary_declaration_sl"],
       "Summary_declaration_sl", "1") ].

(** The leaves of an item that do not come from the workbook. *)
Definition item_constants : list (list string * (consignment_values -> string)) :=
  [ (["Valuation_item"; "Rate_of_adjustment"], fixed "1");
    (["Valuation_item"; "Total_cost_itm"], fixed "");
    (["Valuation_item"; "Total_cif_itm"], total_cif_itm);
    (["Valuation_item"; "Statistical_value"], statistical_value);
    (["Valuation_item"; "Alpha_coeficient_of_apportionment"],
       alpha_coefficient);
    (["Valuation_item"; "Invoice"; "Amount_national_currency"], fixed "");
    (["Valuation_item"; "Invoice"; "Currency_code"], fixed "USD");
    (["Valuation_item"; "Invoice"; "Currency_name"],
       fixed "Geen vreemde valuta");
    (["Valuation_item"; "Invoice"; "Currency_rate"], currency_rate);
    (["Valuation_item"; "External_freight"; "Amount_national_currency"],
       external_freight_national);
    (["Valuation_item"; "External_freight"; "Amount_foreign_currency"],
       external_freight_foreign);
    (["Valuation_item"; "External_freight"; "Currency_code"], fixed "USD");
    (["Valuation_item"; "External_freight"; "Currency_name"],
       fixed "Geen vreemde valuta");
    (["Valuation_item"; "External_freight"; "Currency_rate"], currency_rate);
    (["Valuation_item"; "Internal_freight"; "Amount_national_currency"],
       fixed "0");
    (["Valuation_item"; "Internal_freight"; "Amount_foreign_currency"],
       fixed "");
    (["Valuation_item"; "Internal_freight"; "Currency_code"], fixed "");
    (["Valuation_item"; "Internal_freight"; "Currency_name"],
       fixed "Geen vreemde valuta");
    (["Valuation_item"; "Internal_freight"; "Currency_rate"], fixed "0");
    (["Valuation_item"; "Insurance"; "Amount_national_currency"],
       insurance_national);
    (["Valuation_item"; "Insurance"; "Amount_foreign_currency"],
       insurance_foreign);
    (["Valuation_item"; "Insurance"; "Currency_code"], fixed "USD");
    (["Valuation_item"; "Insurance"; "Currency_name"],
       fixed "Geen vreemde valuta");
    (["Valuation_item"; "Insurance"; "Currency_rate"], currency_rate);
    (["Valuation_item"; "Other_cost"; "Amount_national_currency"],
       other_cost_national);
    (["Valuation_item"; "Other_cost"; "Amount_foreign_currency"],
       other_cost_foreign);
    (["Valuation_item"; "Other_cost"; "Currency_code"], fixed "USD");
    (["Valuation_item"; "Other_cost"; "Currency_name"],
       fixed "Geen vreemde valuta");
    (["Valuation_item"; "Other_cost"; "Currency_rate"], currency_rate);
    (["Valuation_item"; "Deduction"; "Amount_national_currency"], fixed "0");
    (["Valuation_item"; "Deduction"; "Amount_foreign_currency"], fixed "0");
    (["Valuation_item"; "Deduction"; "Currency_code"], fixed "USD");
    (["Valuation_item"; "Deduction"; "Currency_name"],
       fixed "Geen vreemde valuta");
    (["Valuation_item"; "Deduction"; "Currency_rate"], currency_rate);
    (["Taxation"; "Item_taxes_amount"], duty_tax_amount);
    (["Taxation"; "Item_taxes_mode_of_payment"], fixed "1");
    (["Taxation"; "Taxation_line"; "Duty_tax_code"], fixed "IR");
    (["Taxation"; "Taxation_line"; "Duty_tax_base"], duty_tax_base);
    (["Taxation"; "Taxation_line"; "Duty_tax_rate"], duty_tax_rate);
    (["Taxation"; "Taxation_line"; "Duty_tax_amount"], duty_tax_amount);
    (["Taxation"; "Taxation_line"; "Duty_tax_MP"], fixed "1") ].
(** ** The store: lookups and updates along a reference *)

Section Store.

Implicit Types (p q : ref) (e st c : element) (f g : element -> element).

Lemma lookup_at_app p q e :
  lookup_at (p ++ q) e =
  match lookup_at p e with
  | Some c => lookup_at q c
  | None => None
  end.
Proof.
  revert e. induction p as [|i p IH]; intros e; simpl; [done|].
  destruct (children e !! i); [apply IH|done].
Qed.

Lemma alter_at_app f p q e :
  alter_at f (p ++ q) e = alter_at (alter_at f q) p e.
Proof.
  revert e. induction p as [|i p IH]; intros e; simpl; [done|].
  f_equal. apply list_alter_ext; [|done]. intros c _. apply IH.
Qed.

Lemma alter_at_ext_at f g p e :
  (forall c, lookup_at p e = Some c -> f c = g c) ->
  alter_at f p e = alter_at g p e.
Proof.
  revert e. induction p as [|i p IH]; intros e Hfg; simpl; [by apply Hfg|].
  f_equal. apply list_alter_ext; [|done]. intros c Hc. apply IH.
  intros c' Hc'. apply Hfg. simpl. by rewrite Hc.
Qed.

Lemma alter_at_ext f g p e :
  (forall x, f x = g x) -> alter_at f p e = alter_at g p e.
Proof. intros Hfg. apply alter_at_ext_at. auto. Qed.

Lemma alter_at_compose f g p e :
  alter_at g p (alter_at f p e) = alter_at (fun x => g (f x)) p e.
Proof.
  revert e. induction p as [|i p IH]; intros e; simpl; [done|].
  f_equal. rewrite list_alter_alter_eq.
  apply list_alter_ext; [|done]. intros c _. apply IH.
Qed.

Lemma lookup_alter_at f p e c :
  lookup_at p e = Some c -> lookup_at p (alter_at f p e) = Some (f c).
Proof.
  revert e. induction p as [|i p IH]; intros e; simpl.
  - by intros [= ->].
  - rewrite list_lookup_alter_eq.
    destruct (children e !! i); simpl; [apply IH|done].
Qed.

Lemma add_children_nil e : add_children [] e = e.
Proof. destruct e. unfold add_children. simpl. by rewrite app_nil_r. Qed.

Lemma add_children_app cs ds e :
  add_children ds (add_children cs e) = add_children (cs ++ ds) e.
Proof. unfold add_children. simpl. by rewrite app_assoc. Qed.

Lemma alter_at_id f p e : (forall x, f x = x) -> alter_at f p e = e.
Proof.
  intros Hf. revert e. induction p as [|i p IH]; intros e; simpl; [done|].
  rewrite list_alter_id; [by destruct e|done].
Qed.

Lemma grown_nil p st : grown p st [] = st.
Proof. apply alter_at_id, add_children_nil. Qed.

Lemma grown_grown p st cs ds :
  grown p (grown p st cs) ds = grown p st (cs ++ ds).
Proof.
  unfold grown. rewrite alter_at_compose.
  apply alter_at_ext. intros x. apply add_children_app.
Qed.

Section Focus.

(** The element at [p] before the builder at hand starts. *)
Variables (p : ref) (st e : element).
Hypothesis Hp : lookup_at p st = Some e.

Local Abbreviation n := (length (children e)).

Lemma lookup_grown cs :
  lookup_at p (grown p st cs) = Some (add_children cs e).
Proof using Hp. by apply lookup_alter_at. Qed.

Lemma lookup_below cs k q :
  lookup_at (below n p k q) (grown p st cs) =
  match cs !! k with
  | Some c => lookup_at q c
  | None => None
  end.
Proof using Hp.
  unfold below. rewrite lookup_at_app, lookup_grown. simpl.
  rewrite lookup_app_r by lia.
  replace (n + k - n) with k by lia.
  done.
Qed.

Lemma alter_below f cs k q :
  alter_at f (below n p k q) (grown p st cs) =
  grown p st (alter (alter_at f q) k cs).
Proof using Hp.
  unfold below, grown. rewrite alter_at_app, alter_at_compose.
  apply alter_at_ext_at. intros c Hc. rewrite Hp in Hc. injection Hc as <-.
  unfold add_children. simpl. f_equal. apply alter_app_r.
Qed.

Lemma grown_more cs ds :
  alter_at (add_children ds) p (grown p st cs) = grown p st (cs ++ ds).
Proof. apply grown_grown. Qed.

Lemma run_SubElement_parent cs k cs' tag_name :
  k = length cs ->
  cs' = cs ++ [ET.Element_ tag_name] ->
  ET.SubElement p tag_name (grown p st cs) =
  Some (below n p k [], grown p st cs').
Proof using Hp.
  intros -> ->. unfold ET.SubElement. rewrite lookup_grown. simpl.
  rewrite length_app. unfold below, add_child. by rewrite grown_more.
Qed.

Lemma run_SubElement_below cs k q c q' cs' tag_name :
  match cs !! k with
  | Some x => lookup_at q x
  | None => None
  end = Some c ->
  q' = q ++ [length (children c)] ->
  cs' = alter (alter_at (add_child (ET.Element_ tag_name)) q) k cs ->
  ET.SubElement (below n p k q) tag_name (grown p st cs) =
  Some (below n p k q', grown p st cs').
Proof using Hp.
  intros Hc -> ->. unfold ET.SubElement. rewrite lookup_below, Hc.
  rewrite alter_below. unfold below. by rewrite <- app_assoc.
Qed.

Lemma run_set_text_below cs k q c cs' s :
  match cs !! k with
  | Some x => lookup_at q x
  | None => None
  end = Some c ->
  cs' = alter (alter_at (assign_text s) q) k cs ->
  ET.set_text (below n p k q) s (grown p st cs) = Some (tt, grown p st cs').
Proof using Hp.
  intros Hc ->. unfold ET.set_text. by rewrite lookup_below, Hc, alter_below.
Qed.

End Focus.

(** [add_element] appends one leaf and returns it. *)
Lemma run_add_element r st c tag_name v :
  lookup_at r st = Some c ->
  add_element r tag_name v st =
  Some (r ++ [length (children c)], alter_at (add_child (leaf tag_name v)) r st).
Proof.
  intros Hr. unfold add_element, bind.
  rewrite <- (grown_nil r st) at 1.
  rewrite (run_SubElement_parent r st c Hr [] 0 _ tag_name eq_refl eq_refl). simpl.
  replace (r ++ [length (children c)]) with (below (length (children c)) r 0 [])
    by (unfold below; by rewrite Nat.add_0_r).
  unfold leaf, leaf_text.
  destruct (Py.truthy v && Py.ne v "nan" && Py.ne v "None" && Py.ne v "").
  - by rewrite (run_set_text_below r st c Hr [ET.Element_ tag_name] 0 []
                 (ET.Element_ tag_name) _ v eq_refl eq_refl).
  - done.
Qed.

Section Run.

Variables (p : ref) (st e : element).
Hypothesis Hp : lookup_at p st = Some e.

Local Abbreviation n := (length (children e)).

Lemma run_add_element_parent cs k cs' tag_name v :
  k = length cs ->
  cs' = cs ++ [leaf tag_name v] ->
  add_element p tag_name v (grown p st cs) =
  Some (below n p k [], grown p st cs').
Proof using Hp.
  intros -> ->. rewrite (run_add_element _ _ _ _ _ (lookup_grown p st e Hp cs)).
  simpl. rewrite length_app. unfold below, add_child. by rewrite grown_more.
Qed.

Lemma run_add_element_below cs k q c q' cs' tag_name v :
  match cs !! k with
  | Some x => lookup_at q x
  | None => None
  end = Some c ->
  q' = q ++ [length (children c)] ->
  cs' = alter (alter_at (add_child (leaf tag_name v)) q) k cs ->
  add_element (below n p k q) tag_name v (grown p st cs) =
  Some (below n p k q', grown p st cs').
Proof using Hp.
  intros Hc -> ->.
  assert (lookup_at (below n p k q) (grown p st cs) = Some c) as Hl
    by (by rewrite (lookup_below p st e Hp)).
  rewrite (run_add_element _ _ _ _ _ Hl), (alter_below p st e Hp).
  unfold below. by rewrite <- app_assoc.
Qed.

Lemma run_appends_parent m cs cs' xs :
  appends m p xs ->
  cs' = cs ++ xs ->
  m (grown p st cs) = Some (tt, grown p st cs').
Proof using Hp.
  intros Hm ->. rewrite (Hm _ _ (lookup_grown p st e Hp cs)).
  by rewrite grown_grown.
Qed.

Lemma run_appends_below m cs k q c cs' xs :
  appends m (below n p k q) xs ->
  match cs !! k with
  | Some x => lookup_at q x
  | None => None
  end = Some c ->
  cs' = alter (alter_at (add_children xs) q) k cs ->
  m (grown p st cs) = Some (tt, grown p st cs').
Proof using Hp.
  intros Hm Hc ->.
  assert (lookup_at (below n p k q) (grown p st cs) = Some c) as Hl
    by (by rewrite (lookup_below p st e Hp)).
  rewrite (Hm _ _ Hl). unfold grown at 1.
  by rewrite (alter_below p st e Hp).
Qed.

End Run.

Lemma bind_run {A B} (m : builder A) (k : A -> builder B) st a st' r :
  m st = Some (a, st') -> k a st' = r -> bind m k st = r.
Proof. intros Hm Hk. unfold bind. by rewrite Hm. Qed.

End Store.

(** Symbolic execution of a builder: one statement at a time, keeping the
    document in the form [grown p st cs] with [cs] explicit. *)
Ltac norm_tree :=
  cbv [alter list_alter alter_at add_child add_children children tag text
       lookup list_lookup lookup_at app length ET.Element_ Nat.add
       valuation_subsections node];
  reflexivity.

Create HintDb appends discriminated.

Ltac run_statement Hp :=
  first
    [ eapply (run_SubElement_parent _ _ _ Hp); norm_tree
    | eapply (run_add_element_parent _ _ _ Hp); norm_tree
    | eapply (run_SubElement_below _ _ _ Hp); norm_tree
    | eapply (run_add_element_below _ _ _ Hp); norm_tree
    | eapply (run_appends_below _ _ _ Hp);
      [ solve [eauto with appends] | norm_tree | norm_tree ]
    | eapply (run_appends_parent _ _ _ Hp);
      [ solve [eauto with appends] | norm_tree ] ].

Ltac step Hp := eapply bind_run; [ run_statement Hp | cbv beta ].

Ltac run_builder Hp :=
  match type of Hp with
  | lookup_at ?p ?st = _ => rewrite <- (grown_nil p st) at 1
  end;
  repeat step Hp;
  reflexivity.

(** ** Each builder appends the tree it stands for *)

Section Denotation.

Variable CV : consignment_values.

Lemma create_valuation_subsections_appends parent total :
  appends (create_valuation_subsections CV parent total) parent
    (valuation_subsections CV total).
Proof.
  intros st e Hp. unfold create_valuation_subsections. run_builder Hp.
Qed.

Lemma create_item_supplementary_unit_appends parent item_data unit_num :
  appends (create_item_supplementary_unit parent item_data unit_num) parent
    [supplementary_unit item_data unit_num].
Proof.
  intros st e Hp.
  unfold create_item_supplementary_unit, supplementary_unit.
  match type of Hp with
  | lookup_at ?p ?st = _ => rewrite <- (grown_nil p st) at 1
  end.
  step Hp.
  destruct (String.eqb unit_num "1"); [|destruct (String.eqb unit_num "2")];
    repeat step Hp; reflexivity.
Qed.

Lemma create_item_valuation_subsections_appends parent item_data :
  appends (create_item_valuation_subsections CV parent item_data) parent
    (item_valuation_subsections CV item_data).
Proof.
  intros st e Hp. unfold create_item_valuation_subsections. run_builder Hp.
Qed.

Hint Resolve create_valuation_subsections_appends
  create_item_supplementary_unit_appends
  create_item_valuation_subsections_appends : appends.

Lemma create_item_element_appends parent item_data item_number :
  appends (create_item_element CV parent item_data item_number) parent
    [item_tree CV item_data].
Proof.
  intros st e Hp. unfold create_item_element. run_builder Hp.
Qed.

Lemma for_each_appends {A} (xs : list A) (body : A -> builder unit)
    (parent : ref) (tree : A -> element) :
  (forall x, appends (body x) parent [tree x]) ->
  appends (for_each xs body) parent (map tree xs).
Proof.
  intros Hbody. induction xs as [|x xs IH]; intros st e Hp; simpl.
  - unfold ret. by rewrite grown_nil.
  - unfold bind. rewrite (Hbody x st e Hp).
    rewrite (IH _ _ (lookup_grown parent st e Hp [tree x])).
    by rewrite grown_grown.
Qed.

Lemma map_enumerate {A B} (f : A -> B) (xs : list A) :
  map (fun '(_, x) => f x) (enumerate xs) = map f xs.
Proof.
  unfold enumerate. generalize 0. induction xs as [|x xs IH]; intros k; simpl.
  - done.
  - f_equal. apply IH.
Qed.

Lemma items_loop_appends parent items_data :
  appends
    (for_each (enumerate items_data)
       (fun '(i, item_data) => create_item_element CV parent item_data (i + 1)))
    parent (map (item_tree CV) items_data).
Proof.
  rewrite <- (map_enumerate (item_tree CV)).
  apply for_each_appends. intros [i item_data].
  apply create_item_element_appends.
Qed.

Hint Resolve items_loop_appends : appends.

(** The mapper returns, for every header and every item list, the document
    [asycuda_tree] describes. *)
Theorem create_asycuda_xml_tree sad_data items_data filename :
  create_asycuda_xml CV sad_data items_data filename =
  Some (asycuda_tree CV sad_data items_data).
Proof.
  unfold create_asycuda_xml.
  assert (lookup_at [] (ET.Element_ "ASYCUDA") = Some (ET.Element_ "ASYCUDA"))
    as Hp by reflexivity.
  assert (asycuda_body CV [] sad_data items_data filename (ET.Element_ "ASYCUDA") =
          Some ([], grown [] (ET.Element_ "ASYCUDA")
                      [sad_tree CV sad_data items_data;
                       node "Items" (map (item_tree CV) items_data)])) as ->.
  { unfold asycuda_body. cbv zeta. run_builder Hp. }
  reflexivity.
Qed.

End Denotation.

(** ** Facts about leaves *)

Lemma leaf_text_placeholder v : placeholder v -> leaf_text v = None.
Proof. by intros [->|[->| ->]]. Qed.

Lemma leaf_text_value v : ~ placeholder v -> leaf_text v = Some v.
Proof.
  intros Hv. unfold leaf_text, Py.ne.
  destruct (String.eqb_spec v "nan") as [->|_]; [destruct Hv; unfold placeholder; auto|].
  destruct (String.eqb_spec v "None") as [->|_]; [destruct Hv; unfold placeholder; auto|].
  destruct (String.eqb_spec v "") as [->|_]; [destruct Hv; unfold placeholder; auto|].
  destruct v; [destruct Hv; unfold placeholder; auto|done].
Qed.

(** The decimal form of a natural number starts with a digit. *)
Lemma pretty_N_go_head (x : N) (s : string) :
  (0 < x)%N \/ (exists d r, s = String d r /\ PyFloat.is_digit d = true) ->
  exists d r, pretty_N_go x s = String d r /\ PyFloat.is_digit d = true.
Proof.
  revert s. induction (N.lt_wf_0 x) as [x _ IH]; intros s Hs.
  destruct (decide (x = 0%N)) as [->|Hx].
  - rewrite pretty_N_go_0. destruct Hs as [?|?]; [lia|done].
  - rewrite pretty_N_go_step by lia. apply IH.
    + apply N.div_lt; lia.
    + right. eexists _, _. split; [done|].
      assert (x `mod` 10 < 10)%N as Hlt by (apply N.mod_lt; lia).
      unfold pretty_N_char.
      destruct (x `mod` 10)%N as [|[[[|[]|]|[[]|[]|]|]|[[|[]|]|[[]|[]|]|]|]]; try done; lia.
Qed.

Lemma str_nat_head (n : nat) :
  exists d r, Py.str_nat n = String d r /\ PyFloat.is_digit d = true.
Proof.
  unfold Py.str_nat, pretty, pretty_nat, pretty, pretty_N.
  case_decide as Hn.
  - by exists "0"%char, "".
  - apply pretty_N_go_head. left. lia.
Qed.

Lemma leaf_text_str_nat (n : nat) : leaf_text (Py.str_nat n) = Some (Py.str_nat n).
Proof.
  destruct (str_nat_head n) as (d & r & Hs & Hd). rewrite Hs.
  apply leaf_text_value. intros [H|[H|H]]; try done.
  - injection H as -> _. done.
  - injection H as -> _. done.
Qed.


(** ** The serialized text *)

Lemma string_app_nil_r s : s +:+ "" = s.
Proof.
  induction s as [|a s IH]; [done|].
  change (String a s +:+ "") with (String a (s +:+ "")). by rewrite IH.
Qed.

Lemma string_app_assoc a b c : (a +:+ b) +:+ c = a +:+ (b +:+ c).
Proof.
  induction a as [|x a IH]; [done|].
  change (String x ((a +:+ b) +:+ c) = String x (a +:+ (b +:+ c))).
  by rewrite IH.
Qed.

Lemma startswith_app n b : Py.startswith (n +:+ b) n = true.
Proof.
  induction n as [|a n IH]; simpl; [done|].
  by rewrite Ascii.eqb_refl.
Qed.

Lemma startswith_app_l n s b :
  Py.startswith s n = true -> Py.startswith (s +:+ b) n = true.
Proof.
  revert s. induction n as [|a n IH]; intros s; simpl; [done|].
  destruct s as [|c s]; [done|]. simpl.
  intros [-> Hs]%andb_true_iff. by rewrite IH.
Qed.

Lemma contains_startswith n s : Py.startswith s n = true -> contains n s = true.
Proof. intros H. destruct s; simpl; by rewrite H. Qed.

Lemma contains_here n b : contains n (n +:+ b) = true.
Proof. apply contains_startswith, startswith_app. Qed.

Lemma contains_app_r n a s : contains n s = true -> contains n (a +:+ s) = true.
Proof.
  intros Hs. induction a as [|c a IH]; simpl; [done|].
  rewrite IH. apply orb_true_r.
Qed.

Lemma contains_app_l n s b : contains n s = true -> contains n (s +:+ b) = true.
Proof.
  induction s as [|c s IH].
  - simpl. rewrite orb_false_r. intros Hp. apply contains_startswith.
    by destruct n.
  - intros H. change (String c s +:+ b) with (String c (s +:+ b)).
    cbn [contains] in *. apply orb_true_iff in H as [Hp|Hs].
    + apply orb_true_iff. left. apply (startswith_app_l n (String c s) b Hp).
    + rewrite (IH Hs). apply orb_true_r.
Qed.

Lemma contains_concat {A} n (f : A -> string) (cs : list A) i c :
  cs !! i = Some c -> contains n (f c) = true ->
  contains n (String.concat "" (map f cs)) = true.
Proof.
  intros Hi Hc. revert i Hi. induction cs as [|x xs IH]; intros i Hi; [done|].
  assert (String.concat "" (map f (x :: xs)) =
          f x +:+ String.concat "" (map f xs)) as ->.
  { simpl. destruct (map f xs); [|done]. by rewrite string_app_nil_r. }
  destruct i as [|i]; simpl in Hi.
  - injection Hi as ->. by apply contains_app_l.
  - apply contains_app_r. by eapply IH.
Qed.



(** ** Texts the serializer accepts *)

Lemma printable_ok s : printable s = true -> minidom.xml_chars_ok s = true.
Proof.
  induction s as [|a r IH]; [done|]. cbn [printable minidom.xml_chars_ok].
  intros [[Hlo Hhi]%andb_true_iff Hr]%andb_true_iff.
  rewrite (IH Hr), andb_true_r. unfold minidom.byte.
  apply Nat.leb_le in Hlo. apply Nat.ltb_lt in Hhi.
  replace (nat_of_ascii a <? 32)%nat with false by (symmetry; apply Nat.ltb_ge; lia).
  replace (nat_of_ascii a =? 239)%nat with false by (symmetry; apply Nat.eqb_neq; lia).
  replace (nat_of_ascii a =? 237)%nat with false by (symmetry; apply Nat.eqb_neq; lia).
  destruct r as [|b [|c r]]; done.
Qed.

Lemma printable_app a b :
  printable a = true -> printable b = true -> printable (a +:+ b) = true.
Proof.
  intros Ha Hb. induction a as [|x a IH]; [done|].
  change (String x a +:+ b) with (String x (a +:+ b)).
  cbn [printable] in *. apply andb_true_iff in Ha as [-> Ha]. by rewrite IH.
Qed.

Lemma printable_substring i k s :
  printable s = true -> printable (substring i k s) = true.
Proof.
  revert i k. induction s as [|x s IH]; intros i k Hs.
  - by destruct i, k.
  - cbn [printable] in Hs. apply andb_true_iff in Hs as [Hx Hs].
    destruct i as [|i]; simpl.
    + destruct k as [|k]; [done|]. cbn [printable]. by rewrite Hx, IH.
    + by apply IH.
Qed.

Lemma printable_zeros k : printable (PyFloat.zeros k) = true.
Proof.
  induction k as [|k IH]; [done|]. cbn [PyFloat.zeros printable]. by rewrite IH.
Qed.

Lemma printable_pretty_N_go (x : N) (s : string) :
  printable s = true -> printable (pretty_N_go x s) = true.
Proof.
  revert s. induction (N.lt_wf_0 x) as [x _ IH]; intros s Hs.
  destruct (decide (x = 0%N)) as [->|Hx].
  - by rewrite pretty_N_go_0.
  - rewrite pretty_N_go_step by lia. apply IH.
    + apply N.div_lt; lia.
    + cbn [printable]. rewrite Hs, andb_true_r.
      unfold pretty_N_char. by repeat case_match.
Qed.

Lemma printable_pretty_N (x : N) : printable (pretty x) = true.
Proof.
  unfold pretty, pretty_N. case_decide; [done|].
  by apply printable_pretty_N_go.
Qed.

Lemma printable_str_int z : printable (Py.str_int z) = true.
Proof.
  unfold Py.str_int, pretty, pretty_Z. destruct z as [|p|p].
  - done.
  - apply printable_pretty_N.
  - apply printable_app; [done|]. apply printable_pretty_N.
Qed.

Lemma printable_str_nat n : printable (Py.str_nat n) = true.
Proof. apply printable_pretty_N. Qed.

Lemma printable_format_repr ds decpt :
  printable ds = true -> printable (PyFloat.format_repr ds decpt) = true.
Proof.
  intros Hds. unfold PyFloat.format_repr, PyFloat.format_exponent.
  repeat case_match;
    repeat first
      [ apply printable_app
      | apply printable_substring
      | apply printable_zeros
      | apply printable_str_int
      | assumption
      | reflexivity ].
Qed.

Lemma printable_repr x : printable (PyFloat.repr x) = true.
Proof.
  destruct x as [[]|[]| |s m e]; try done. unfold PyFloat.repr.
  unfold PyFloat.shortest_digits.
  destruct (PyFloat.shortest_from 17 m e 1) as [c k].
  destruct (PyFloat.strip_zeros 20 c k) as [c' k'].
  apply printable_app; [by destruct s|].
  apply printable_format_repr, printable_str_int.
Qed.

Lemma printable_py_str a : printable (py_str a) = true.
Proof. destruct a; [apply printable_str_int|apply printable_repr]. Qed.

Lemma parses_leaf t v : minidom.xml_chars_ok v = true -> minidom.parses (leaf t v) = true.
Proof.
  intros Hv. unfold leaf, leaf_text.
  destruct (_ && _); cbn [minidom.parses forallb]; by rewrite ?Hv.
Qed.

Lemma leaf_text_ok v :
  minidom.xml_chars_ok v = true ->
  match leaf_text v with
  | Some t => minidom.xml_chars_ok t
  | None => true
  end = true.
Proof. intros Hv. unfold leaf_text. by destruct (_ && _). Qed.

Lemma get_ok key default (d : record) :
  record_ok d -> minidom.xml_chars_ok default = true ->
  minidom.xml_chars_ok (Py.get key default d) = true.
Proof.
  intros Hd Hdef. unfold Py.get. destruct (d !! key) eqn:E; [|done].
  by eapply Hd.
Qed.

Lemma record_ok_empty : record_ok ∅.
Proof. intros k v. by rewrite lookup_empty. Qed.

Ltac solve_parses :=
  repeat first
    [ reflexivity
    | assumption
    | apply andb_true_intro; split
    | apply parses_leaf
    | apply leaf_text_ok
    | apply get_ok
    | apply printable_ok, printable_py_str
    | apply printable_ok, printable_str_nat ].

Lemma parses_item_tree item_data :
  record_ok item_data ->
  minidom.parses (item_tree CONSIGNMENT_VALUES item_data) = true.
Proof.
  intros Hok.
  unfold item_tree, item_valuation_subsections, supplementary_unit, node.
  cbn [minidom.parses forallb String.eqb Ascii.eqb Bool.eqb app].
  solve_parses.
Qed.

Lemma parses_asycuda_tree sad_data items_data :
  record_ok sad_data -> Forall record_ok items_data ->
  minidom.parses (asycuda_tree CONSIGNMENT_VALUES sad_data items_data) = true.
Proof.
  intros Hsad Hitems.
  assert (forallb minidom.parses (map (item_tree CONSIGNMENT_VALUES) items_data) = true)
    as Hall.
  { induction Hitems as [|x xs Hx _ IH]; [done|].
    cbn [map forallb]. by rewrite parses_item_tree, IH. }
  unfold asycuda_tree, sad_tree, valuation_subsections, node.
  cbn [minidom.parses forallb app].
  solve_parses.
Qed.

(** ** Lemmas for the claims *)

Lemma get_insert_ne key default other v (d : record) :
  other <> key -> Py.get key default (<[other := v]> d) = Py.get key default d.
Proof. intros Hne. unfold Py.get. by rewrite lookup_insert_ne. Qed.

Lemma nth_item_asycuda_tree CV sad_data items_data i :
  nth_item i (asycuda_tree CV sad_data items_data) =
  item_tree CV <$> items_data !! i.
Proof.
  unfold nth_item, asycuda_tree, child, children_named. simpl.
  rewrite <- list_lookup_fmap. f_equal.
  induction items_data as [|x xs IH]; [done|].
  simpl. rewrite filter_cons_True by done. by rewrite IH.
Qed.




Lemma count_char_app c a b :
  count_char c (a +:+ b) = count_char c a + count_char c b.
Proof.
  induction a as [|x a IH]; [done|].
  change (String x a +:+ b) with (String x (a +:+ b)).
  cbn [count_char]. rewrite IH. lia.
Qed.

(** The report of a serializer failure is never the text of the
    no-data report. *)
Lemma error_texts_differ filename e :
  filename +:+ " | Error: " +:+ e <> "No valid data found in " +:+ filename.
Proof.
  intros H. apply (f_equal (count_char "|")) in H.
  rewrite !count_char_app in H. simpl in H. lia.
Qed.

Lemma row_to_dict_ok cols row :
  (forall col v, row col = Some v -> minidom.xml_chars_ok v = true) ->
  record_ok (row_to_dict cols row).
Proof.
  intros Hrow. unfold row_to_dict.
  assert (record_ok ∅) as Hacc by apply record_ok_empty.
  revert Hacc. generalize (∅ : record).
  induction cols as [|col cols IH]; intros d Hd; [done|].
  cbn [fold_left]. apply IH.
  destruct (row col) as [v|] eqn:Hv; intros k w;
    (destruct (decide (col = k)) as [->|Hne];
      [rewrite lookup_insert_eq; intros [= <-]; eauto
      |rewrite lookup_insert_ne by done; apply Hd]).
Qed.

Lemma frame_frame_ok header cells :
  Forall (Forall (fun c => forall v, c = Some v -> minidom.xml_chars_ok v = true)) cells ->
  frame_ok (frame header cells).
Proof.
  intros Hcells row col v (cr & -> & Hin)%list_elem_of_fmap Hv.
  destruct (list_find _ header) as [[i x]|]; [|done].
  destruct (cr !! i) as [c|] eqn:Hc; [|done]. simpl in Hv. subst c.
  rewrite Forall_forall in Hcells. specialize (Hcells _ Hin).
  rewrite Forall_lookup in Hcells. by eapply Hcells.
Qed.

(** The declaration-level invoice amount is, for every input, the leaf
    holding [str] of the running total. *)
Lemma invoice_amount_leaf CV sad_data items_data filename :
  exists doc,
    create_asycuda_xml CV sad_data items_data filename = Some doc /\
    descend ["SAD"; "Valuation"; "Invoice"; "Amount_foreign_currency"] doc =
      Some (leaf "Amount_foreign_currency"
              (py_str (calculate_form_totals items_data))).
Proof. eexists. split; [apply create_asycuda_xml_tree|]. reflexivity. Qed.

Lemma head_char_app a b :
  head_char (a +:+ b) =
  match head_char a with
  | Some c => Some c
  | None => head_char b
  end.
Proof. by destruct a. Qed.

Lemma numeric_head_app a b : numeric_head a -> numeric_head (a +:+ b).
Proof.
  intros (c & Hc & H). exists c. split; [|done].
  by rewrite head_char_app, Hc.
Qed.

Lemma head_char_substring k s : head_char (substring 0 (S k) s) = head_char s.
Proof. by destruct s. Qed.

Lemma numeric_head_pretty_N (x : N) : numeric_head (pretty x).
Proof.
  unfold pretty, pretty_N. case_decide.
  - exists "0"%char. auto.
  - destruct (pretty_N_go_head x "") as (d & r & -> & Hd); [left; lia|].
    exists d. auto.
Qed.

Lemma numeric_head_str_int z : numeric_head (Py.str_int z).
Proof.
  unfold Py.str_int, pretty, pretty_Z. destruct z as [|p|p].
  - exists "0"%char. auto.
  - apply numeric_head_pretty_N.
  - exists "-"%char. auto.
Qed.

Lemma numeric_head_format_repr ds decpt :
  numeric_head ds -> numeric_head (PyFloat.format_repr ds decpt).
Proof.
  intros Hds. unfold PyFloat.format_repr.
  destruct (_ || _).
  - apply numeric_head_app. destruct Hds as (c & Hc & H). exists c.
    by rewrite head_char_substring.
  - destruct (decpt <=? 0)%Z eqn:Hd.
    + exists "0"%char. auto.
    + destruct (_ <=? decpt)%Z.
      * by apply numeric_head_app.
      * apply numeric_head_app. destruct Hds as (c & Hc & H). exists c.
        apply Z.leb_gt in Hd.
        destruct (Z.to_nat decpt) as [|k] eqn:Hk; [lia|].
        by rewrite head_char_substring.
Qed.

Lemma numeric_head_py_str a : is_nan a = false -> numeric_head (py_str a).
Proof.
  destruct a as [z|x]; intros Hnan; [apply numeric_head_str_int|].
  destruct x as [[]|[]| |s m e]; try done.
  - exists "-"%char. auto.
  - exists "0"%char. auto.
  - exists "-"%char. auto.
  - exists "i"%char. auto.
  - unfold py_str, PyFloat.repr, PyFloat.shortest_digits.
    destruct (PyFloat.shortest_from 17 m e 1) as [c k].
    destruct (PyFloat.strip_zeros 20 c k) as [c' k'].
    destruct s.
    + exists "-"%char. auto.
    + apply numeric_head_format_repr, numeric_head_str_int.
Qed.

Lemma leaf_text_numeric s : numeric_head s -> leaf_text s = Some s.
Proof.
  intros (c & Hc & H). apply leaf_text_value.
  intros [->|[->| ->]]; simpl in Hc; try done;
    injection Hc as <-; destruct H as [H|[H|H]]; done.
Qed.

(** Whenever the running total is not NaN the declaration-level invoice
    amount carries its text. *)
Lemma invoice_amount_when_not_nan CV sad_data items_data filename :
  is_nan (calculate_form_totals items_data) = false ->
  exists doc,
    create_asycuda_xml CV sad_data items_data filename = Some doc /\
    descend ["SAD"; "Valuation"; "Invoice"; "Amount_foreign_currency"] doc =
      Some (Element "Amount_foreign_currency"
              (Some (py_str (calculate_form_totals items_data))) []).
Proof.
  intros Hnan. eexists. split; [apply create_asycuda_xml_tree|].
  rewrite <- (leaf_text_numeric _ (numeric_head_py_str _ Hnan)). reflexivity.
Qed.

(** The total is built one row at a time. *)
Lemma calculate_form_totals_snoc items_data item :
  calculate_form_totals (items_data ++ [item]) =
  let total := calculate_form_totals items_data in
  let inv_foreign := Py.get "Invoice Amount_foreign_currency" "0" item in
  if Py.truthy inv_foreign then
    match PyFloat.of_string inv_foreign with
    | Some x => py_add total (PyFloat x)
    | None => total
    end
  else py_add total (PyInt 0).
Proof. unfold calculate_form_totals. by rewrite fold_left_app. Qed.

(** A row whose amount [float] rejects leaves the total as it was. *)
Lemma rejected_amount_is_skipped items_data item v :
  item !! "Invoice Amount_foreign_currency" = Some v ->
  Py.truthy v = true ->
  PyFloat.of_string v = None ->
  calculate_form_totals (items_data ++ [item]) = calculate_form_totals items_data.
Proof.
  intros Hv Ht Hf. rewrite calculate_form_totals_snoc. cbv zeta.
  unfold Py.get. by rewrite Hv, Ht, Hf.
Qed.

(** A blank amount adds the integer 0, a missing column the float 0.0. *)
Lemma blank_amount_adds_zero items_data item :
  item !! "Invoice Amount_foreign_currency" = Some "" ->
  calculate_form_totals (items_data ++ [item]) =
  py_add (calculate_form_totals items_data) (PyInt 0).
Proof.
  intros Hv. rewrite calculate_form_totals_snoc. cbv zeta.
  unfold Py.get. by rewrite Hv.
Qed.

Lemma missing_amount_adds_zero items_data item :
  item !! "Invoice Amount_foreign_currency" = None ->
  calculate_form_totals (items_data ++ [item]) =
  py_add (calculate_form_totals items_data) (PyFloat (S754_zero false)).
Proof.
  intros Hv. rewrite calculate_form_totals_snoc. cbv zeta.
  unfold Py.get. by rewrite Hv.
Qed.

(** The example of the specification: 10.5, a blank, a word and 4.5 add up
    to 15.0. *)
Lemma invoice_total_example :
  invoice_amount [amount "10.5"; amount ""; amount "abc"; amount "4.5"] =
  Some (Element "Amount_foreign_currency" (Some "15.0") []).
Proof. vm_compute. reflexivity. Qed.

(** Without any amount the total stays the integer 0. *)
Lemma invoice_total_no_items :
  invoice_amount [] = Some (Element "Amount_foreign_currency" (Some "0") []).
Proof. vm_compute. reflexivity. Qed.

(** The sum is a binary64 sum. *)
Lemma invoice_total_binary_rounding :
  invoice_amount [amount "0.1"; amount "0.2"] =
  Some (Element "Amount_foreign_currency" (Some "0.30000000000000004") []).
Proof. vm_compute. reflexivity. Qed.

(** ** The claims *)



(** A leaf with a real value carries it as its text. *)
Lemma value_leaf_keeps_its_text parent st e tag_name v :
  lookup_at parent st = Some e ->
  ~ placeholder v ->
  exists element st',
    add_element parent tag_name v st = Some (element, st') /\
    lookup_at element st' = Some (Element tag_name (Some v) []).
Proof.
  intros Hp Hv. eexists _, _. split; [by apply run_add_element|].
  rewrite lookup_at_app, (lookup_alter_at _ _ _ _ Hp). simpl.
  rewrite lookup_app_r by lia. rewrite Nat.sub_diag. simpl.
  unfold leaf. by rewrite leaf_text_value.
Qed.




(** C3 (the code at the failing inputs).  [float] accepts "inf", "-inf"
    and "nan", so the handler that skips unparsable values never runs for
    them.  Two amounts "inf" and "-inf" add up to NaN, whose text "nan" is
    one of the placeholders: the invoice amount leaf is left without text.
    The same happens to the amounts "5" and "nan". *)
Lemma non_finite_amounts_blank_the_invoice_total :
  PyFloat.of_string "abc" = None /\
  PyFloat.of_string "inf" = Some (S754_infinity false) /\
  PyFloat.of_string "-inf" = Some (S754_infinity true) /\
  PyFloat.of_string "nan" = Some S754_nan /\
  py_str (calculate_form_totals [amount "inf"; amount "-inf"]) = "nan" /\
  invoice_amount [amount "inf"; amount "-inf"] =
    Some (Element "Amount_foreign_currency" None []) /\
  invoice_amount [amount "5"; amount "nan"] =
    Some (Element "Amount_foreign_currency" None []).
Proof. vm_compute. repeat split; reflexivity. Qed.

(** C4 (counterexample).  In the document of the example item the first
    supplementary unit does have a rank element, without text, and the
    serialized text contains [<Supplementary_unit_rank/>]. *)
Lemma first_slot_has_an_empty_rank_tag :
  exists doc,
    example_document = Some doc /\
    first_slot_rank doc = Some (Element "Supplementary_unit_rank" None []) /\
    contains "<Supplementary_unit_rank/>" (minidom.toprettyxml "  " doc) = true.
Proof. eexists. split; [vm_compute; reflexivity|]. vm_compute. done. Qed.

(** C4 (amended).  For every item record the tariff holds three
    supplementary units.  The first has a rank element without text, a
    code element and a name element (each with the row's value when the
    column is present, otherwise "PCE" and "Aantal Stucks") and a quantity;
    the second and third have a rank element with text "2" and "3", a name
    and a quantity, and no code element. *)
Theorem supplementary_unit_slots CV sad_data items_data filename i item_data :
  items_data !! i = Some item_data ->
  exists doc item tariff,
    create_asycuda_xml CV sad_data items_data filename = Some doc /\
    nth_item i doc = Some item /\
    child "Tariff" item = Some tariff /\
    children_named "Supplementary_unit" tariff =
      [ node "Supplementary_unit"
          [ Element "Supplementary_unit_rank" None [];
            leaf "Supplementary_unit_code"
              (Py.get "Supplementary_unit_code" "PCE" item_data);
            leaf "Supplementary_unit_name"
              (Py.get "Supplementary_unit_name_1" "Aantal Stucks" item_data);
            leaf "Supplementary_unit_quantity"
              (Py.get "Supplementary_unit_quantity_1" "" item_data) ];
        node "Supplementary_unit"
          [ Element "Supplementary_unit_rank" (Some "2") [];
            leaf "Supplementary_unit_name"
              (Py.get "Supplementary_unit_name_2" "" item_data);
            leaf "Supplementary_unit_quantity"
              (Py.get "Supplementary_unit_quantity_2" "" item_data) ];
        node "Supplementary_unit"
          [ Element "Supplementary_unit_rank" (Some "3") [];
            leaf "Supplementary_unit_name"
              (Py.get "Supplementary_unit_name_3" "" item_data);
            leaf "Supplementary_unit_quantity"
              (Py.get "Supplementary_unit_quantity_3" "" item_data) ] ].
Proof.
  intros Hi. eexists _, _, _. split; [apply create_asycuda_xml_tree|].
  split; [by rewrite nth_item_asycuda_tree, Hi|]. split; reflexivity.
Qed.

(** C4 (witness): the units of the example item, whose code column is
    present and blank. *)
Lemma supplementary_unit_slots_witness :
  exists doc item tariff,
    create_asycuda_xml CONSIGNMENT_VALUES ∅ [example_item] "form.xlsx" = Some doc /\
    nth_item 0 doc = Some item /\
    child "Tariff" item = Some tariff /\
    children_named "Supplementary_unit" tariff =
      [ node "Supplementary_unit"
          [ Element "Supplementary_unit_rank" None [];
            Element "Supplementary_unit_code" None [];
            Element "Supplementary_unit_name" (Some "Aantal Stucks") [];
            Element "Supplementary_unit_quantity" None [] ];
        node "Supplementary_unit"
          [ Element "Supplementary_unit_rank" (Some "2") [];
            Element "Supplementary_unit_name" None [];
            Element "Supplementary_unit_quantity" None [] ];
        node "Supplementary_unit"
          [ Element "Supplementary_unit_rank" (Some "3") [];
            Element "Supplementary_unit_name" None [];
            Element "Supplementary_unit_quantity" None [] ] ].
Proof.
  exact (supplementary_unit_slots CONSIGNMENT_VALUES ∅ [example_item]
           "form.xlsx" 0 example_item eq_refl).
Defined.

(** C5 (counterexample).  The [Item_taxes_amount] of the example item is
    "4.3", the duty-tax amount, while the constant [total_item_taxes] is
    "347.75". *)
Lemma item_taxes_amount_is_not_total_item_taxes :
  exists doc,
    example_document = Some doc /\
    first_item_taxes_amount doc =
      Some (Element "Item_taxes_amount" (Some "4.3") []) /\
    total_item_taxes CONSIGNMENT_VALUES = "347.75".
Proof. eexists. split; [vm_compute; reflexivity|]. vm_compute. done. Qed.

(** C5 (amended).  For every item record the item has one taxation block:
    [Item_taxes_amount] carries the constant [duty_tax_amount] (the same
    constant as the line's [Duty_tax_amount]), [Item_taxes_mode_of_payment]
    is "1", and the one nested taxation line has the duty-tax code "IR",
    the constants for base, rate and amount, and the mode of payment
    "1". *)
Theorem item_taxation_block CV sad_data items_data filename i item_data :
  items_data !! i = Some item_data ->
  exists doc item,
    create_asycuda_xml CV sad_data items_data filename = Some doc /\
    nth_item i doc = Some item /\
    children_named "Taxation" item =
      [ node "Taxation"
          [ leaf "Item_taxes_amount" (duty_tax_amount CV);
            leaf "Item_taxes_mode_of_payment" "1";
            node "Taxation_line"
              [ leaf "Duty_tax_code" "IR";
                leaf "Duty_tax_base" (duty_tax_base CV);
                leaf "Duty_tax_rate" (duty_tax_rate CV);
                leaf "Duty_tax_amount" (duty_tax_amount CV);
                leaf "Duty_tax_MP" "1" ] ] ].
Proof.
  intros Hi. eexists _, _. split; [apply create_asycuda_xml_tree|].
  split; [by rewrite nth_item_asycuda_tree, Hi|]. reflexivity.
Qed.

(** C5 (witness): the taxation block of the example item under the
    constants of the program. *)
Lemma item_taxation_block_witness :
  exists doc item,
    create_asycuda_xml CONSIGNMENT_VALUES ∅ [example_item] "form.xlsx" = Some doc /\
    nth_item 0 doc = Some item /\
    children_named "Taxation" item =
      [ node "Taxation"
          [ Element "Item_taxes_amount" (Some "4.3") [];
            Element "Item_taxes_mode_of_payment" (Some "1") [];
            node "Taxation_line"
              [ Element "Duty_tax_code" (Some "IR") [];
                Element "Duty_tax_base" (Some "71") [];
                Element "Duty_tax_rate" (Some "6") [];
                Element "Duty_tax_amount" (Some "4.3") [];
                Element "Duty_tax_MP" (Some "1") [] ] ] ].
Proof.
  exact (item_taxation_block CONSIGNMENT_VALUES ∅ [example_item]
           "form.xlsx" 0 example_item eq_refl).
Defined.

(** C8.  For every header and every list of item records, the
    [Total_weight] leaf of the declaration-level [Total] block holds the
    decimal text of the number of item records; three item rows give
    "3". *)
Theorem total_weight_counts_items CV sad_data items_data filename :
  exists doc,
    create_asycuda_xml CV sad_data items_data filename = Some doc /\
    descend ["SAD"; "Valuation"; "Total"; "Total_weight"] doc =
      Some (Element "Total_weight" (Some (Py.str_nat (length items_data))) []) /\
    Py.str_nat 3 = "3".
Proof.
  eexists. split; [apply create_asycuda_xml_tree|]. split; [|reflexivity].
  rewrite <- leaf_text_str_nat. reflexivity.
Qed.

(** C9.  For every table of constants whose [total_invoice] is a value
    (not empty, "nan" or "None"), every header and every list of item
    records, the [Total_invoice] leaf of the document holds exactly that
    constant: neither the header nor the items are consulted. *)
Theorem total_invoice_is_the_constant CV sad_data items_data filename :
  ~ placeholder (total_invoice CV) ->
  exists doc,
    create_asycuda_xml CV sad_data items_data filename = Some doc /\
    descend ["SAD"; "Valuation"; "Total"; "Total_invoice"] doc =
      Some (Element "Total_invoice" (Some (total_invoice CV)) []).
Proof.
  intros Hv. eexists. split; [apply create_asycuda_xml_tree|].
  rewrite <- (leaf_text_value _ Hv). reflexivity.
Qed.

(** C9 (witness): with a table whose [total_invoice] is "999.99" the leaf
    reads 999.99. *)
Lemma total_invoice_witness :
  exists doc,
    create_asycuda_xml other_consignment ∅ [example_item] "form.xlsx" = Some doc /\
    descend ["SAD"; "Valuation"; "Total"; "Total_invoice"] doc =
      Some (Element "Total_invoice" (Some "999.99") []).
Proof.
  apply (total_invoice_is_the_constant other_consignment ∅ [example_item] "form.xlsx").
  intros [H|[H|H]]; discriminate H.
Defined.

(** C10.  For every header record the [Financial_transaction] block holds
    [Code_1] and [Code_2] leaves that both carry the header's
    "Financial_transaction Code_1" value (default "1"), and giving the
    header a "Financial_transaction Code_2" column, whatever its value,
    leaves the whole document unchanged. *)
Theorem financial_codes_agree CV sad_data items_data filename :
  exists doc,
    create_asycuda_xml CV sad_data items_data filename = Some doc /\
    descend ["SAD"; "Financial"; "Financial_transaction"] doc =
      Some (node "Financial_transaction"
              [ leaf "Code_1" (Py.get "Financial_transaction Code_1" "1" sad_data);
                leaf "Code_2" (Py.get "Financial_transaction Code_1" "1" sad_data) ]) /\
    forall v,
      create_asycuda_xml CV (<["Financial_transaction Code_2" := v]> sad_data)
        items_data filename = Some doc.
Proof.
  eexists. split; [apply create_asycuda_xml_tree|]. split; [reflexivity|].
  intros v. rewrite create_asycuda_xml_tree. f_equal.
  unfold asycuda_tree, sad_tree.
  rewrite !get_insert_ne by done.
  reflexivity.
Qed.

(** * Further properties of the converter *)

(** ** What one call of [add_element] does to the document *)

(** X1.  [add_element] appends exactly one element to its parent and
    returns it: the parent keeps its tag, its text and its earlier
    children; the new last child has the given tag and no children; it is
    left without text when the value is empty, "nan" or "None", and
    carries the value unchanged as its text otherwise. *)
Theorem add_element_appends_one_leaf parent st e tag_name v :
  lookup_at parent st = Some e ->
  exists element st' new,
    add_element parent tag_name v st = Some (element, st') /\
    lookup_at parent st' =
      Some (Element (tag e) (text e) (children e ++ [new])) /\
    lookup_at element st' = Some new /\
    tag new = tag_name /\
    children new = [] /\
    (placeholder v -> text new = None) /\
    (~ placeholder v -> text new = Some v).
Proof.
  intros Hp.
  exists (parent ++ [length (children e)]),
    (alter_at (add_child (leaf tag_name v)) parent st), (leaf tag_name v).
  split; [by apply run_add_element|].
  split; [by rewrite (lookup_alter_at _ _ _ _ Hp)|].
  split.
  { rewrite lookup_at_app, (lookup_alter_at _ _ _ _ Hp). simpl.
    rewrite lookup_app_r by lia. by rewrite Nat.sub_diag. }
  repeat split; try done.
  - intros Hv. simpl. by apply leaf_text_placeholder.
  - intros Hv. simpl. by apply leaf_text_value.
Qed.

(** X1 (witness): a second leaf below [Exporter]. *)
Lemma add_element_witness :
  exists element st',
    add_element [] "Exporter_name" "ACME"
      (Element "Exporter" None [Element "Exporter_code" None []]) =
      Some (element, st') /\
    st' = Element "Exporter" None
            [Element "Exporter_code" None [];
             Element "Exporter_name" (Some "ACME") []].
Proof.
  destruct (add_element_appends_one_leaf []
              (Element "Exporter" None [Element "Exporter_code" None []])
              (Element "Exporter" None [Element "Exporter_code" None []])
              "Exporter_name" "ACME" eq_refl)
    as (element & st' & new & Hrun & Hparent & _).
  exists element, st'. split; [exact Hrun|].
  revert Hrun. vm_compute. intros [= _ <-]. reflexivity.
Defined.

(** ** Reading the sheets *)

Lemma row_to_dict_from cols row (d : record) col :
  fold_left
    (fun d col =>
       match row col with
       | Some v => <[col := v]> d
       | None => <[col := ""]> d
       end)
    cols d !! col =
  if decide (col ∈ cols) then Some (cell_text (row col)) else d !! col.
Proof.
  revert d. induction cols as [|c cols IH]; intros d.
  - cbn [fold_left]. by rewrite decide_False by apply not_elem_of_nil.
  - cbn [fold_left]. rewrite IH.
    destruct (decide (col ∈ cols)) as [Hin|Hout].
    + rewrite decide_True by (by right). done.
    + destruct (decide (c = col)) as [->|Hne].
      * rewrite decide_True by left.
        destruct (row col); by rewrite lookup_insert_eq.
      * rewrite decide_False by (by intros [->|]%elem_of_cons).
        destruct (row c); by rewrite lookup_insert_ne.
Qed.

(** X2.  The dictionary of a row has exactly the columns of the frame
    as keys, whatever their number and order; under each is the text of
    the cell, and the empty string where the cell is missing ([pd.notna]
    false). *)
Theorem row_to_dict_lookup cols row col :
  row_to_dict cols row !! col =
  if decide (col ∈ cols) then Some (cell_text (row col)) else None.
Proof. unfold row_to_dict. by rewrite row_to_dict_from, lookup_empty. Qed.

Lemma row_to_dict_nonempty col cols row : row_to_dict (col :: cols) row <> ∅.
Proof.
  intros H. apply (f_equal (fun d : record => d !! col)) in H.
  unfold row_to_dict in H. rewrite row_to_dict_from, lookup_empty in H.
  by rewrite decide_True in H by left.
Qed.

Section Sheets.

Variable CV : consignment_values.
Variable file_content : Type.
Variable pd_read_excel : file_content -> string -> outcome pd.DataFrame.
Variable serializer_error : element -> string.

Lemma header_is_empty content :
  fst (read_excel_data pd_read_excel content) = ∅ <->
  lacks_data (pd_read_excel content "SAD").
Proof.
  unfold read_excel_data, lacks_data, pd.empty. cbn [fst].
  destruct (pd_read_excel content "SAD") as [df|e]; [|done].
  destruct (pd.columns df) as [|col cols], (pd.rows df) as [|row rows];
    cbn [negb]; try done.
  split; [|done]. intros H. by apply row_to_dict_nonempty in H.
Qed.

Lemma items_are_empty content :
  snd (read_excel_data pd_read_excel content) = [] <->
  lacks_data (pd_read_excel content "Items").
Proof.
  unfold read_excel_data, lacks_data, pd.empty. cbn [snd].
  destruct (pd_read_excel content "Items") as [df|e]; [|done].
  destruct (pd.columns df) as [|col cols], (pd.rows df) as [|row rows];
    cbn [negb]; done.
Qed.

(** X3.  A workbook is reported as "No valid data found in <file>"
    exactly when neither sheet gives data: each of "SAD" and "Items"
    either cannot be read or is an empty frame.  A sheet with one column
    and one row is data, even when all its cells are blank. *)
Theorem no_data_report_iff_both_sheets_lack_data content filename :
  convert_excel_to_xml CV pd_read_excel serializer_error content filename =
    (false, "No valid data found in " +:+ filename) <->
  lacks_data (pd_read_excel content "SAD") /\
  lacks_data (pd_read_excel content "Items").
Proof.
  rewrite <- header_is_empty, <- items_are_empty.
  unfold convert_excel_to_xml.
  destruct (read_excel_data pd_read_excel content) as [sad_data items_data].
  cbn [fst snd].
  destruct (bool_decide (sad_data = ∅)) eqn:Hs;
    [destruct (bool_decide (items_data = [])) eqn:Hi|]; cbn [andb].
  - apply bool_decide_eq_true in Hs, Hi. done.
  - apply bool_decide_eq_false in Hi.
    rewrite create_asycuda_xml_tree. unfold prettify_xml.
    destruct (minidom.parses _); (split; [intros [= H]|intros [_ H]]); try done.
    by apply error_texts_differ in H.
  - apply bool_decide_eq_false in Hs.
    rewrite create_asycuda_xml_tree. unfold prettify_xml.
    destruct (minidom.parses _); (split; [intros [= H]|intros [H _]]); try done.
    by apply error_texts_differ in H.
Qed.

End Sheets.

(** ** The result of a conversion *)

Lemma contains_self n : contains n n = true.
Proof. rewrite <- (string_app_nil_r n) at 2. apply contains_here. Qed.

Section Results.

Variable CV : consignment_values.
Variable file_content : Type.
Variable pd_read_excel : file_content -> string -> outcome pd.DataFrame.
Variable serializer_error : element -> string.

(** X4.  A column of a sheet is a key of the dictionary even where its
    cell is blank, so the built-in default of a field is used only when
    the sheet has no such column: under a column of the "SAD" sheet every
    lookup gives the text of the cell of the first row, the empty string
    for a blank cell, and under a column of the "Items" sheet the lookup
    in the record of a row gives the text of the cell of that row. *)
Theorem default_applies_only_to_a_missing_column content df col default :
  col ∈ pd.columns df ->
  pd.empty df = false ->
  (pd_read_excel content "SAD" = Returned df ->
   exists row,
     head (pd.rows df) = Some row /\
     Py.get col default (fst (read_excel_data pd_read_excel content)) =
       cell_text (row col)) /\
  (pd_read_excel content "Items" = Returned df ->
   length (snd (read_excel_data pd_read_excel content)) = length (pd.rows df) /\
   forall i row, pd.rows df !! i = Some row ->
     exists item,
       snd (read_excel_data pd_read_excel content) !! i = Some item /\
       Py.get col default item = cell_text (row col)).
Proof.
  intros Hcol Hne. unfold read_excel_data. cbn [fst snd]. split; intros ->.
  - rewrite Hne. cbn [negb]. unfold pd.empty in Hne.
    destruct (pd.columns df) as [|c cs] eqn:Hcols; [done|].
    destruct (pd.rows df) as [|row rows]; [done|].
    exists row. split; [done|]. unfold Py.get, row_to_dict.
    by rewrite row_to_dict_from, decide_True.
  - rewrite Hne. cbn [negb]. split; [by rewrite length_map|].
    intros i row Hi. exists (row_to_dict (pd.columns df) row).
    split; [by rewrite list_lookup_fmap, Hi|].
    unfold Py.get, row_to_dict. by rewrite row_to_dict_from, decide_True.
Qed.

(** X5.  Whatever the workbook holds, [convert_excel_to_xml] returns
    either success with a text that starts with the XML declaration and the
    opening [ASYCUDA] tag, or failure with a message that names the
    file. *)
Theorem conversion_gives_a_document_or_names_the_file content filename :
  let result :=
    convert_excel_to_xml CV pd_read_excel serializer_error content filename in
  if fst result
  then Py.startswith (snd result)
         (xml_declaration +:+ "<ASYCUDA>" +:+ Py.newline) = true
  else contains filename (snd result) = true.
Proof.
  cbv zeta. unfold convert_excel_to_xml.
  destruct (read_excel_data pd_read_excel content) as [sad_data items_data].
  destruct (_ && _).
  - cbn [fst snd]. apply contains_app_r, contains_self.
  - rewrite create_asycuda_xml_tree. unfold prettify_xml.
    destruct (minidom.parses _); cbn [fst snd]; [|apply contains_here].
    unfold minidom.toprettyxml, asycuda_tree, node. cbn [minidom.writexml].
    cbv beta iota.
    set (rest := String.concat _ _). clearbody rest.
    vm_compute. reflexivity.
Qed.

Lemma convert_file_app zf file :
  convert_file CV pd_read_excel serializer_error zf file =
  zf ++ convert_file CV pd_read_excel serializer_error [] file.
Proof.
  unfold convert_file, writestr.
  destruct (Py.endswith_any _ _); [|by rewrite app_nil_r].
  destruct (FileStorage.read file) as [c|e]; [|done].
  by destruct (convert_excel_to_xml _ _ _ _ _) as [[] r].
Qed.

Lemma convert_loop_app files zf :
  fold_left (convert_file CV pd_read_excel serializer_error) files zf =
  zf ++ concat (map (convert_file CV pd_read_excel serializer_error []) files).
Proof.
  revert zf. induction files as [|f files IH]; intros zf.
  - by rewrite app_nil_r.
  - cbn [fold_left map concat]. rewrite IH, convert_file_app.
    by rewrite <- app_assoc.
Qed.

(** X6.  The archive of a batch is made upload by upload: it is the
    concatenation, in upload order, of what each upload gives when it is
    converted alone, so a file that fails or is skipped changes nothing
    for the others. *)
Theorem archive_is_made_upload_by_upload first rest :
  FileStorage.filename first <> "" ->
  convert_files CV pd_read_excel serializer_error (Some (first :: rest)) =
  SendFile
    (concat (map (convert_file CV pd_read_excel serializer_error [])
               (first :: rest))).
Proof.
  intros Hname. unfold convert_files.
  destruct (String.eqb_spec (FileStorage.filename first) "") as [Heq|_]; [done|].
  by rewrite convert_loop_app.
Qed.

End Results.

(** X6 (witness): the example batch. *)
Lemma archive_upload_by_upload_witness :
  convert_files CONSIGNMENT_VALUES read_sheet no_message (Some example_batch) =
  SendFile
    (convert_file CONSIGNMENT_VALUES read_sheet no_message []
       (upload "form.one.XLSX" example_workbook) ++
     convert_file CONSIGNMENT_VALUES read_sheet no_message []
       (upload "empty.xls" empty_workbook) ++
     convert_file CONSIGNMENT_VALUES read_sheet no_message []
       (unreadable "broken.xlsm")).
Proof.
  unfold example_batch.
  rewrite (archive_is_made_upload_by_upload CONSIGNMENT_VALUES workbook read_sheet
             no_message (upload "form.one.XLSX" example_workbook)
             [upload "notes.txt" example_workbook;
              upload "empty.xls" empty_workbook;
              unreadable "broken.xlsm"]).
  - cbn [map concat]. rewrite app_nil_r. reflexivity.
  - discriminate.
Defined.

(** X4 (witness): the blank [Exporter_code] cell of the example header
    sheet is read as the empty string whatever the default. *)
Lemma blank_cell_witness :
  Py.get "Exporter_code" "EXP-1"
    (fst (read_excel_data read_sheet example_workbook)) = "".
Proof.
  destruct (default_applies_only_to_a_missing_column workbook read_sheet
              example_workbook
              (frame ["Exporter_code"; "Exporter_name"] [[None; Some "ACME"]])
              "Exporter_code" "EXP-1") as [Hsad _].
  - apply (bool_decide_unpack _). vm_compute. exact I.
  - reflexivity.
  - destruct (Hsad eq_refl) as (row & Hrow & ->).
    injection Hrow as <-. reflexivity.
Defined.

(** ** The names of the archive entries *)

Lemma length_string_app a b :
  String.length (a +:+ b) = String.length a + String.length b.
Proof.
  induction a as [|x a IH]; [done|].
  change (String x a +:+ b) with (String x (a +:+ b)). simpl. by rewrite IH.
Qed.

Lemma substring_app_r a b :
  substring (String.length a) (String.length b) (a +:+ b) = b.
Proof.
  induction a as [|x a IH].
  - change ("" +:+ b) with b. simpl.
    induction b as [|y b IHb]; [done|]. simpl. by rewrite IHb.
  - change (String x a +:+ b) with (String x (a +:+ b)). simpl. exact IH.
Qed.

Lemma substring_app_l a b : substring 0 (String.length a) (a +:+ b) = a.
Proof.
  induction a as [|x a IH].
  - by destruct b.
  - change (String x a +:+ b) with (String x (a +:+ b)). simpl. by rewrite IH.
Qed.

Lemma endswith_app a b : Py.endswith (a +:+ b) b = true.
Proof.
  unfold Py.endswith. rewrite length_string_app.
  replace (String.length a + String.length b - String.length b)
    with (String.length a) by lia.
  rewrite substring_app_r, String.eqb_refl, andb_true_r.
  apply Nat.leb_le. lia.
Qed.

Lemma lower_app a b : Py.lower (a +:+ b) = Py.lower a +:+ Py.lower b.
Proof.
  induction a as [|x a IH]; [done|].
  change (String x a +:+ b) with (String x (a +:+ b)).
  cbn [Py.lower]. by rewrite IH.
Qed.

Lemma lower_ascii_dot a :
  Ascii.eqb (Py.lower_ascii a) "." = Ascii.eqb a ".".
Proof. by destruct a as [[] [] [] [] [] [] [] []]. Qed.

Lemma dotless_lower s : dotless (Py.lower s) = dotless s.
Proof.
  induction s as [|a s IH]; [done|].
  cbn [Py.lower dotless]. by rewrite lower_ascii_dot, IH.
Qed.

Lemma rindex_dotless s : dotless s = true -> Py.rindex "." s = None.
Proof.
  induction s as [|a s IH]; [done|]. cbn [dotless Py.rindex].
  intros [Ha Hs]%andb_true_iff. rewrite (IH Hs).
  by destruct (Ascii.eqb a ".").
Qed.

Lemma rindex_last_dot stem ext :
  dotless ext = true ->
  Py.rindex "." (stem +:+ "." +:+ ext) = Some (String.length stem).
Proof.
  intros Hext. induction stem as [|a stem IH].
  - change ("" +:+ "." +:+ ext) with (String "." ext).
    cbn [Py.rindex]. by rewrite rindex_dotless.
  - change (String a stem +:+ "." +:+ ext) with (String a (stem +:+ "." +:+ ext)).
    cbn [Py.rindex]. by rewrite IH.
Qed.

Lemma excel_extension ext :
  Py.lower ext ∈ ["xlsx"; "xls"; "xlsm"] ->
  dotless ext = true /\
  forall stem,
    Py.endswith_any (Py.lower (stem +:+ "." +:+ ext)) [".xlsx"; ".xls"; ".xlsm"] = true.
Proof.
  intros Hext. split.
  - rewrite <- dotless_lower.
    rewrite !elem_of_cons, elem_of_nil in Hext.
    by destruct Hext as [->|[->|[->|[]]]].
  - intros stem. rewrite lower_app, lower_app.
    change (Py.lower ".") with ".".
    unfold Py.endswith_any. cbn [existsb].
    rewrite !elem_of_cons, elem_of_nil in Hext.
    destruct Hext as [->|[->|[->|[]]]].
    + change ("." +:+ "xlsx") with ".xlsx". by rewrite endswith_app.
    + change ("." +:+ "xls") with ".xls". by rewrite endswith_app, orb_true_r.
    + change ("." +:+ "xlsm") with ".xlsm". by rewrite endswith_app, !orb_true_r.
Qed.

Section Names.

Variable CV : consignment_values.
Variable file_content : Type.
Variable pd_read_excel : file_content -> string -> outcome pd.DataFrame.
Variable serializer_error : element -> string.

(** X7.  A converted upload is entered under its own name with the
    extension replaced: for a file called [stem.ext], where [ext] is
    xlsx, xls or xlsm in any letter case and [stem] may itself hold dots,
    the entry is called [stem.xml] and holds the document. *)
Theorem converted_upload_is_named_after_its_stem stem ext content zf :
  Py.lower ext ∈ ["xlsx"; "xls"; "xlsm"] ->
  let filename := stem +:+ "." +:+ ext in
  let result :=
    convert_excel_to_xml CV pd_read_excel serializer_error content filename in
  fst result = true ->
  convert_file CV pd_read_excel serializer_error zf
    {| FileStorage.filename := filename; FileStorage.read := Returned content |} =
  zf ++ [(stem +:+ ".xml", snd result)].
Proof.
  intros Hext filename result Hok.
  destruct (excel_extension ext Hext) as [Hdot Hends].
  unfold convert_file, writestr. cbn [FileStorage.filename FileStorage.read].
  subst filename. rewrite Hends.
  subst result. destruct (convert_excel_to_xml _ _ _ _ _) as [success text].
  cbn [fst snd] in *. subst success.
  unfold Py.rsplit1_head. rewrite (rindex_last_dot stem ext Hdot).
  by rewrite substring_app_l.
Qed.

End Names.

(** X7 (witness): the first upload of the example batch. *)
Lemma converted_upload_name_witness :
  exists document,
    convert_file CONSIGNMENT_VALUES read_sheet no_message []
      (upload "form.one.XLSX" example_workbook) = [("form.one.xml", document)].
Proof.
  eexists.
  apply (converted_upload_is_named_after_its_stem CONSIGNMENT_VALUES workbook
           read_sheet no_message "form.one" "XLSX" example_workbook []).
  - apply (bool_decide_unpack _). vm_compute. exact I.
  - vm_compute. reflexivity.
Defined.

(** ** The quotient of a part by the whole is a float *)

Section Rounding.

Local Open Scope Z_scope.

Lemma digits2_pos_size p : digits2_pos p = Pos.size p.
Proof. induction p; simpl; congruence. Qed.

Lemma Zdigits2_le m k : 0 <= m < 2 ^ k -> 0 <= k -> Zdigits2 m <= k.
Proof.
  intros [Hm Hlt] Hk. destruct m as [|p|p]; simpl; [lia| |lia].
  rewrite digits2_pos_size.
  pose proof (Pos.size_le p) as Hs.
  assert (2 ^ Zpos (Pos.size p) <= 2 * Zpos p) as Hs'.
  { rewrite <- Pos2Z.inj_pow. change (2 * Zpos p) with (Zpos (p~0)). lia. }
  destruct (Z_lt_le_dec k (Zpos (Pos.size p))) as [Hlt'|]; [|done].
  exfalso.
  assert (2 ^ (k + 1) <= 2 ^ Zpos (Pos.size p)) by (apply Z.pow_le_mono_r; lia).
  rewrite Z.pow_add_r in * by lia. lia.
Qed.

Lemma shr_m_shr_1 r : 0 <= shr_m r -> shr_m (shr_1 r) = shr_m r / 2.
Proof.
  destruct r as [m b s]. cbn [shr_m shr_1]. intros Hm.
  destruct m as [|[p|p|]|p]; cbn [shr_m]; try lia; try done.
  - apply Z.div_unique with 1; lia.
  - apply Z.div_unique with 0; lia.
Qed.

Lemma shr_m_iter p : forall r, 0 <= shr_m r ->
  shr_m (SpecFloat.iter_pos shr_1 p r) = shr_m r / 2 ^ Zpos p.
Proof.
  induction p as [p IH|p IH|]; intros r Hr; cbn [SpecFloat.iter_pos].
  - assert (0 <= shr_m (shr_1 r)) as H1 by (rewrite shr_m_shr_1 by done; apply Z.div_pos; lia).
    assert (0 <= shr_m (SpecFloat.iter_pos shr_1 p (shr_1 r))) as H2
      by (rewrite IH by done; apply Z.div_pos; lia).
    rewrite IH, IH, shr_m_shr_1 by done.
    rewrite !Z.div_div by lia. f_equal.
    replace (Zpos p~1) with (1 + Zpos p + Zpos p) by lia.
    rewrite !Z.pow_add_r by lia. change (2 ^ 1) with 2. ring.
  - assert (0 <= shr_m (SpecFloat.iter_pos shr_1 p r)) as H2
      by (rewrite IH by done; apply Z.div_pos; lia).
    rewrite IH, IH by done.
    rewrite !Z.div_div by lia. f_equal.
    replace (Zpos p~0) with (Zpos p + Zpos p) by lia.
    rewrite !Z.pow_add_r by lia. ring.
  - rewrite shr_m_shr_1 by done. done.
Qed.

Lemma shr_m_of_loc m l : shr_m (shr_record_of_loc m l) = m.
Proof. by destruct l as [|[]]. Qed.

Lemma shr_fexp_nonneg m e l :
  0 <= m -> 0 <= shr_m (fst (shr_fexp PyFloat.prec PyFloat.emax m e l)).
Proof.
  intros Hm. unfold shr_fexp, shr.
  destruct (fexp _ _ _ - e) as [|p|p]; cbn [fst]; rewrite ?shr_m_iter; rewrite ?shr_m_of_loc;
    try done.
  apply Z.div_pos; lia.
Qed.

Lemma shr_fexp_exponent m e l k :
  0 <= m < 2 ^ (k - e) -> e <= 0 -> 0 <= k <= 53 ->
  snd (shr_fexp PyFloat.prec PyFloat.emax m e l) <= 0.
Proof.
  intros Hm He Hk. unfold shr_fexp, shr.
  pose proof (Zdigits2_le m (k - e) Hm ltac:(lia)) as Hd.
  destruct (fexp _ _ _ - e) as [|p|p] eqn:Hn; cbn [snd]; try done.
  unfold fexp, emin, PyFloat.prec, PyFloat.emax in Hn. lia.
Qed.

Lemma shr_fexp_mantissa m e l :
  0 <= m <= 2 ^ (- e) -> e <= 0 ->
  shr_m (fst (shr_fexp PyFloat.prec PyFloat.emax m e l)) <=
  2 ^ (- snd (shr_fexp PyFloat.prec PyFloat.emax m e l)).
Proof.
  intros Hm He.
  pose proof (shr_fexp_exponent m e l 1) as He1.
  assert (2 ^ (1 - e) = 2 * 2 ^ (- e)) as Hp.
  { replace (1 - e) with (1 + - e) by lia. by rewrite Z.pow_add_r by lia. }
  specialize (He1 ltac:(lia) He ltac:(lia)).
  revert He1. unfold shr_fexp, shr.
  destruct (fexp _ _ _ - e) as [|p|p] eqn:Hn; cbn [fst snd]; rewrite ?shr_m_of_loc;
    try lia.
  intros He1. rewrite shr_m_iter, shr_m_of_loc by (rewrite shr_m_of_loc; lia).
  apply Z.div_le_upper_bound; [lia|].
  rewrite <- Z.pow_add_r by lia.
  replace (Zpos p + - (e + Zpos p)) with (- e) by lia. lia.
Qed.

Lemma round_nearest_even_bound m l :
  0 <= m -> 0 <= round_nearest_even m l <= m + 1.
Proof. intros Hm. destruct l as [|[]]; simpl; try lia. destruct (Z.even m); lia. Qed.

(** A value of at most one is rounded to a zero or a finite float. *)
Lemma binary_round_aux_small sx m e l :
  0 <= m <= 2 ^ (- e) -> e <= 0 ->
  match binary_round_aux PyFloat.prec PyFloat.emax sx m e l with
  | S754_zero _ | S754_finite _ _ _ => True
  | _ => False
  end.
Proof.
  intros Hm He. unfold binary_round_aux.
  pose proof (shr_fexp_nonneg m e l ltac:(lia)) as H0.
  pose proof (shr_fexp_mantissa m e l Hm He) as H1.
  pose proof (shr_fexp_exponent m e l 1) as H2.
  assert (2 ^ (1 - e) = 2 * 2 ^ (- e)) as Hp.
  { replace (1 - e) with (1 + - e) by lia. by rewrite Z.pow_add_r by lia. }
  specialize (H2 ltac:(lia) He ltac:(lia)).
  destruct (shr_fexp _ _ m e l) as [r1 e1]. cbn [fst snd] in *.
  pose proof (round_nearest_even_bound (shr_m r1) (loc_of_shr_record r1) H0) as Hr.
  set (m2 := round_nearest_even _ _) in *.
  pose proof (shr_fexp_nonneg m2 e1 loc_Exact ltac:(lia)) as H3.
  pose proof (shr_fexp_exponent m2 e1 loc_Exact 2) as H4.
  assert (2 ^ (2 - e1) = 4 * 2 ^ (- e1)) as Hp2.
  { replace (2 - e1) with (2 + - e1) by lia. by rewrite Z.pow_add_r by lia. }
  assert (0 < 2 ^ (- e1)) by (apply Z.pow_pos_nonneg; lia).
  specialize (H4 ltac:(lia) H2 ltac:(lia)).
  destruct (shr_fexp _ _ m2 e1 loc_Exact) as [r2 e2]. cbn [fst snd] in *.
  destruct (shr_m r2) as [|p|p]; [done| |lia].
  replace (e2 <=? _) with true; [done|].
  symmetry. apply Z.leb_le. unfold PyFloat.emax, PyFloat.prec. lia.
Qed.

Lemma SFdiv_core_small a b :
  (a <= b)%positive ->
  let '(q, e, l) := SFdiv_core_binary PyFloat.prec PyFloat.emax (Zpos a) 0 (Zpos b) 0 in
  0 <= q <= 2 ^ (- e) /\ e <= 0.
Proof.
  intros Hab. unfold SFdiv_core_binary.
  set (e := Z.min _ (0 - 0)).
  assert (e <= 0) as He by (subst e; lia).
  set (m' := match 0 - 0 - e with Zpos _ => _ | Z0 => _ | Zneg _ => _ end).
  assert (m' = Zpos a * 2 ^ (- e)) as Hm'.
  { subst m'. destruct (0 - 0 - e) as [|p|p] eqn:Hs; try lia.
    - replace (- e) with 0 by lia. lia.
    - rewrite Z.shiftl_mul_pow2 by lia. f_equal. f_equal. lia. }
  assert (0 < 2 ^ (- e)) by (apply Z.pow_pos_nonneg; lia).
  pose proof (Z_div_mod m' (Zpos b) ltac:(lia)) as Hdiv.
  destruct (Z.div_eucl m' (Zpos b)) as [q r]. destruct Hdiv as [Hq Hr].
  split; [|done]. nia.
Qed.

Lemma true_divide_returns (i n : nat) :
  (i <= n)%nat -> (0 < n)%nat ->
  exists q, true_divide (Z.of_nat i) (Z.of_nat n) = Returned q.
Proof.
  intros Hin Hn. unfold true_divide.
  replace (Z.of_nat n =? 0) with false by (symmetry; apply Z.eqb_neq; lia).
  destruct (Z.of_nat n) as [|b|b] eqn:Eb; try lia.
  destruct (Z.of_nat i) as [|a|a] eqn:Ea; try lia.
  - eexists. reflexivity.
  - cbn [exact SFdiv].
    pose proof (SFdiv_core_small a b ltac:(lia)) as Hcore.
    destruct (SFdiv_core_binary _ _ _ _ _ _) as [[q e] l].
    destruct Hcore as [Hq He].
    pose proof (binary_round_aux_small (xorb false false) q e l Hq He) as Hr.
    destruct (binary_round_aux _ _ _ _ _ _); try done; by eexists.
Qed.

Lemma percentage_returns (i n : nat) :
  (i <= n)%nat -> (0 < n)%nat -> exists x, percentage i n = Returned x.
Proof.
  intros Hin Hn. unfold percentage.
  destruct (true_divide_returns i n Hin Hn) as [q ->]. by eexists.
Qed.

End Rounding.

(** ** The invoice total *)

Lemma binary_round_aux_not_nan sx m e l :
  (0 <= m)%Z -> binary_round_aux PyFloat.prec PyFloat.emax sx m e l <> S754_nan.
Proof.
  intros Hm. unfold binary_round_aux.
  pose proof (shr_fexp_nonneg m e l Hm) as H0.
  destruct (shr_fexp _ _ m e l) as [r1 e1]. cbn [fst] in H0.
  pose proof (round_nearest_even_bound (shr_m r1) (loc_of_shr_record r1) H0) as Hr.
  pose proof (shr_fexp_nonneg (round_nearest_even (shr_m r1) (loc_of_shr_record r1))
                e1 loc_Exact ltac:(lia)) as H1.
  destruct (shr_fexp _ _ _ e1 loc_Exact) as [r2 e2]. cbn [fst] in H1.
  destruct (shr_m r2) as [|p|p]; [done| |lia].
  by destruct (_ <=? _)%Z.
Qed.

Lemma binary_normalize_not_nan m e s :
  binary_normalize PyFloat.prec PyFloat.emax m e s <> S754_nan.
Proof.
  unfold binary_normalize, binary_round.
  destruct m as [|p|p]; [done| |];
    destruct (shl_align _ _ _) as [mz ez]; by apply binary_round_aux_not_nan.
Qed.

(** Adding a finite number never gives NaN. *)
Lemma add_finite_not_nan (x y : PyFloat.float) :
  x <> S754_nan ->
  match y with S754_zero _ | S754_finite _ _ _ => True | _ => False end ->
  PyFloat.add x y <> S754_nan.
Proof.
  intros Hx Hy. unfold PyFloat.add, SFadd.
  destruct x as [sx|sx| |sx mx ex], y as [sy|sy| |sy my ey]; try done.
  - by destruct sx, sy.
  - apply binary_normalize_not_nan.
Qed.

Lemma py_add_finite_not_nan (a : pynum) (y : PyFloat.float) :
  is_nan a = false ->
  match y with S754_zero _ | S754_finite _ _ _ => True | _ => False end ->
  is_nan (py_add a (PyFloat y)) = false.
Proof.
  intros Ha Hy.
  assert (forall x, x <> S754_nan -> is_nan (PyFloat x) = false) as Hnan.
  { by intros [| | |]. }
  destruct a as [z|x]; cbn [py_add]; apply Hnan, add_finite_not_nan; try done.
  - apply binary_normalize_not_nan.
  - by destruct x.
Qed.

Lemma py_add_zero_not_nan (a : pynum) :
  is_nan a = false -> is_nan (py_add a (PyInt 0)) = false.
Proof.
  destruct a as [z|x]; [done|]. intros Ha. cbn [py_add].
  change (PyFloat.of_int 0) with (S754_zero false).
  by destruct x as [[]|[]| |].
Qed.

Lemma totals_from_cons acc item items_data :
  totals_from acc (item :: items_data) =
  totals_from
    (let inv_foreign := Py.get "Invoice Amount_foreign_currency" "0" item in
     if Py.truthy inv_foreign then
       match PyFloat.of_string inv_foreign with
       | Some x => py_add acc (PyFloat x)
       | None => acc
       end
     else py_add acc (PyInt 0))
    items_data.
Proof. reflexivity. Qed.

Lemma totals_plain acc items_data :
  is_nan acc = false ->
  Forall (fun item => plain_amount item = true) items_data ->
  is_nan (totals_from acc items_data) = false.
Proof.
  intros Hacc Hall. revert acc Hacc.
  induction Hall as [|item items_data Hitem _ IH]; intros acc Hacc; [done|].
  rewrite totals_from_cons. apply IH. cbv zeta.
  unfold plain_amount in Hitem.
  destruct (Py.truthy _); [|by apply py_add_zero_not_nan].
  destruct (PyFloat.of_string _) as [x|]; [|done].
  apply py_add_finite_not_nan; [done|]. by destruct x.
Qed.

(** X8.  Rows whose amount [float] rejects count for nothing: the total
    of a list of rows is the total of the rows that are left when these
    are taken out. *)
Theorem rejected_rows_do_not_count items_data :
  calculate_form_totals items_data =
  calculate_form_totals (filter (fun item => rejected item = false) items_data).
Proof.
  change (totals_from (PyInt 0) items_data =
          totals_from (PyInt 0) (filter (fun item => rejected item = false) items_data)).
  generalize (PyInt 0).
  induction items_data as [|item items_data IH]; intros acc; [done|].
  destruct (rejected item) eqn:Hr.
  - rewrite filter_cons_False by (by rewrite Hr).
    rewrite totals_from_cons, IH. cbv zeta. unfold rejected in Hr.
    destruct (Py.truthy _); [|done].
    by destruct (PyFloat.of_string _).
  - rewrite filter_cons_True by done.
    by rewrite !totals_from_cons, IH.
Qed.

(** X9.  When every row has a blank amount or one [float] rejects, the
    total stays the integer 0 the loop starts from, and the
    declaration-level invoice amount reads "0", not "0.0". *)
Theorem blank_and_rejected_rows_total_zero CV sad_data items_data filename :
  Forall (fun item => blank item || rejected item = true) items_data ->
  calculate_form_totals items_data = PyInt 0 /\
  exists doc,
    create_asycuda_xml CV sad_data items_data filename = Some doc /\
    descend ["SAD"; "Valuation"; "Invoice"; "Amount_foreign_currency"] doc =
      Some (Element "Amount_foreign_currency" (Some "0") []).
Proof.
  intros Hall.
  assert (calculate_form_totals items_data = PyInt 0) as Htotal.
  { change (totals_from (PyInt 0) items_data = PyInt 0).
    induction Hall as [|item items_data Hitem _ IH]; [done|].
    rewrite totals_from_cons. cbv zeta.
    unfold blank, rejected in Hitem.
    destruct (Py.truthy _); cbn [negb orb andb] in Hitem; [|exact IH].
    by destruct (PyFloat.of_string _). }
  split; [done|].
  destruct (invoice_amount_when_not_nan CV sad_data items_data filename)
    as (doc & Hdoc & Hleaf); [by rewrite Htotal|].
  exists doc. split; [done|]. by rewrite Hleaf, Htotal.
Qed.

(** X10.  When no amount is a text [float] reads as an infinity or as
    NaN ("inf", "-Infinity", "nan", ...), the total is not NaN and the
    declaration-level invoice amount carries [str] of the total as its
    text: the leaf is left without text only through such cells. *)
Theorem finite_amounts_give_the_total_as_text CV sad_data items_data filename :
  Forall (fun item => plain_amount item = true) items_data ->
  is_nan (calculate_form_totals items_data) = false /\
  exists doc,
    create_asycuda_xml CV sad_data items_data filename = Some doc /\
    descend ["SAD"; "Valuation"; "Invoice"; "Amount_foreign_currency"] doc =
      Some (Element "Amount_foreign_currency"
              (Some (py_str (calculate_form_totals items_data))) []).
Proof.
  intros Hall.
  assert (is_nan (calculate_form_totals items_data) = false) as Hnan
    by (by apply (totals_plain (PyInt 0))).
  split; [done|]. by apply invoice_amount_when_not_nan.
Qed.

(** X9 (witness): a blank cell and a word. *)
Lemma blank_and_rejected_witness :
  calculate_form_totals [amount ""; amount "abc"] = PyInt 0 /\
  exists doc,
    create_asycuda_xml CONSIGNMENT_VALUES ∅ [amount ""; amount "abc"] "form.xlsx" =
      Some doc /\
    descend ["SAD"; "Valuation"; "Invoice"; "Amount_foreign_currency"] doc =
      Some (Element "Amount_foreign_currency" (Some "0") []).
Proof.
  apply (blank_and_rejected_rows_total_zero CONSIGNMENT_VALUES ∅
           [amount ""; amount "abc"] "form.xlsx").
  repeat constructor.
Defined.

(** X10 (witness): three amounts, one of them missing. *)
Lemma finite_amounts_witness :
  exists doc,
    create_asycuda_xml CONSIGNMENT_VALUES ∅ [amount "10.5"; ∅; amount "1e3"]
      "form.xlsx" = Some doc /\
    descend ["SAD"; "Valuation"; "Invoice"; "Amount_foreign_currency"] doc =
      Some (Element "Amount_foreign_currency" (Some "1010.5") []).
Proof.
  destruct (finite_amounts_give_the_total_as_text CONSIGNMENT_VALUES ∅
              [amount "10.5"; ∅; amount "1e3"] "form.xlsx")
    as (_ & doc & Hdoc & Hleaf).
  - repeat constructor.
  - exists doc. split; [exact Hdoc|]. rewrite Hleaf. vm_compute. reflexivity.
Defined.

(** ** Amounts [float] cannot read *)

Lemma float_char_digit a : PyFloat.is_digit a = true -> float_char a = true.
Proof. intros H. unfold float_char. by rewrite H. Qed.

Lemma float_char_space a : PyFloat.is_space a = true -> float_char a = true.
Proof. intros H. unfold float_char. by rewrite H, orb_true_r. Qed.

Lemma float_char_eqb a (c : ascii) :
  Ascii.eqb a c = true -> float_char c = true -> float_char a = true.
Proof. by intros ->%Ascii.eqb_eq. Qed.

Lemma lstrip_chars l :
  Forall (fun a => float_char a = true) (PyFloat.lstrip l) ->
  Forall (fun a => float_char a = true) l.
Proof.
  induction l as [|a l IH]; [done|]. cbn [PyFloat.lstrip].
  destruct (PyFloat.is_space a) eqn:Ha; [|done].
  intros H. constructor; [by apply float_char_space|by apply IH].
Qed.

Lemma strip_chars l :
  Forall (fun a => float_char a = true) (PyFloat.strip l) ->
  Forall (fun a => float_char a = true) l.
Proof.
  unfold PyFloat.strip. intros H.
  apply lstrip_chars. apply Forall_rev in H. rewrite rev_involutive in H.
  apply lstrip_chars in H. apply Forall_rev in H. by rewrite rev_involutive in H.
Qed.

Lemma drop_underscores_chars l : forall prev l',
  PyFloat.drop_underscores prev l = Some l' ->
  Forall (fun a => float_char a = true) l' ->
  Forall (fun a => float_char a = true) l.
Proof.
  induction l as [|a l IH]; intros prev l'; [done|].
  cbn [PyFloat.drop_underscores].
  destruct (Ascii.eqb a PyFloat.underscore) eqn:Ha.
  - destruct prev as [p|]; [|done]. destruct (PyFloat.is_digit p); [|done].
    intros H Hl'. constructor; [|by eapply IH].
    by apply (float_char_eqb _ _ Ha).
  - destruct (_ && _); [done|].
    destruct (PyFloat.drop_underscores (Some a) l) as [r|] eqn:Hr; [|done].
    cbn [option_map]. intros [= <-] Hl'. apply Forall_cons in Hl' as [Hx Hl'].
    constructor; [done|by eapply IH].
Qed.

Lemma parse_sign_chars l :
  Forall (fun a => float_char a = true) (snd (PyFloat.parse_sign l)) ->
  Forall (fun a => float_char a = true) l.
Proof.
  destruct l as [|a l]; [done|]. cbn [PyFloat.parse_sign].
  destruct (Ascii.eqb a "-") eqn:Hm.
  { intros H. constructor; [by apply (float_char_eqb _ _ Hm)|done]. }
  destruct (Ascii.eqb a "+") eqn:Hp; [|done].
  intros H. constructor; [by apply (float_char_eqb _ _ Hp)|done].
Qed.

Lemma take_digits_chars l :
  Forall (fun a => float_char a = true) (snd (PyFloat.take_digits l)) ->
  Forall (fun a => float_char a = true) l.
Proof.
  induction l as [|a l IH]; [done|]. cbn [PyFloat.take_digits].
  destruct (PyFloat.is_digit a) eqn:Ha; [|done].
  destruct (PyFloat.take_digits l) as [ds rest]. cbn [snd] in *.
  intros H. constructor; [by apply float_char_digit|by apply IH].
Qed.

Lemma parse_decimal_chars l parsed :
  PyFloat.parse_decimal l = Some parsed ->
  Forall (fun a => float_char a = true) l.
Proof.
  unfold PyFloat.parse_decimal. intros H.
  apply take_digits_chars.
  destruct (PyFloat.take_digits l) as [ip r1]. cbn [snd].
  assert (exists fp r2,
            match r1 with
            | a :: r => if Ascii.eqb a "." then PyFloat.take_digits r else ([], r1)
            | [] => ([], r1)
            end = (fp, r2) /\
            (Forall (fun a => float_char a = true) r2 ->
             Forall (fun a => float_char a = true) r1)) as (fp & r2 & Hfp & Hr1).
  { destruct r1 as [|b r]; [by eexists _, _|].
    destruct (Ascii.eqb b ".") eqn:Hb; [|by eexists _, _].
    pose proof (take_digits_chars r) as Hr.
    destruct (PyFloat.take_digits r) as [fp r2]. exists fp, r2.
    split; [done|]. intros H2. constructor; [|by apply Hr].
    by apply (float_char_eqb _ _ Hb). }
  rewrite Hfp in H. apply Hr1. clear Hfp Hr1.
  destruct (ip ++ fp) as [|d0 ds]; [done|].
  destruct r2 as [|a r3]; [done|].
  destruct (Ascii.eqb a "e" || Ascii.eqb a "E") eqn:He; [|done].
  constructor.
  { apply orb_true_iff in He as [He|He]; by apply (float_char_eqb _ _ He). }
  apply parse_sign_chars.
  destruct (PyFloat.parse_sign r3) as [eneg r4]. cbn [snd].
  apply take_digits_chars.
  destruct (PyFloat.take_digits r4) as [[|d ed] [|x rest]]; done.
Qed.

Lemma word_chars body (w : string) :
  Forall (fun a => float_char a = true) (list_ascii_of_string w) ->
  (forall a, float_char (Py.lower_ascii a) = true -> float_char a = true) ->
  PyFloat.ascii_list_eqb (PyFloat.lower_list body) (list_ascii_of_string w) = true ->
  Forall (fun a => float_char a = true) body.
Proof.
  intros Hw Hlow Heq. unfold PyFloat.ascii_list_eqb in Heq.
  apply String.eqb_eq in Heq.
  apply (f_equal list_ascii_of_string) in Heq.
  rewrite !list_ascii_of_string_of_list_ascii in Heq.
  rewrite <- Heq in Hw. unfold PyFloat.lower_list in Hw.
  apply Forall_map in Hw. eapply Forall_impl; [exact Hw|]. exact Hlow.
Qed.

Lemma float_char_lower a :
  float_char (Py.lower_ascii a) = true -> float_char a = true.
Proof. destruct a as [[] [] [] [] [] [] [] []]; vm_compute; done. Qed.

(** A text [float] accepts is, once brought to ASCII, made of the
    characters of [float_char]. *)
Lemma of_string_chars s x :
  PyFloat.of_string s = Some x ->
  Forall (fun a => float_char a = true) (PyFloat.to_ascii s).
Proof.
  unfold PyFloat.of_string. intros H.
  destruct (PyFloat.drop_underscores None _) as [l|] eqn:Hl; [|done].
  eapply drop_underscores_chars; [exact Hl|].
  apply strip_chars. apply parse_sign_chars.
  destruct (PyFloat.parse_sign (PyFloat.strip l)) as [neg body]. cbn [snd].
  destruct (PyFloat.ascii_list_eqb (PyFloat.lower_list body)
              (list_ascii_of_string "inf")) eqn:H1.
  { eapply word_chars; [|exact float_char_lower|exact H1].
    repeat constructor. }
  destruct (PyFloat.ascii_list_eqb (PyFloat.lower_list body)
              (list_ascii_of_string "infinity")) eqn:H2.
  { eapply word_chars; [|exact float_char_lower|exact H2].
    repeat constructor. }
  cbn [orb] in H.
  destruct (PyFloat.ascii_list_eqb (PyFloat.lower_list body)
              (list_ascii_of_string "nan")) eqn:H3.
  { eapply word_chars; [|exact float_char_lower|exact H3].
    repeat constructor. }
  destruct (PyFloat.parse_decimal body) as [[m e]|] eqn:Hd; [|done].
  by eapply parse_decimal_chars.
Qed.

(** An ASCII byte of a text is one of its characters, whatever surrounds
    it; a text that is no UTF-8 has U+FFFD instead. *)
Lemma code_points_from_ascii l : forall pending acc c,
  c ∈ l -> nat_of_ascii c < 128 ->
  N_of_ascii c ∈ Py.code_points_from pending acc l \/
  Py.replacement ∈ Py.code_points_from pending acc l.
Proof.
  induction l as [|b r IH]; intros pending acc c Hc Hlt.
  { by apply elem_of_nil in Hc. }
  assert (Hb : c = b -> (N_of_ascii b <? 128)%N = true).
  { intros <-. apply N.ltb_lt. unfold nat_of_ascii in Hlt. lia. }
  assert (Hr : forall x p a,
             c ∈ r ->
             N_of_ascii c ∈ x :: Py.code_points_from p a r \/
             Py.replacement ∈ x :: Py.code_points_from p a r).
  { intros x p a Hin.
    destruct (IH p a c Hin Hlt); [left|right]; by apply list_elem_of_further. }
  apply elem_of_cons in Hc. cbn [Py.code_points_from]. cbv zeta.
  destruct pending as [|k].
  - destruct (N_of_ascii b <? 128)%N eqn:H1.
    { destruct Hc as [->|Hc].
      - left. apply list_elem_of_here.
      - by apply Hr. }
    assert (Hin : c ∈ r) by (destruct Hc as [Hc|Hc]; [by specialize (Hb Hc)|done]).
    repeat case_match; try (right; apply list_elem_of_here); by apply IH.
  - destruct (_ && _) eqn:H1.
    { assert (Hin : c ∈ r).
      { destruct Hc as [Hc|Hc]; [|done]. apply Hb in Hc.
        apply andb_true_iff in H1 as [H1 _].
        apply N.leb_le in H1. apply N.ltb_lt in Hc. lia. }
      destruct k; [by apply Hr|by apply IH]. }
    case_match; right; apply list_elem_of_here.
Qed.

Lemma transform_foreign cps c :
  c ∈ cps -> foreign c = true ->
  exists a, a ∈ PyFloat.transform cps /\ float_char a = false.
Proof.
  induction cps as [|h r IH]; intros Hc Hf; [by apply elem_of_nil in Hc|].
  assert (Hr : forall a, foreign h = false ->
             exists a', a' ∈ a :: PyFloat.transform r /\ float_char a' = false).
  { intros a Hh. apply elem_of_cons in Hc as [->|Hc]; [congruence|].
    destruct (IH Hc Hf) as (a' & Ha' & Hfa').
    exists a'. split; [by apply list_elem_of_further|done]. }
  cbn [PyFloat.transform]. unfold foreign in Hr.
  destruct (h <? 127)%N.
  { destruct (float_char (ascii_of_N h)) eqn:Hh; [by apply Hr|].
    exists (ascii_of_N h). split; [apply list_elem_of_here|done]. }
  destruct (PyFloat.unicode_space h); [by apply Hr|].
  destruct (PyFloat.unicode_decimal h); [by apply Hr|].
  exists "?"%char. split; [apply list_elem_of_here|done].
Qed.

Lemma foreign_ascii c :
  nat_of_ascii c < 128 -> float_char c = false -> foreign (N_of_ascii c) = true.
Proof.
  destruct c as [[] [] [] [] [] [] [] []]; vm_compute; intros; try done; lia.
Qed.

(** A text with an ASCII byte outside [float_char] keeps a character
    outside [float_char] when it is brought to ASCII. *)
Lemma to_ascii_foreign s c :
  c ∈ chars s -> nat_of_ascii c < 128 -> float_char c = false ->
  exists a, a ∈ PyFloat.to_ascii s /\ float_char a = false.
Proof.
  intros Hc Hlt Hfc. unfold PyFloat.to_ascii.
  destruct (forallb _ _); [by exists c|].
  destruct (code_points_from_ascii _ 0 0%N c Hc Hlt) as [H|H].
  - eapply transform_foreign; [exact H|by apply foreign_ascii].
  - eapply transform_foreign; [exact H|done].
Qed.

(** X11.  A row whose amount holds an ASCII character [float] has no use
    for (a decimal comma or a thousands separator, a dollar sign, a
    letter outside "inf", "infinity", "nan" and the exponent) is left out
    of the total without a report: the total with the row is the total
    without it. *)
Theorem amount_with_a_foreign_character_is_left_out items_data item v c :
  item !! "Invoice Amount_foreign_currency" = Some v ->
  c ∈ chars v ->
  nat_of_ascii c < 128 ->
  float_char c = false ->
  calculate_form_totals (items_data ++ [item]) = calculate_form_totals items_data.
Proof.
  intros Hv Hc Hlt Hfc. rewrite calculate_form_totals_snoc. cbv zeta.
  unfold Py.get. rewrite Hv.
  destruct v as [|a v]; [by apply elem_of_nil in Hc|]. cbn [Py.truthy].
  destruct (PyFloat.of_string (String a v)) as [x|] eqn:Hx; [|done].
  apply of_string_chars in Hx. rewrite Forall_forall in Hx.
  destruct (to_ascii_foreign _ c Hc Hlt Hfc) as (a' & Ha' & Hfa').
  specialize (Hx a' Ha'). congruence.
Qed.

(** X11 (witness): an amount with a decimal comma after two plain ones. *)
Lemma decimal_comma_witness :
  calculate_form_totals [amount "10.5"; amount "4.5"; amount "12,75"] =
  calculate_form_totals [amount "10.5"; amount "4.5"].
Proof.
  apply (amount_with_a_foreign_character_is_left_out
           [amount "10.5"; amount "4.5"] (amount "12,75") "12,75" ","%char).
  - reflexivity.
  - apply (bool_decide_unpack _). vm_compute. exact I.
  - vm_compute. lia.
  - reflexivity.
Defined.

(** ** The columns the document depends on *)

Lemma get_agree cols (d d' : record) key default :
  agree_on cols d d' -> key ∈ cols -> Py.get key default d = Py.get key default d'.
Proof. intros H Hk. unfold Py.get. by rewrite (H key Hk). Qed.

Ltac listed := apply (bool_decide_unpack _); vm_compute; exact I.

Ltac read_agreeing H d :=
  repeat match goal with
         | |- context [Py.get ?k ?default d] =>
             rewrite (get_agree _ d _ k default H) by listed
         end.

Lemma item_tree_agree CV (item item' : record) :
  agree_on item_columns item item' -> item_tree CV item = item_tree CV item'.
Proof.
  intros H.
  unfold item_tree, item_valuation_subsections, supplementary_unit.
  cbn [String.eqb Ascii.eqb Bool.eqb].
  read_agreeing H item. reflexivity.
Qed.

Lemma sad_tree_agree CV (sad sad' : record) (items items' : list record) :
  agree_on header_columns sad sad' ->
  length items = length items' ->
  calculate_form_totals items = calculate_form_totals items' ->
  sad_tree CV sad items = sad_tree CV sad' items'.
Proof.
  intros H Hlen Htotal. unfold sad_tree. rewrite Hlen, Htotal.
  read_agreeing H sad. reflexivity.
Qed.

Lemma child_sad CV sad items :
  child "SAD" (asycuda_tree CV sad items) = Some (sad_tree CV sad items).
Proof. reflexivity. Qed.

(** X12.  The declaration-level block of the document is read from the
    header row through the 53 listed columns only, and depends on the item
    rows only through their number and their invoice total: two inputs
    that agree on these give the same [SAD] block, whatever else the rows
    hold and whatever the file is called. *)
Theorem header_block_depends_on_listed_columns
    CV (sad sad' : record) (items items' : list record) filename filename' :
  agree_on header_columns sad sad' ->
  length items = length items' ->
  calculate_form_totals items = calculate_form_totals items' ->
  exists block,
    create_asycuda_xml CV sad items filename ≫= child "SAD" = Some block /\
    create_asycuda_xml CV sad' items' filename' ≫= child "SAD" = Some block.
Proof.
  intros H Hlen Htotal. rewrite !create_asycuda_xml_tree.
  cbn [mbind option_bind]. rewrite !child_sad.
  exists (sad_tree CV sad items). split; [reflexivity|].
  by rewrite <- (sad_tree_agree CV sad sad' items items').
Qed.

(** X13.  The block of an item is read from its own row through the 26
    listed columns only: it is the same at any position of any document,
    whatever the header, the other rows and the file name. *)
Theorem item_block_depends_on_its_row
    CV (sad sad' : record) (items items' : list record) filename filename'
    i j (item item' : record) :
  items !! i = Some item ->
  items' !! j = Some item' ->
  agree_on item_columns item item' ->
  exists block,
    create_asycuda_xml CV sad items filename ≫= nth_item i = Some block /\
    create_asycuda_xml CV sad' items' filename' ≫= nth_item j = Some block.
Proof.
  intros Hi Hj H. rewrite !create_asycuda_xml_tree. cbn [mbind option_bind].
  rewrite !nth_item_asycuda_tree, Hi, Hj. cbn [fmap option_fmap option_map].
  exists (item_tree CV item). split; [reflexivity|].
  by rewrite (item_tree_agree CV item item').
Qed.

(** X12 (witness): a header with an unlisted column more, and other item
    rows with the same number and total. *)
Lemma header_block_witness :
  exists block,
    create_asycuda_xml CONSIGNMENT_VALUES {[ "Exporter_name" := "ACME" ]}
      [amount "10.5"; amount ""] "a.xlsx" ≫= child "SAD" = Some block /\
    create_asycuda_xml CONSIGNMENT_VALUES
      (<[ "Financial_transaction Code_2" := "9" ]> {[ "Exporter_name" := "ACME" ]})
      [amount "4.5"; amount "6"] "b.xls" ≫= child "SAD" = Some block.
Proof.
  apply (header_block_depends_on_listed_columns CONSIGNMENT_VALUES
           {[ "Exporter_name" := "ACME" ]}
           (<[ "Financial_transaction Code_2" := "9" ]> {[ "Exporter_name" := "ACME" ]})
           [amount "10.5"; amount ""] [amount "4.5"; amount "6"] "a.xlsx" "b.xls").
  - intros k Hk. rewrite lookup_insert_ne; [reflexivity|].
    intros <-. revert Hk. apply (bool_decide_eq_false_1 _). vm_compute. reflexivity.
  - reflexivity.
  - vm_compute. reflexivity.
Defined.

(** X13 (witness): the example item, first in one document and second in
    another, with a comment column the mapper does not know. *)
Lemma item_block_witness :
  exists block,
    create_asycuda_xml CONSIGNMENT_VALUES ∅ [example_item] "a.xlsx"
      ≫= nth_item 0 = Some block /\
    create_asycuda_xml CONSIGNMENT_VALUES {[ "Exporter_name" := "ACME" ]}
      [amount "1"; <[ "Comment" := "fragile" ]> example_item] "b.xlsx"
      ≫= nth_item 1 = Some block.
Proof.
  apply (item_block_depends_on_its_row CONSIGNMENT_VALUES ∅
           {[ "Exporter_name" := "ACME" ]} [example_item]
           [amount "1"; <[ "Comment" := "fragile" ]> example_item]
           "a.xlsx" "b.xlsx" 0 1 example_item
           (<[ "Comment" := "fragile" ]> example_item)).
  - reflexivity.
  - reflexivity.
  - intros k Hk. rewrite lookup_insert_ne; [reflexivity|].
    intros <-. revert Hk. apply (bool_decide_eq_false_1 _). vm_compute. reflexivity.
Defined.

(** ** Where the mapper writes what *)

Ltac each_written :=
  repeat constructor; (eexists; split; reflexivity).

(** X14.  Every cell of the header row the mapper reads is written at one
    fixed place of the declaration: for each of the 54 entries of
    [header_fields] the element at the path is the leaf [add_element]
    writes for the cell under the column, or for the default when the
    header has no such column. *)
Theorem header_cells_are_written_at_their_paths CV sad_data items_data filename :
  exists doc,
    create_asycuda_xml CV sad_data items_data filename = Some doc /\
    Forall (fun '(path, column, default) =>
              written path (Py.get column default sad_data) doc)
           header_fields.
Proof.
  eexists. split; [apply create_asycuda_xml_tree|].
  unfold header_fields. each_written.
Qed.

(** X15.  The other leaves of the declaration, but for the invoice total
    and the number of items, do not come from the workbook: whatever the
    sheets hold, each of the 41 elements listed in
    [declaration_constants] is the leaf written for its constant of
    [CONSIGNMENT_VALUES] or for the text fixed in the source. *)
Theorem declaration_constants_are_written CV sad_data items_data filename :
  exists doc,
    create_asycuda_xml CV sad_data items_data filename = Some doc /\
    Forall (fun '(path, constant) => written path (constant CV) doc)
           declaration_constants.
Proof.
  eexists. split; [apply create_asycuda_xml_tree|].
  unfold declaration_constants. each_written.
Qed.

Lemma item_block CV sad_data items_data filename i item :
  items_data !! i = Some item ->
  create_asycuda_xml CV sad_data items_data filename ≫= nth_item i =
  Some (item_tree CV item).
Proof.
  intros Hi. rewrite create_asycuda_xml_tree. cbn [mbind option_bind].
  by rewrite nth_item_asycuda_tree, Hi.
Qed.

(** X16.  Every cell of an item row the mapper reads, the supplementary
    units apart, is written at one fixed place of the block of the item:
    for each of the 19 entries of [item_fields] the element at the path
    is the leaf written for the cell under the column, or for the default
    when the row has no such column. *)
Theorem item_cells_are_written_at_their_paths
    CV sad_data items_data filename i item :
  items_data !! i = Some item ->
  exists block,
    create_asycuda_xml CV sad_data items_data filename ≫= nth_item i =
      Some block /\
    Forall (fun '(path, column, default) =>
              written path (Py.get column default item) block)
           item_fields.
Proof.
  intros Hi. eexists. split; [by apply item_block|].
  unfold item_fields. each_written.
Qed.

(** X17.  The other leaves of an item, the supplementary units apart, do
    not come from the workbook: in the block of every item each of the 41
    elements listed in [item_constants] is the leaf written for its
    constant of [CONSIGNMENT_VALUES] or for the text fixed in the
    source. *)
Theorem item_constants_are_written CV sad_data items_data filename i item :
  items_data !! i = Some item ->
  exists block,
    create_asycuda_xml CV sad_data items_data filename ≫= nth_item i =
      Some block /\
    Forall (fun '(path, constant) => written path (constant CV) block)
           item_constants.
Proof.
  intros Hi. eexists. split; [by apply item_block|].
  unfold item_constants. each_written.
Qed.

(** X16 (witness): the commodity code of the example item. *)
Lemma item_cell_witness :
  exists block,
    create_asycuda_xml CONSIGNMENT_VALUES ∅ [example_item] "form.xlsx"
      ≫= nth_item 0 = Some block /\
    descend ["Tariff"; "Harmonized_system"; "Commodity_code"] block =
      Some (Element "Commodity_code" (Some "84713000") []).
Proof.
  destruct (item_cells_are_written_at_their_paths CONSIGNMENT_VALUES ∅
              [example_item] "form.xlsx" 0 example_item eq_refl)
    as (block & Hblock & Hcells).
  exists block. split; [exact Hblock|].
  rewrite Forall_forall in Hcells.
  destruct (Hcells (["Tariff"; "Harmonized_system"; "Commodity_code"],
                    "Commodity_code", ""))
    as (tag_name & Htag & ->).
  - apply (bool_decide_unpack _). vm_compute. exact I.
  - injection Htag as <-. reflexivity.
Defined.

(** X17 (witness): the statistical value of the example item. *)
Lemma item_constant_witness :
  exists block,
    create_asycuda_xml CONSIGNMENT_VALUES ∅ [example_item] "form.xlsx"
      ≫= nth_item 0 = Some block /\
    descend ["Valuation_item"; "Statistical_value"] block =
      Some (Element "Statistical_value" (Some "71") []).
Proof.
  destruct (item_constants_are_written CONSIGNMENT_VALUES ∅
              [example_item] "form.xlsx" 0 example_item eq_refl)
    as (block & Hblock & Hconstants).
  exists block. split; [exact Hblock|].
  apply Forall_cons in Hconstants as [_ Hconstants].
  apply Forall_cons in Hconstants as [_ Hconstants].
  apply Forall_cons in Hconstants as [_ Hconstants].
  apply Forall_cons in Hconstants as [(tag_name & Htag & ->) _].
  injection Htag as <-. reflexivity.
Defined.

(** ** Sheets that cannot be read *)

Lemma holds_row_to_dict cols row : holds_row cols row (row_to_dict cols row).
Proof. intros col. unfold row_to_dict. by rewrite row_to_dict_from, lookup_empty. Qed.

Lemma holds_rows_to_dicts cols rows :
  Forall2 (holds_row cols) rows (map (row_to_dict cols) rows).
Proof.
  induction rows as [|row rows IH]; constructor; [apply holds_row_to_dict|done].
Qed.

Lemma header_fields_written CV sad_data items_data :
  Forall (fun '(path, column, default) =>
            written path (Py.get column default sad_data)
              (asycuda_tree CV sad_data items_data))
         header_fields.
Proof. unfold header_fields. each_written. Qed.

Lemma first_row_ok df row :
  frame_ok df -> head (pd.rows df) = Some row ->
  record_ok (row_to_dict (pd.columns df) row).
Proof.
  intros Hok Hrow. apply row_to_dict_ok. intros col v. apply Hok.
  destruct (pd.rows df) as [|r rs]; [done|]. injection Hrow as ->. left.
Qed.

Section Failures.

Variable file_content : Type.
Variable pd_read_excel : file_content -> string -> outcome pd.DataFrame.
Variable serializer_error : element -> string.

(** C6 (amended).  Whatever reading a workbook does:
    - a sheet that cannot be read ("SAD" or "Items", missing or failing)
      gives the empty header record, or the empty item list, for that
      sheet;
    - each sheet is extracted whatever happens to the other: a "SAD" frame
      that is not empty gives the record of its first row, and an "Items"
      frame that is not empty one record per row, in row order; a record
      has the columns of the frame as keys and the cell texts under them;
    - when "SAD" cannot be read and "Items" is a frame that is not empty
      and whose cell texts are made of characters XML allows, the
      conversion succeeds with the serialized document of the empty header
      and the item rows, in which every leaf fed by the header carries its
      default; a cell text with another character can make it fail;
    - likewise, when "Items" cannot be read and "SAD" is such a frame, the
      conversion succeeds with the document of the header and no item;
    - the conversion returns the report "No valid data found in <file>"
      exactly when both the header record and the item list are empty,
      which is when each sheet cannot be read or is an empty frame. *)
Theorem sheets_are_read_independently :
  (forall content e,
     pd_read_excel content "SAD" = Raised e ->
     fst (read_excel_data pd_read_excel content) = ∅) /\
  (forall content e,
     pd_read_excel content "Items" = Raised e ->
     snd (read_excel_data pd_read_excel content) = []) /\
  (forall content sad_df,
     pd_read_excel content "SAD" = Returned sad_df ->
     pd.empty sad_df = false ->
     exists sad_row,
       head (pd.rows sad_df) = Some sad_row /\
       holds_row (pd.columns sad_df) sad_row
         (fst (read_excel_data pd_read_excel content))) /\
  (forall content items_df,
     pd_read_excel content "Items" = Returned items_df ->
     pd.empty items_df = false ->
     Forall2 (holds_row (pd.columns items_df)) (pd.rows items_df)
       (snd (read_excel_data pd_read_excel content))) /\
  (forall content filename e items_df,
     pd_read_excel content "SAD" = Raised e ->
     pd_read_excel content "Items" = Returned items_df ->
     pd.empty items_df = false ->
     frame_ok items_df ->
     exists items_data doc,
       Forall2 (holds_row (pd.columns items_df)) (pd.rows items_df) items_data /\
       create_asycuda_xml CONSIGNMENT_VALUES ∅ items_data filename = Some doc /\
       convert_excel_to_xml CONSIGNMENT_VALUES pd_read_excel serializer_error
         content filename = (true, minidom.toprettyxml "  " doc) /\
       Forall (fun '(path, _, default) => written path default doc)
         header_fields) /\
  (forall content filename e sad_df,
     pd_read_excel content "Items" = Raised e ->
     pd_read_excel content "SAD" = Returned sad_df ->
     pd.empty sad_df = false ->
     frame_ok sad_df ->
     exists sad_row sad_data doc,
       head (pd.rows sad_df) = Some sad_row /\
       holds_row (pd.columns sad_df) sad_row sad_data /\
       create_asycuda_xml CONSIGNMENT_VALUES sad_data [] filename = Some doc /\
       convert_excel_to_xml CONSIGNMENT_VALUES pd_read_excel serializer_error
         content filename = (true, minidom.toprettyxml "  " doc)) /\
  (forall content filename,
     (convert_excel_to_xml CONSIGNMENT_VALUES pd_read_excel serializer_error
        content filename = (false, "No valid data found in " +:+ filename) <->
      read_excel_data pd_read_excel content = (∅, [])) /\
     (read_excel_data pd_read_excel content = (∅, []) <->
      lacks_data (pd_read_excel content "SAD") /\
      lacks_data (pd_read_excel content "Items"))).
Proof.
  assert (Hheader : forall content sad_df,
            pd_read_excel content "SAD" = Returned sad_df ->
            pd.empty sad_df = false ->
            exists sad_row,
              head (pd.rows sad_df) = Some sad_row /\
              fst (read_excel_data pd_read_excel content) =
                row_to_dict (pd.columns sad_df) sad_row).
  { intros content sad_df Hsad Hne. unfold read_excel_data. cbn [fst].
    rewrite Hsad, Hne. cbn [negb]. unfold pd.empty in Hne.
    destruct (pd.columns sad_df) as [|c cs]; [done|].
    destruct (pd.rows sad_df) as [|row rows]; [done|]. by exists row. }
  assert (Hitems : forall content items_df,
            pd_read_excel content "Items" = Returned items_df ->
            pd.empty items_df = false ->
            snd (read_excel_data pd_read_excel content) =
              map (row_to_dict (pd.columns items_df)) (pd.rows items_df)).
  { intros content items_df Hit Hne. unfold read_excel_data. cbn [snd].
    by rewrite Hit, Hne. }
  assert (Hno_header : forall content e,
            pd_read_excel content "SAD" = Raised e ->
            fst (read_excel_data pd_read_excel content) = ∅).
  { intros content e Hsad. unfold read_excel_data. cbn [fst]. by rewrite Hsad. }
  assert (Hno_items : forall content e,
            pd_read_excel content "Items" = Raised e ->
            snd (read_excel_data pd_read_excel content) = []).
  { intros content e Hit. unfold read_excel_data. cbn [snd]. by rewrite Hit. }
  split; [exact Hno_header|]. split; [exact Hno_items|].
  split; [|split; [|split; [|split]]].
  - intros content sad_df Hsad Hne.
    destruct (Hheader content sad_df Hsad Hne) as (sad_row & Hrow & ->).
    exists sad_row. split; [done|apply holds_row_to_dict].
  - intros content items_df Hit Hne. rewrite (Hitems content items_df Hit Hne).
    apply holds_rows_to_dicts.
  - intros content filename e items_df Hsad Hit Hne Hok.
    pose proof (Hno_header content e Hsad) as Hfst.
    pose proof (Hitems content items_df Hit Hne) as Hsnd.
    exists (map (row_to_dict (pd.columns items_df)) (pd.rows items_df)).
    exists (asycuda_tree CONSIGNMENT_VALUES ∅
              (map (row_to_dict (pd.columns items_df)) (pd.rows items_df))).
    split; [apply holds_rows_to_dicts|].
    split; [apply create_asycuda_xml_tree|]. split.
    + unfold convert_excel_to_xml.
      destruct (read_excel_data pd_read_excel content) as [sad_data items_data].
      cbn [fst snd] in Hfst, Hsnd. subst sad_data items_data.
      destruct (pd.rows items_df) as [|row rows'] eqn:Hrows.
      { unfold pd.empty in Hne. rewrite Hrows in Hne.
        by destruct (pd.columns items_df). }
      cbn [map]. rewrite (bool_decide_eq_false_2 (_ :: _ = [])) by done.
      rewrite andb_false_r, create_asycuda_xml_tree. unfold prettify_xml.
      rewrite parses_asycuda_tree; [done|apply record_ok_empty|].
      change (Forall record_ok
                (map (row_to_dict (pd.columns items_df)) (row :: rows'))).
      rewrite <- Hrows. apply Forall_forall.
      intros d (row0 & -> & Hin)%list_elem_of_fmap.
      apply row_to_dict_ok. intros col v. by apply Hok.
    + eapply Forall_impl; [apply header_fields_written|].
      intros [[path column] default]. unfold Py.get. by rewrite lookup_empty.
  - intros content filename e sad_df Hit Hsad Hne Hok.
    destruct (Hheader content sad_df Hsad Hne) as (sad_row & Hrow & Hfst).
    pose proof (Hno_items content e Hit) as Hsnd.
    exists sad_row, (row_to_dict (pd.columns sad_df) sad_row).
    exists (asycuda_tree CONSIGNMENT_VALUES
              (row_to_dict (pd.columns sad_df) sad_row) []).
    split; [done|]. split; [apply holds_row_to_dict|].
    split; [apply create_asycuda_xml_tree|].
    unfold convert_excel_to_xml.
    destruct (read_excel_data pd_read_excel content) as [sad_data items_data].
    cbn [fst snd] in Hfst, Hsnd. subst sad_data items_data.
    rewrite (bool_decide_eq_false_2 (row_to_dict _ _ = ∅)).
    2:{ unfold pd.empty in Hne.
        destruct (pd.columns sad_df) as [|c cs]; [done|].
        apply row_to_dict_nonempty. }
    cbn [andb]. rewrite create_asycuda_xml_tree. unfold prettify_xml.
    rewrite parses_asycuda_tree; [done| |done].
    by apply first_row_ok.
  - intros content filename. split.
    + unfold convert_excel_to_xml.
      destruct (read_excel_data pd_read_excel content) as [sad_data items_data].
      destruct (bool_decide (sad_data = ∅)) eqn:Hs;
        [destruct (bool_decide (items_data = [])) eqn:Hi|]; cbn [andb].
      * apply bool_decide_eq_true in Hs as ->.
        apply bool_decide_eq_true in Hi as ->. done.
      * apply bool_decide_eq_false in Hi.
        rewrite create_asycuda_xml_tree. unfold prettify_xml.
        destruct (minidom.parses _); split; intros [= H]; try done.
        by apply error_texts_differ in H.
      * apply bool_decide_eq_false in Hs.
        rewrite create_asycuda_xml_tree. unfold prettify_xml.
        destruct (minidom.parses _); split; intros [= H]; try done.
        by apply error_texts_differ in H.
    + rewrite <- (header_is_empty file_content pd_read_excel),
        <- (items_are_empty file_content pd_read_excel).
      destruct (read_excel_data pd_read_excel content) as [sad_data items_data].
      cbn [fst snd]. split; [by intros [= -> ->]|by intros [-> ->]].
Qed.

End Failures.

(** C6 (witness): a workbook with two item rows and no "SAD" sheet
    converts, and so does one with the header sheet only. *)
Lemma items_only_workbook_converts :
  fst (convert_excel_to_xml CONSIGNMENT_VALUES read_sheet no_message
         items_only_workbook "form.xlsx") = true /\
  fst (convert_excel_to_xml CONSIGNMENT_VALUES read_sheet no_message
         header_only_workbook "form.xlsx") = true.
Proof.
  destruct (sheets_are_read_independently workbook read_sheet no_message)
    as (_ & _ & _ & _ & Hitems & Hheader & _).
  split.
  - destruct (Hitems items_only_workbook "form.xlsx"
                "Worksheet named 'SAD' not found" _ eq_refl eq_refl eq_refl)
      as (items_data & doc & _ & _ & -> & _); [|reflexivity].
    apply frame_frame_ok. repeat constructor; intros v [= <-]; reflexivity.
  - destruct (Hheader header_only_workbook "form.xlsx"
                "Worksheet named 'Items' not found" _ eq_refl eq_refl eq_refl)
      as (sad_row & sad_data & doc & _ & _ & _ & ->); [|reflexivity].
    apply frame_frame_ok. repeat constructor; intros v [= <-]; reflexivity.
Defined.

(** C6 (counterexample).  A workbook without the "SAD" sheet whose
    "Items" sheet is read, and gives its one row as an item, does not
    convert when a cell of the row holds a character XML does not allow:
    the file is reported as failed. *)
Lemma control_character_stops_the_conversion :
  read_sheet control_character_workbook "SAD" =
    Raised "Worksheet named 'SAD' not found" /\
  length (snd (read_excel_data read_sheet control_character_workbook)) = 1 /\
  fst (convert_excel_to_xml CONSIGNMENT_VALUES read_sheet no_message
         control_character_workbook "form.xlsx") = false /\
  Py.startswith
    (snd (convert_excel_to_xml CONSIGNMENT_VALUES read_sheet no_message
            control_character_workbook "form.xlsx"))
    "form.xlsx | Error: " = true.
Proof. vm_compute. repeat split. Qed.

(** ** Cell texts in the serialized document *)

Lemma has_markup_app a b : has_markup (a +:+ b) = has_markup a || has_markup b.
Proof.
  induction a as [|x a IH]; [done|].
  change (String x a +:+ b) with (String x (a +:+ b)).
  cbn [has_markup]. by rewrite IH, orb_assoc.
Qed.

Lemma write_data_has_no_markup s : has_markup (minidom.write_data s) = false.
Proof.
  induction s as [|a s IH]; [done|].
  cbn [minidom.write_data]. rewrite has_markup_app, IH, orb_false_r.
  unfold minidom.escape.
  destruct (Ascii.eqb a "&"); [done|].
  destruct (Ascii.eqb a "<") eqn:Hlt; [done|].
  destruct (Ascii.eqb a (ascii_of_nat 34)) eqn:Hq; [done|].
  destruct (Ascii.eqb a ">") eqn:Hgt; [done|].
  cbn [has_markup]. unfold markup. by rewrite Hlt, Hq, Hgt.
Qed.

Lemma normalize_eol_nonempty v : v <> "" -> minidom.normalize_eol v <> "".
Proof.
  destruct v as [|a v]; [done|]. intros _. cbn [minidom.normalize_eol].
  by destruct (Ascii.eqb a minidom.CR).
Qed.

(** An element with a text and no children is written on one line, the
    text escaped, wherever it stands in the document. *)
Lemma writexml_text_element p doc t v indent addindent newl :
  lookup_at p doc = Some (Element t (Some v) []) ->
  v <> "" ->
  contains
    ("<" +:+ t +:+ ">" +:+ minidom.write_data (minidom.normalize_eol v) +:+
     "</" +:+ t +:+ ">")
    (minidom.writexml indent addindent newl doc) = true.
Proof.
  intros Hp Hv. revert doc indent Hp.
  induction p as [|i p IH]; intros doc indent.
  - intros [= ->]. cbn [minidom.writexml]. cbv beta iota zeta.
    apply normalize_eol_nonempty in Hv.
    destruct (minidom.normalize_eol v) as [|a data] eqn:Hdata; [done|].
    apply contains_app_r.
    assert ("<" +:+ t +:+ ">" +:+ minidom.write_data (String a data) +:+
            "</" +:+ t +:+ ">" +:+ newl =
            ("<" +:+ t +:+ ">" +:+ minidom.write_data (String a data) +:+
             "</" +:+ t +:+ ">") +:+ newl) as ->.
    { by rewrite !string_app_assoc. }
    apply contains_here.
  - destruct doc as [t' x cs]. cbn [lookup_at children].
    destruct (cs !! i) as [c|] eqn:Hi; [|done]. intros Hc.
    destruct cs as [|c0 cs']; [done|].
    cbn [minidom.writexml].
    destruct (match x with Some s => minidom.normalize_eol s | None => "" end);
      cbv beta iota;
      do 6 apply contains_app_r; apply contains_app_l;
      (eapply contains_concat; [exact Hi|]); by apply IH.
Qed.

(** X18.  In a document [prettify_xml] serializes, every element with a
    text and no children, wherever it stands, is written on one line as
    its opening tag, its text and its closing tag; the text is written
    with its line ends normalized and with [&], [<], [>] and the double
    quote replaced by entities, so that no cell text adds markup to the
    document. *)
Theorem cell_text_is_written_escaped serializer_error doc p t v s :
  prettify_xml serializer_error doc = Returned s ->
  lookup_at p doc = Some (Element t (Some v) []) ->
  v <> "" ->
  contains
    ("<" +:+ t +:+ ">" +:+ minidom.write_data (minidom.normalize_eol v) +:+
     "</" +:+ t +:+ ">") s = true /\
  has_markup (minidom.write_data (minidom.normalize_eol v)) = false.
Proof.
  intros Hs Hp Hv. split; [|apply write_data_has_no_markup].
  unfold prettify_xml in Hs. destruct (minidom.parses doc); [|done].
  injection Hs as <-. unfold minidom.toprettyxml.
  do 6 apply contains_app_r. by eapply writexml_text_element.
Qed.

(** X18 (witness): an exporter name with an ampersand and a tag in it. *)
Lemma cell_text_witness :
  contains "<Exporter_name>A&amp;B &lt;b&gt;</Exporter_name>"
    (minidom.toprettyxml "  "
       (asycuda_tree CONSIGNMENT_VALUES {[ "Exporter_name" := "A&B <b>" ]} [])) = true.
Proof.
  apply (cell_text_is_written_escaped no_message
           (asycuda_tree CONSIGNMENT_VALUES {[ "Exporter_name" := "A&B <b>" ]} [])
           [0; 3; 0; 1] "Exporter_name" "A&B <b>").
  - reflexivity.
  - reflexivity.
  - discriminate.
Defined.

(** ** The batch loop with its progress table *)

Section Tracking.

Variable CV : consignment_values.
Variable file_content : Type.
Variable pd_read_excel : file_content -> string -> outcome pd.DataFrame.
Variable serializer_error : element -> string.
Variable key_error : string -> string.

Implicit Types (table : gmap string Progress.t) (p : Progress.t)
  (file : FileStorage.t file_content) (files : list (FileStorage.t file_content)).

Local Abbreviation converted :=
  (fun file => has_excel_name file && converts CV pd_read_excel serializer_error file).
Local Abbreviation failed :=
  (fun file => has_excel_name file && negb (converts CV pd_read_excel serializer_error file)).

(** One round of the loop, run where the session has its entry: it
    returns, writes what the round without the table writes, and leaves
    the session an entry with the counters moved on. *)
Lemma convert_file_run session_id total_files i file table zf p :
  table !! session_id = Some p ->
  i < total_files ->
  exists p',
    Server.convert_file CV pd_read_excel serializer_error key_error
      session_id total_files i file
      {| Server.conversion_progress := table; Server.zip_file := zf |} =
    (Returned tt,
     {| Server.conversion_progress := <[session_id := p']> table;
        Server.zip_file := convert_file CV pd_read_excel serializer_error zf file |}) /\
    Progress.total p' = Progress.total p /\
    Progress.successful p' =
      Progress.successful p + (if converted file then 1 else 0) /\
    Progress.errors p' =
      Progress.errors p + (if failed file then 1 else 0) /\
    Progress.processed p' =
      (if has_excel_name file then i + 1 else Progress.processed p).
Proof.
  intros Hp Hi.
  unfold Server.convert_file, convert_file, has_excel_name, converts.
  destruct (Py.endswith_any _ _).
  2:{ exists p. rewrite insert_id by done. cbn. repeat split; lia. }
  destruct (percentage_returns i total_files ltac:(lia) ltac:(lia)) as [x1 Hx1].
  destruct (percentage_returns (i + 1) total_files ltac:(lia) ltac:(lia)) as [x2 Hx2].
  unfold Server.and_then, Server.try_except, Server.getitem, Server.call,
    Server.changed, Server.count_successful, Server.count_error,
    Server.zip_writestr, Server.and_then, Server.getitem, Server.changed.
  cbn [Server.conversion_progress Server.zip_file].
  rewrite Hp, Hx1.
  destruct (FileStorage.read file) as [content|e].
  - destruct (convert_excel_to_xml _ _ _ _ _) as [[] result];
      cbn [Server.conversion_progress Server.zip_file fst];
      rewrite ?lookup_insert_eq, ?Hx2, ?insert_insert_eq;
      cbn [Server.conversion_progress Server.zip_file fst];
      rewrite ?lookup_insert_eq, ?Hx2, ?insert_insert_eq;
      cbn [Server.conversion_progress Server.zip_file fst];
      rewrite ?lookup_insert_eq, ?Hx2, ?insert_insert_eq;
      (eexists; split; [reflexivity|]); cbn; repeat split; lia.
  - cbn [Server.conversion_progress Server.zip_file fst];
      rewrite ?lookup_insert_eq, ?Hx2, ?insert_insert_eq;
      cbn [Server.conversion_progress Server.zip_file fst];
      rewrite ?lookup_insert_eq, ?Hx2, ?insert_insert_eq;
      cbn [Server.conversion_progress Server.zip_file fst];
      rewrite ?lookup_insert_eq, ?Hx2, ?insert_insert_eq;
      (eexists; split; [reflexivity|]); cbn; repeat split; lia.
Qed.

Lemma loop_run session_id total_files files : forall start table zf p,
  table !! session_id = Some p ->
  start + length files <= total_files ->
  exists p',
    Server.for_each (combine (seq start (length files)) files)
      (fun '(i, file) =>
         Server.convert_file CV pd_read_excel serializer_error key_error
           session_id total_files i file)
      {| Server.conversion_progress := table; Server.zip_file := zf |} =
    (Returned tt,
     {| Server.conversion_progress := <[session_id := p']> table;
        Server.zip_file :=
          fold_left (convert_file CV pd_read_excel serializer_error) files zf |}) /\
    Progress.total p' = Progress.total p /\
    Progress.successful p' =
      Progress.successful p + length (filter (fun f => converted f = true) files) /\
    Progress.errors p' =
      Progress.errors p + length (filter (fun f => failed f = true) files) /\
    Progress.processed p' = processed_after start files (Progress.processed p).
Proof.
  induction files as [|file files IH]; intros start table zf p Hp Hlen.
  - exists p. rewrite insert_id by done. cbn. repeat split; lia.
  - cbn [length seq combine Server.for_each fold_left processed_after] in *.
    destruct (convert_file_run session_id total_files start file table zf p Hp
                ltac:(lia)) as (p1 & Hrun & Ht & Hs & He & Hd).
    unfold Server.and_then at 1. rewrite Hrun.
    destruct (IH (S start) (<[session_id := p1]> table)
                (convert_file CV pd_read_excel serializer_error zf file) p1
                ltac:(apply lookup_insert_eq) ltac:(lia))
      as (p2 & Hrun2 & Ht2 & Hs2 & He2 & Hd2).
    exists p2. rewrite Hrun2, insert_insert_eq.
    split; [done|]. rewrite Ht2, Hs2, He2, Hd2, Ht, Hs, He, Hd.
    repeat split.
    + destruct (converted file) eqn:Hc.
      * rewrite filter_cons_True by done. simpl. lia.
      * rewrite filter_cons_False by (by rewrite Hc). lia.
    + destruct (failed file) eqn:Hc.
      * rewrite filter_cons_True by done. simpl. lia.
      * rewrite filter_cons_False by (by rewrite Hc). lia.
Qed.

(** A whole request that passes the two checks at its start. *)
Lemma request_run files form_session_id uuid4 table :
  match files with
  | [] => true
  | first :: _ => String.eqb (FileStorage.filename first) ""
  end = false ->
  let session_id := default uuid4 form_session_id in
  exists p,
    Server.convert_files CV pd_read_excel serializer_error key_error
      (Some files) form_session_id uuid4 table =
    (SendFile (fold_left (convert_file CV pd_read_excel serializer_error) files []),
     <[session_id := p]> table) /\
    Progress.total p = length files /\
    Progress.successful p = length (filter (fun f => converted f = true) files) /\
    Progress.errors p = length (filter (fun f => failed f = true) files) /\
    Progress.processed p = processed_after 0 files 0 /\
    Progress.percent p = PyInt 100 /\
    Progress.current_file p = "" /\
    Progress.status p = "Conversion completed! Creating ZIP file...".
Proof.
  intros Hchecks session_id. unfold Server.convert_files. rewrite Hchecks.
  replace (match form_session_id with Some v => v | None => uuid4 end)
    with session_id by (by destruct form_session_id).
  destruct (loop_run session_id (length files) files 0
              (<[session_id := Server.starting files]> table) []
              (Server.starting files)
              ltac:(apply lookup_insert_eq) ltac:(lia))
    as (p1 & Hrun & Ht & Hs & He & Hd).
  rewrite insert_insert_eq in Hrun.
  unfold Server.and_then at 1. unfold enumerate. rewrite Hrun.
  unfold Server.and_then, Server.getitem, Server.changed.
  cbn [Server.conversion_progress Server.zip_file].
  rewrite lookup_insert_eq.
  cbn [Server.conversion_progress Server.zip_file].
  rewrite insert_insert_eq.
  eexists. split; [reflexivity|]. cbn.
  rewrite Ht, Hs, He, Hd. done.
Qed.

(** Every round that passes the name test adds one entry: a document or
    a report. *)
Lemma archive_count files zf :
  length (fold_left (convert_file CV pd_read_excel serializer_error) files zf) =
  length zf +
  (length (filter (fun f => converted f = true) files) +
   length (filter (fun f => failed f = true) files)).
Proof.
  revert zf. induction files as [|f files IH]; intros zf; [simpl; lia|].
  cbn [fold_left]. rewrite IH. clear IH.
  unfold convert_file, writestr.
  destruct (Py.endswith_any _ _) eqn:Hx.
  - destruct (FileStorage.read f) as [content|e] eqn:Hr.
    + destruct (convert_excel_to_xml _ _ _ content _) as [[] result] eqn:Hcv.
      * rewrite filter_cons_True, (filter_cons_False (λ f, failed f = true)).
        -- rewrite length_app. simpl. lia.
        -- unfold has_excel_name, converts. rewrite Hx, Hr, Hcv. done.
        -- unfold has_excel_name, converts. rewrite Hx, Hr, Hcv. done.
      * rewrite filter_cons_False, (filter_cons_True (λ f, failed f = true)).
        -- rewrite length_app. simpl. lia.
        -- unfold has_excel_name, converts. rewrite Hx, Hr, Hcv. done.
        -- unfold has_excel_name, converts. rewrite Hx, Hr, Hcv. done.
    + rewrite filter_cons_False, (filter_cons_True (λ f, failed f = true)).
      * rewrite length_app. simpl. lia.
      * unfold has_excel_name, converts. rewrite Hx, Hr. done.
      * unfold has_excel_name, converts. rewrite Hx, Hr. done.
  - rewrite !filter_cons_False; [lia| |];
      unfold has_excel_name; rewrite Hx; done.
Qed.

End Tracking.

(** ** The entries of the archive *)

Section Archive.

Variable CV : consignment_values.
Variable file_content : Type.
Variable pd_read_excel : file_content -> string -> outcome pd.DataFrame.
Variable serializer_error : element -> string.
Variable key_error : string -> string.

(** What the loop that writes the archive leaves: for every upload with an
    Excel name, in upload order, the document or a report. *)
Lemma written_entries (files : list (FileStorage.t file_content)) :
  Forall2
    (fun file entry =>
       let name := FileStorage.filename file in
       match FileStorage.read file with
       | Returned content =>
           match convert_excel_to_xml CV pd_read_excel serializer_error
                   content name with
           | (true, document) =>
               entry = (Py.rsplit1_head "." name +:+ ".xml", document)
           | (false, reason) =>
               entry = (name +:+ "_ERROR.txt", "Conversion failed: " +:+ reason)
           end
       | Raised e =>
           entry = (name +:+ "_ERROR.txt", "Unexpected error: " +:+ e)
       end)
    (filter (fun f => has_excel_name f = true) files)
    (fold_left (convert_file CV pd_read_excel serializer_error) files []).
Proof.
  rewrite convert_loop_app. cbn [app].
  induction files as [|file files IH]; [constructor|].
  cbn [map concat].
  destruct (has_excel_name file) eqn:Hx.
  - rewrite filter_cons_True by done.
    unfold convert_file at 1. unfold has_excel_name in Hx. rewrite Hx.
    unfold writestr. cbv zeta.
    destruct (FileStorage.read file) as [content|e] eqn:Hread.
    + destruct (convert_excel_to_xml _ _ _ content _) as [[] result] eqn:Hcv;
        cbn [app]; (constructor; [by rewrite Hread, Hcv|exact IH]).
    + cbn [app]. constructor; [by rewrite Hread|exact IH].
  - rewrite filter_cons_False by (by rewrite Hx).
    unfold convert_file at 1. unfold has_excel_name in Hx. rewrite Hx.
    exact IH.
Qed.

(** C7 (amended).  For every batch whose first file has a name, served by
    a request that runs on its own, the answer is an archive that holds, in
    upload order, exactly one entry per submitted file whose name ends, in
    any letter case, with .xlsx, .xls or .xlsm, failing files included:
    - the converted document, under the name of the file with its
      extension replaced by .xml, when the file is read and converts;
    - the report "Conversion failed: <reason>" under the name of the file
      followed by _ERROR.txt when the conversion fails;
    - the report "Unexpected error: <exception>" under that name when the
      upload cannot be read.
    A file with any other name gets no entry.  So the number of entries is
    the number of files with such a name, and it equals the number of
    files when all names have such an ending. *)
Theorem archive_has_one_entry_per_excel_upload first rest form_session_id
    uuid4 table :
  FileStorage.filename first <> "" ->
  exists entries,
    fst (Server.convert_files CV pd_read_excel serializer_error key_error
           (Some (first :: rest)) form_session_id uuid4 table) =
      SendFile entries /\
    Forall2
      (fun file entry =>
         let name := FileStorage.filename file in
         match FileStorage.read file with
         | Returned content =>
             match convert_excel_to_xml CV pd_read_excel serializer_error
                     content name with
             | (true, document) =>
                 entry = (Py.rsplit1_head "." name +:+ ".xml", document)
             | (false, reason) =>
                 entry = (name +:+ "_ERROR.txt", "Conversion failed: " +:+ reason)
             end
         | Raised e =>
             entry = (name +:+ "_ERROR.txt", "Unexpected error: " +:+ e)
         end)
      (filter (fun f => has_excel_name f = true) (first :: rest)) entries /\
    length entries =
      length (filter (fun f => has_excel_name f = true) (first :: rest)) /\
    (Forall (fun f => has_excel_name f = true) (first :: rest) ->
     length entries = length (first :: rest)).
Proof.
  intros Hname.
  destruct (request_run CV file_content pd_read_excel serializer_error key_error
              (first :: rest) form_session_id uuid4 table)
    as (p & Hrun & _).
  { by apply String.eqb_neq. }
  rewrite Hrun. cbn [fst]. eexists. split; [reflexivity|].
  pose proof (written_entries (first :: rest)) as Hentries.
  split; [exact Hentries|].
  apply Forall2_length in Hentries. split; [done|].
  intros Hall. rewrite <- Hentries. f_equal.
  clear -Hall. induction Hall as [|f fs Hf _ IH]; [done|].
  rewrite filter_cons_True by done. by rewrite IH.
Qed.

End Archive.

(** C7 (counterexample).  A batch of one file named notes.txt is answered
    with an archive without entries. *)
Lemma upload_without_excel_name_gets_no_entry :
  fst (Server.convert_files CONSIGNMENT_VALUES read_sheet no_message quoted
         (Some [upload "notes.txt" items_only_workbook]) None "uuid" ∅) =
  SendFile [].
Proof. vm_compute. reflexivity. Qed.

(** C7 (witness): of three uploads, the two with an Excel name get an
    entry, the first its document and the last a report. *)
Lemma archive_entries_witness :
  exists document,
    fst (Server.convert_files CONSIGNMENT_VALUES read_sheet no_message quoted
           (Some [upload "a.xlsx" items_only_workbook;
                  upload "notes.txt" items_only_workbook;
                  upload "B.XLS" empty_workbook])
           None "uuid" ∅) =
    SendFile
      [("a.xml", document);
       ("B.XLS_ERROR.txt", "Conversion failed: No valid data found in B.XLS")].
Proof.
  destruct (archive_has_one_entry_per_excel_upload CONSIGNMENT_VALUES workbook
              read_sheet no_message quoted
              (upload "a.xlsx" items_only_workbook)
              [upload "notes.txt" items_only_workbook;
               upload "B.XLS" empty_workbook]
              None "uuid" ∅)
    as (entries & -> & Hentries & _).
  - discriminate.
  - rewrite filter_cons_True in Hentries by reflexivity.
    rewrite filter_cons_False in Hentries by discriminate.
    rewrite filter_cons_True in Hentries by reflexivity.
    rewrite filter_nil in Hentries.
    apply Forall2_cons_inv_l in Hentries as (e1 & rest1 & H1 & Hrest & ->).
    apply Forall2_cons_inv_l in Hrest as (e2 & rest2 & H2 & Hnil & ->).
    apply Forall2_nil_inv_l in Hnil as ->.
    exists (snd e1). f_equal. f_equal.
    + cbn [FileStorage.read FileStorage.filename upload] in H1.
      destruct (convert_excel_to_xml _ _ _ _ _) as [[] r1] eqn:Hc1.
      * by subst e1.
      * exfalso. revert Hc1. vm_compute. discriminate.
    + f_equal. vm_compute in H2. exact H2.
Defined.

(** ** The progress table of the batch endpoint *)

Lemma processed_after_snoc {file_content} (files : list (FileStorage.t file_content))
    file start before :
  processed_after start (files ++ [file]) before =
  if has_excel_name file then start + length files + 1
  else processed_after start files before.
Proof.
  revert start before. induction files as [|f files IH]; intros start before.
  - cbn [app processed_after length]. destruct (has_excel_name file); lia.
  - cbn [app processed_after length]. rewrite IH.
    destruct (has_excel_name file); [lia|done].
Qed.

Lemma processed_after_le {file_content} (files : list (FileStorage.t file_content))
    start before :
  before <= start -> processed_after start files before <= start + length files.
Proof.
  revert start before. induction files as [|f files IH]; intros start before Hb.
  - cbn [processed_after length]. lia.
  - cbn [processed_after length].
    etransitivity; [apply IH; destruct (has_excel_name f); lia|lia].
Qed.

Section Sessions.

Variable CV : consignment_values.
Variable file_content : Type.
Variable pd_read_excel : file_content -> string -> outcome pd.DataFrame.
Variable serializer_error : element -> string.
Variable key_error : string -> string.

Implicit Types (table : gmap string Progress.t)
  (first : FileStorage.t file_content) (rest : list (FileStorage.t file_content)).

(** X19.  The progress bookkeeping never changes what the batch endpoint
    answers: for every request, session id and progress table, the
    response of the handler that keeps the table is the response of the
    loop that only writes the archive.  While the request runs on its own
    no access to the table fails, so it is never answered with status
    500. *)
Theorem progress_tracking_keeps_the_answer request_files form_session_id uuid4 table :
  fst (Server.convert_files CV pd_read_excel serializer_error key_error
         request_files form_session_id uuid4 table) =
    convert_files CV pd_read_excel serializer_error request_files /\
  forall e, fst (Server.convert_files CV pd_read_excel serializer_error key_error
                   request_files form_session_id uuid4 table) <> JsonError e 500.
Proof.
  assert (fst (Server.convert_files CV pd_read_excel serializer_error key_error
                 request_files form_session_id uuid4 table) =
          convert_files CV pd_read_excel serializer_error request_files) as Heq.
  { destruct request_files as [files|]; [|done].
    destruct (match files with
              | [] => true
              | f :: _ => String.eqb (FileStorage.filename f) ""
              end) eqn:Hchecks.
    - unfold Server.convert_files, convert_files. rewrite Hchecks.
      destruct files as [|f files]; [done|]. by rewrite Hchecks.
    - destruct (request_run CV file_content pd_read_excel serializer_error
                  key_error files form_session_id uuid4 table Hchecks)
        as (p & -> & _).
      unfold convert_files. destruct files as [|f files]; [done|].
      by rewrite Hchecks. }
  split; [done|]. intros e. rewrite Heq. unfold convert_files.
  destruct request_files as [[|f files]|]; try done.
  by destruct (String.eqb _ _).
Qed.

(** X20.  When a batch has been served (its first file has a name), the
    entry of its session shows: [total] the number of uploads,
    [successful] the number of uploads with an Excel name that were read
    and converted, [successful + errors] the number of entries of the
    archive, [percent] the integer 100, no current file, and the status
    "Conversion completed! Creating ZIP file...". *)
Theorem served_batch_leaves_its_counts first rest form_session_id uuid4 table :
  FileStorage.filename first <> "" ->
  exists entries progress,
    fst (Server.convert_files CV pd_read_excel serializer_error key_error
           (Some (first :: rest)) form_session_id uuid4 table) =
      SendFile entries /\
    snd (Server.convert_files CV pd_read_excel serializer_error key_error
           (Some (first :: rest)) form_session_id uuid4 table)
      !! default uuid4 form_session_id = Some progress /\
    Progress.total progress = length (first :: rest) /\
    Progress.successful progress =
      length (filter
                (fun f => has_excel_name f &&
                          converts CV pd_read_excel serializer_error f = true)
                (first :: rest)) /\
    Progress.successful progress + Progress.errors progress = length entries /\
    Progress.percent progress = PyInt 100 /\
    Progress.current_file progress = "" /\
    Progress.status progress = "Conversion completed! Creating ZIP file...".
Proof.
  intros Hname.
  destruct (request_run CV file_content pd_read_excel serializer_error key_error
              (first :: rest) form_session_id uuid4 table)
    as (p & Hrun & Ht & Hs & He & Hd & Hp & Hc & Hst).
  { by apply String.eqb_neq. }
  cbv zeta in Hrun. rewrite Hrun. cbn [fst snd].
  eexists _, p. split; [reflexivity|]. rewrite lookup_insert_eq.
  repeat split; try done.
  rewrite Hs, He.
  rewrite (archive_count CV file_content pd_read_excel serializer_error). simpl. lia.
Qed.

(** X21.  The [processed] counter of a served batch is set only in rounds
    that convert a file: it never exceeds [total], and it reaches [total]
    exactly when the last upload has an Excel name. *)
Theorem processed_reaches_total_iff_last_upload_is_excel
    first rest final form_session_id uuid4 table :
  FileStorage.filename first <> "" ->
  last (first :: rest) = Some final ->
  exists progress,
    snd (Server.convert_files CV pd_read_excel serializer_error key_error
           (Some (first :: rest)) form_session_id uuid4 table)
      !! default uuid4 form_session_id = Some progress /\
    Progress.processed progress <= Progress.total progress /\
    (Progress.processed progress = Progress.total progress <->
     has_excel_name final = true).
Proof.
  intros Hname Hlast.
  destruct (request_run CV file_content pd_read_excel serializer_error key_error
              (first :: rest) form_session_id uuid4 table)
    as (p & Hrun & Ht & Hs & He & Hd & _).
  { by apply String.eqb_neq. }
  cbv zeta in Hrun. rewrite Hrun. cbn [snd].
  exists p. rewrite lookup_insert_eq. split; [done|].
  rewrite Hd, Ht. revert Hlast. generalize (first :: rest). intros files Hlast.
  apply last_Some in Hlast as [init ->].
  rewrite processed_after_snoc, length_app. cbn [length].
  pose proof (processed_after_le init 0 0 ltac:(lia)) as Hle.
  destruct (has_excel_name final); split; try lia; try done.
Qed.

(** X22.  A request touches no entry of the table but that of its own
    session, and a request that is turned away (no files part, no file,
    or a first file without a name) leaves the table as it found it. *)
Theorem request_touches_only_its_session request_files form_session_id uuid4 table :
  (forall other, other <> default uuid4 form_session_id ->
     snd (Server.convert_files CV pd_read_excel serializer_error key_error
            request_files form_session_id uuid4 table) !! other =
       table !! other) /\
  ((forall entries,
      fst (Server.convert_files CV pd_read_excel serializer_error key_error
             request_files form_session_id uuid4 table) <> SendFile entries) ->
   snd (Server.convert_files CV pd_read_excel serializer_error key_error
          request_files form_session_id uuid4 table) = table).
Proof.
  destruct request_files as [files|]; [|done].
  destruct (match files with
            | [] => true
            | f :: _ => String.eqb (FileStorage.filename f) ""
            end) eqn:Hchecks.
  - unfold Server.convert_files. by rewrite Hchecks.
  - destruct (request_run CV file_content pd_read_excel serializer_error
                key_error files form_session_id uuid4 table Hchecks)
      as (p & Hrun & _).
    cbv zeta in Hrun. rewrite Hrun. cbn [fst snd]. split.
    + intros other Hother. by rewrite lookup_insert_ne.
    + intros Hno. by destruct (Hno _ eq_refl).
Qed.

(** X23.  The life of a session: after a batch has been served,
    [get_progress] sends the finished entry; once the clean-up thread has
    run the table is the one before the request without the session, and
    [get_progress] sends the "Session not found" dictionary with all
    counters at 0. *)
Theorem session_is_forgotten_after_cleanup first rest form_session_id uuid4 table :
  FileStorage.filename first <> "" ->
  let session_id := default uuid4 form_session_id in
  let served := snd (Server.convert_files CV pd_read_excel serializer_error key_error
                       (Some (first :: rest)) form_session_id uuid4 table) in
  Progress.status (Server.get_progress session_id served) =
    "Conversion completed! Creating ZIP file..." /\
  Server.cleanup_progress session_id served = delete session_id table /\
  Server.get_progress session_id (Server.cleanup_progress session_id served) =
    {| Progress.total := 0;
       Progress.processed := 0;
       Progress.successful := 0;
       Progress.errors := 0;
       Progress.percent := PyInt 0;
       Progress.current_file := "No active session";
       Progress.status := "Session not found" |}.
Proof.
  intros Hname session_id served. subst served session_id.
  destruct (request_run CV file_content pd_read_excel serializer_error key_error
              (first :: rest) form_session_id uuid4 table)
    as (p & Hrun & _ & _ & _ & _ & _ & _ & Hst).
  { by apply String.eqb_neq. }
  cbv zeta in Hrun. rewrite Hrun. cbn [snd].
  unfold Server.get_progress, Server.cleanup_progress, Server.forget.
  rewrite lookup_insert_eq, delete_insert_eq, lookup_delete_eq. done.
Qed.

End Sessions.

(** X20 (witness): the example batch of four uploads, one converted, one
    skipped, two failing. *)
Lemma served_batch_witness :
  exists entries progress,
    fst (Server.convert_files CONSIGNMENT_VALUES read_sheet no_message quoted
           (Some example_batch) (Some "s1") "uuid" example_table) =
      SendFile entries /\
    snd (Server.convert_files CONSIGNMENT_VALUES read_sheet no_message quoted
           (Some example_batch) (Some "s1") "uuid" example_table) !! "s1" =
      Some progress /\
    Progress.total progress = 4 /\
    Progress.successful progress = 1 /\
    Progress.successful progress + Progress.errors progress = length entries /\
    length entries = 3.
Proof.
  destruct (served_batch_leaves_its_counts CONSIGNMENT_VALUES workbook read_sheet
              no_message quoted
              (upload "form.one.XLSX" example_workbook)
              [upload "notes.txt" example_workbook;
               upload "empty.xls" empty_workbook;
               unreadable "broken.xlsm"]
              (Some "s1") "uuid" example_table)
    as (entries & progress & Hfst & Hsnd & Ht & Hs & Hse & _).
  - discriminate.
  - exists entries, progress.
    split; [exact Hfst|]. split; [exact Hsnd|].
    split; [rewrite Ht; reflexivity|].
    split; [rewrite Hs; vm_compute; reflexivity|].
    split; [exact Hse|].
    revert Hfst. vm_compute. intros [= <-]. reflexivity.
Defined.

(** X21 (witness): a batch that ends with a skipped file stops short of
    its total. *)
Lemma processed_stops_short_witness :
  exists progress,
    snd (Server.convert_files CONSIGNMENT_VALUES read_sheet no_message quoted
           (Some [upload "a.xlsx" example_workbook;
                  upload "notes.txt" example_workbook])
           None "uuid" ∅) !! "uuid" = Some progress /\
    Progress.processed progress <> Progress.total progress.
Proof.
  destruct (processed_reaches_total_iff_last_upload_is_excel CONSIGNMENT_VALUES
              workbook read_sheet no_message quoted
              (upload "a.xlsx" example_workbook)
              [upload "notes.txt" example_workbook]
              (upload "notes.txt" example_workbook) None "uuid" ∅)
    as (progress & Hsnd & _ & Hiff).
  - discriminate.
  - reflexivity.
  - exists progress. split; [exact Hsnd|].
    intros Heq. apply Hiff in Heq. discriminate Heq.
Defined.

(** X23 (witness): the session of the example batch. *)
Lemma session_lifecycle_witness :
  Server.cleanup_progress "s1"
    (snd (Server.convert_files CONSIGNMENT_VALUES read_sheet no_message quoted
            (Some example_batch) (Some "s1") "uuid" example_table)) =
  delete "s1" example_table.
Proof.
  apply (session_is_forgotten_after_cleanup CONSIGNMENT_VALUES workbook read_sheet
           no_message quoted
           (upload "form.one.XLSX" example_workbook)
           [upload "notes.txt" example_workbook;
            upload "empty.xls" empty_workbook;
            unreadable "broken.xlsm"]
           (Some "s1") "uuid" example_table).
  discriminate.
Defined.
